(** * Research-Quest: the stage-gated graph state machine of [server/index.js]

  A shallow embedding of class [ResearchQuestGraph] and of the tool
  handler that drives it, with the properties its specification states
  about it and further properties of the code.

  Conventions of the embedding.
  - A JavaScript number is an IEEE-754 binary64 value: Rocq's primitive
    [float], whose operations round exactly as the JavaScript ones do.
  - A JavaScript string is a sequence of UTF-16 code units.  The model
    covers the code units below 256, one [ascii] each, so [String.length]
    is the [length] property.
  - A caller-supplied argument is a [value]: what [JSON.parse] can build,
    plus [undefined] for an argument that was left out.
  - [this] is a [graph] record threaded through the methods; an exception
    is the [Throw] outcome; [try]/[catch] is [match] on the outcome.
  - A [Map] is an association list in insertion order, a [Set] a
    duplicate-free list in insertion order.
  - Of a [console.error] line only the conversion of a caller's value in
    its template literal is kept, since it can throw.  Timestamps
    ([created], [updated], [timestamp]) and the unused random [uuidv4()]
    defaults are left out: no method reads them back. *)

From Stdlib Require Import Floats ZArith Uint63 Bool List Ascii String Arith Lia.
From Stdlib Require Import DecimalString DecimalNat.
Import ListNotations.

Set Warnings "-register-all,-inexact-float".

Local Open Scope string_scope.
Local Open Scope list_scope.
Local Open Scope nat_scope.

(* ================================================================== *)
(** * Strings *)

Module Str.

(** [WhiteSpace] and [LineTerminator] code units below 256: TAB, LF, VT,
    FF, CR, SP and NBSP.  These are what [String.prototype.trim] and the
    numeric-string grammar strip. *)
Definition is_space (c : ascii) : bool :=
  let n := nat_of_ascii c in
  (n =? 9) || (n =? 10) || (n =? 11) || (n =? 12) || (n =? 13)
  || (n =? 32) || (n =? 160).

Fixpoint trimStart (s : string) : string :=
  match s with
  | String c r => if is_space c then trimStart r else s
  | EmptyString => EmptyString
  end.

Definition rev (s : string) : string :=
  string_of_list_ascii (List.rev (list_ascii_of_string s)).

(** [s.trim()] *)
Definition trim (s : string) : string := rev (trimStart (rev (trimStart s))).

(** [s.toLowerCase()] on code units below 256: A-Z, and the Latin-1
    capitals U+00C0..U+00DE except the multiplication sign U+00D7. *)
Definition lower_char (c : ascii) : ascii :=
  let n := nat_of_ascii c in
  if ((65 <=? n) && (n <=? 90))
     || ((192 <=? n) && (n <=? 222) && negb (n =? 215))
  then ascii_of_nat (n + 32) else c.

Fixpoint toLowerCase (s : string) : string :=
  match s with
  | String c r => String (lower_char c) (toLowerCase r)
  | EmptyString => EmptyString
  end.

(** [s.startsWith(p)] *)
Definition startsWith (p s : string) : bool := String.prefix p s.

(** [s.includes(p)] *)
Fixpoint includes (p s : string) : bool :=
  String.prefix p s
  || match s with
     | String _ r => includes p r
     | EmptyString => false
     end.

(** [s.split(".")]: the pieces between the dots. *)
Fixpoint split_dot_aux (cur : list ascii) (s : string) : list string :=
  match s with
  | EmptyString => [string_of_list_ascii (List.rev cur)]
  | String c r =>
      if Ascii.eqb c "."%char
      then string_of_list_ascii (List.rev cur) :: split_dot_aux [] r
      else split_dot_aux (c :: cur) r
  end.

Definition split_dot (s : string) : list string := split_dot_aux [] s.

(** [l.join(sep)] *)
Fixpoint join (sep : string) (l : list string) : string :=
  match l with
  | [] => ""
  | [x] => x
  | x :: r => (x ++ sep ++ join sep r)%string
  end.

Definition is_digit (c : ascii) : bool :=
  let n := nat_of_ascii c in (48 <=? n) && (n <=? 57).

Fixpoint all_digits (s : string) : bool :=
  match s with
  | String c r => is_digit c && all_digits r
  | EmptyString => true
  end.

(** [s] between two double-quote characters (code unit 34). *)
Definition quoted (s : string) : string :=
  (String (ascii_of_nat 34) s ++ String (ascii_of_nat 34) EmptyString)%string.

(** The template-literal rendering of a non-negative integer. *)
Definition of_nat (n : nat) : string := NilEmpty.string_of_uint (Nat.to_uint n).

End Str.

(* ================================================================== *)
(** * Numbers *)

Module Num.

Local Open Scope float_scope.

Definition nan : float := PrimFloat.nan.

(** The number value of a small non-negative integer such as a [length]
    (exact below 2^53). *)
Definition of_nat (n : nat) : float :=
  PrimFloat.of_uint63 (Uint63.of_Z (Z.of_nat n)).

(** [isNaN(x)] on a number. *)
Definition isNaN (x : float) : bool := PrimFloat.is_nan x.

(** Truthiness of a number: everything but [0], [-0] and [NaN]. *)
Definition truthy (x : float) : bool :=
  negb (PrimFloat.is_nan x || PrimFloat.is_zero x).

(** The range test shared by the confidence and impact checks:
    [isNaN(num) || num < 0 || num > 1]. *)
Definition out_of_unit (num : float) : bool :=
  isNaN num || (num <? 0) || (1 <? num).

(** [Math.floor] on the range [0 < x <= 5], the only place the code
    applies it (guarded by [maxHyp > 0 && maxHyp <= 5]). *)
Definition floor_upto5 (x : float) : nat :=
  if 5 <=? x then 5%nat
  else if 4 <=? x then 4%nat
  else if 3 <=? x then 3%nat
  else if 2 <=? x then 2%nat
  else if 1 <=? x then 1%nat
  else 0%nat.

(** ** [StringToNumber]

    The numeric value of a string (ECMAScript [StringToNumber]): the
    string is trimmed; the empty string is [0]; a [StrDecimalLiteral]
    (optional sign, digits with an optional fraction and exponent, or
    [Infinity]) or an unsigned [0x] / [0o] / [0b] literal is its
    mathematical value rounded to the nearest binary64, ties to even;
    anything else is [NaN]. *)

Definition digit_of (base : Z) (c : ascii) : option Z :=
  let n := Z.of_nat (nat_of_ascii c) in
  let d :=
    if (48 <=? n)%Z && (n <=? 57)%Z then (n - 48)%Z
    else if (97 <=? n)%Z && (n <=? 102)%Z then (n - 87)%Z
    else if (65 <=? n)%Z && (n <=? 70)%Z then (n - 55)%Z
    else 16%Z in
  if (d <? base)%Z then Some d else None.

(** Reads the longest run of digits: the value accumulated onto [acc],
    how many digits were read, and what is left. *)
Fixpoint read_digits (base acc : Z) (cnt : nat) (l : list ascii)
  : Z * nat * list ascii :=
  match l with
  | c :: r =>
      match digit_of base c with
      | Some d => read_digits base (base * acc + d)%Z (S cnt) r
      | None => (acc, cnt, l)
      end
  | [] => (acc, cnt, [])
  end.

Definition of_spec (x : spec_float) : float := SF2Prim x.

(** [(-1)^neg * m * 10^e], correctly rounded. *)
Definition of_decimal (neg : bool) (m e : Z) : float :=
  match m with
  | Zpos p =>
      match e with
      | Zneg k =>
          of_spec (SFdiv prec emax (S754_finite neg p 0)
                     (S754_finite false (Pos.pow 10 k) 0))
      | _ => of_spec (binary_normalize prec emax
                        (if neg then - (m * 10 ^ e) else m * 10 ^ e)%Z 0 neg)
      end
  | _ => of_spec (S754_zero neg)
  end.

Definition parse_exponent (l : list ascii) : option Z :=
  match l with
  | [] => Some 0%Z
  | c :: r =>
      if Ascii.eqb c "e"%char || Ascii.eqb c "E"%char then
        let '(neg, r') :=
          match r with
          | s :: r' =>
              if Ascii.eqb s "-"%char then (true, r')
              else if Ascii.eqb s "+"%char then (false, r')
              else (false, r)
          | [] => (false, r)
          end in
        match read_digits 10 0 0 r' with
        | (_, O, _) => None
        | (v, _, []) => Some (if neg then (- v)%Z else v)
        | _ => None
        end
      else None
  end.

Definition parse_unsigned_decimal (neg : bool) (l : list ascii) : float :=
  if list_eq_dec ascii_dec l (list_ascii_of_string "Infinity")
  then (if neg then neg_infinity else infinity)
  else
    let '(ip, n1, r1) := read_digits 10 0 0 l in
    let '(m, n2, r2) :=
      match r1 with
      | c :: r =>
          if Ascii.eqb c "."%char then read_digits 10 ip 0 r
          else (ip, O, r1)
      | [] => (ip, O, r1)
      end in
    match (n1 + n2)%nat with
    | O => nan
    | _ =>
        match parse_exponent r2 with
        | Some e => of_decimal neg m (e - Z.of_nat n2)
        | None => nan
        end
    end.

Definition parse_radix (base : Z) (l : list ascii) : float :=
  match read_digits base 0 0 l with
  | (_, O, _) => nan
  | (v, _, []) => of_decimal false v 0
  | _ => nan
  end.

Definition StringToNumber (s : string) : float :=
  match list_ascii_of_string (Str.trim s) with
  | [] => 0
  | c :: r =>
      if Ascii.eqb c "-"%char then parse_unsigned_decimal true r
      else if Ascii.eqb c "+"%char then parse_unsigned_decimal false r
      else
        match r with
        | x :: r' =>
            if Ascii.eqb c "0"%char then
              if Ascii.eqb x "x"%char || Ascii.eqb x "X"%char then parse_radix 16 r'
              else if Ascii.eqb x "o"%char || Ascii.eqb x "O"%char then parse_radix 8 r'
              else if Ascii.eqb x "b"%char || Ascii.eqb x "B"%char then parse_radix 2 r'
              else parse_unsigned_decimal false (c :: r)
            else parse_unsigned_decimal false (c :: r)
        | [] => parse_unsigned_decimal false (c :: r)
        end
  end.

(** ** [Number::toString]

    The string of a number (radix 10): [NaN], [0] for both zeros,
    [Infinity], and otherwise the digits [s] (there are [k] of them) and
    the exponent [n] with [s * 10^(n-k)] reading back as the number, [k]
    as small as possible and, for that [k], the value closest to the
    number; they are laid out as an integer, a decimal fraction or in
    exponent notation, by the size of [n]. *)

(** [m * 2^e * 10^t] as a fraction. *)
Definition scaled (m : positive) (e t : Z) : Z * Z :=
  let '(num, den) :=
    if (0 <=? e)%Z then (Zpos m * 2 ^ e, 1)%Z else (Zpos m, 2 ^ (- e))%Z in
  if (0 <=? t)%Z then (num * 10 ^ t, den)%Z else (num, den * 10 ^ (- t))%Z.

Fixpoint magnitude_from (fuel : nat) (m : positive) (e n : Z) : Z :=
  match fuel with
  | O => n
  | S fuel' =>
      let '(num, den) := scaled m e (- n) in
      if (num <? den)%Z then n else magnitude_from fuel' m e (n + 1)
  end.

(** The [n] with [10^(n-1) <= m * 2^e < 10^n], searched upwards from an
    estimate that lies below it by at most 4. *)
Definition magnitude (m : positive) (e : Z) : Z :=
  magnitude_from 6 m e ((Z.log2 (Zpos m) + e) * 30103 / 100000 - 1).

(** The digits: for [k] = 1, 2, ... the two [k]-digit decimals next to
    [x = m * 2^e], the first [k] for which one of them reads back as [x],
    and of the two the closer one.  17 digits always read back. *)
Fixpoint shortest (fuel : nat) (x : float) (m : positive) (e n k : Z) : Z * Z * Z :=
  let '(num, den) := scaled m e (k - n) in
  let lo := (num / den)%Z in
  let r := (num mod den)%Z in
  let below := (lo, n, k) in
  let above :=
    if (lo + 1 =? 10 ^ k)%Z then (10 ^ (k - 1), n + 1, k)%Z else (lo + 1, n, k)%Z in
  let reads_back '(s, n, k) := PrimFloat.eqb (of_decimal false s (n - k)) x in
  if reads_back below && reads_back above then
    if (2 * r <? den)%Z then below
    else if (den <? 2 * r)%Z then above
    else if Z.even lo then below else above
  else if reads_back below then below
  else if reads_back above then above
  else
    match fuel with
    | O => below
    | S fuel' => shortest fuel' x m e n (k + 1)
    end.

Definition zeros (n : nat) : string := string_of_list_ascii (repeat "0"%char n).

Definition digits_of (s : Z) : string :=
  match s with
  | Zpos p => NilEmpty.string_of_uint (Pos.to_uint p)
  | _ => "0"
  end.

Definition toString_positive (x : float) (m : positive) (e : Z) : string :=
  let '(s, n, k) := shortest 17 x m e (magnitude m e) 1 in
  let digits := digits_of s in
  if (k <=? n)%Z && (n <=? 21)%Z then (digits ++ zeros (Z.to_nat (n - k)))%string
  else if (0 <? n)%Z && (n <=? 21)%Z then
    (substring 0 (Z.to_nat n) digits ++ "."
       ++ substring (Z.to_nat n) (Z.to_nat (k - n)) digits)%string
  else if (-6 <? n)%Z && (n <=? 0)%Z then
    ("0." ++ zeros (Z.to_nat (- n)) ++ digits)%string
  else
    ((if (k =? 1)%Z then digits
      else (substring 0 1 digits ++ "." ++ substring 1 (Z.to_nat (k - 1)) digits)%string)
     ++ "e" ++ (if (n - 1 <? 0)%Z then "-" else "+")
     ++ Str.of_nat (Z.to_nat (Z.abs (n - 1))))%string.

Definition toString (x : float) : string :=
  match Prim2SF x with
  | S754_nan => "NaN"
  | S754_zero _ => "0"
  | S754_infinity neg => if neg then "-Infinity" else "Infinity"
  | S754_finite neg m e =>
      ((if neg then "-" else "") ++ toString_positive (abs x) m e)%string
  end.

End Num.


(* ================================================================== *)
(** * Values, exceptions and outcomes *)

(** What a caller can pass: [undefined] (argument left out) or a JSON
    value.  An object lists its own properties, each key once. *)
Inductive value : Type :=
| VUndefined
| VNull
| VBool (b : bool)
| VNum (x : float)
| VStr (s : string)
| VArr (items : list value)
| VObj (fields : list (string * value)).

(** A piece of an error message: literal text, or [JSON.stringify(v)] of a
    received value (the rendering itself is not modelled). *)
Inductive frag : Type :=
| Text (s : string)
| Json (v : value).

Definition msg : Type := list frag.

(** The exceptions the class can raise.  [McpError] is always built with
    [ErrorCode.InvalidParams] here; [message] is the text handed to its
    constructor and [data_field] is [error.data.field], set by
    [_createValidationError] when it is given examples.  [TypeError] is
    raised by the runtime, its argument says why. *)
Inductive exn : Type :=
| McpError (data_field : option string) (message : msg)
| Error (message : msg)
| TypeError (why : string).

(** [error.message].  The constructor of [McpError] puts the code in
    front of the text it is given. *)
Definition message_of (e : exn) : msg :=
  match e with
  | McpError _ m => Text "MCP error -32602: " :: m
  | Error m => m
  | TypeError w => [Text w]
  end.

(** [error instanceof McpError] *)
Definition is_McpError (e : exn) : bool :=
  match e with McpError _ _ => true | _ => false end.

Inductive result (A : Type) : Type :=
| Ok (a : A)
| Throw (e : exn).

Arguments Ok {A} a.
Arguments Throw {A} e.

Definition bind {A B : Type} (r : result A) (k : A -> result B) : result B :=
  match r with
  | Ok a => k a
  | Throw e => Throw e
  end.

Notation "'do' x <- r ; k" := (bind r (fun x => k))
  (at level 10, x name, r at level 100, k at level 200).

Definition is_ok {A : Type} (r : result A) : bool :=
  match r with Ok _ => true | Throw _ => false end.

Module Js.

Local Open Scope float_scope.

Inductive jstype : Type := Tundefined | Tobject | Tboolean | Tnumber | Tstring.

(** [typeof v] *)
Definition typeof (v : value) : jstype :=
  match v with
  | VUndefined => Tundefined
  | VNull => Tobject
  | VBool _ => Tboolean
  | VNum _ => Tnumber
  | VStr _ => Tstring
  | VArr _ => Tobject
  | VObj _ => Tobject
  end.

Definition is_string (v : value) : bool :=
  match v with VStr _ => true | _ => false end.

(** [Array.isArray(v)] *)
Definition isArray (v : value) : bool :=
  match v with VArr _ => true | _ => false end.

(** [v === undefined] *)
Definition is_undefined (v : value) : bool :=
  match v with VUndefined => true | _ => false end.

(** Truthiness, as [!v], [v || d] and [v ? a : b] test it. *)
Definition truthy (v : value) : bool :=
  match v with
  | VUndefined => false
  | VNull => false
  | VBool b => b
  | VNum x => Num.truthy x
  | VStr s => negb (String.eqb s "")
  | VArr _ => true
  | VObj _ => true
  end.

Fixpoint own (k : string) (fields : list (string * value)) : option value :=
  match fields with
  | (k', v) :: r => if String.eqb k k' then Some v else own k r
  | [] => None
  end.

(** [v.k] for a non-nullish [v] and one of the property names the class
    reads from its arguments ([content], [confidence], [plan], [type],
    [max_hypotheses], ...): none of them is inherited or built in, so the
    read finds an own property of an object or yields [undefined]. *)
Definition prop (k : string) (v : value) : value :=
  match v with
  | VObj fields => match own k fields with Some x => x | None => VUndefined end
  | _ => VUndefined
  end.

(** Whether [String(v)] returns: it fails exactly on an object whose own
    [toString] (never callable in a JSON value) hides the inherited one,
    also when such an object sits inside an array being joined. *)
Fixpoint printable (v : value) : bool :=
  match v with
  | VObj fields => match own "toString" fields with Some _ => false | None => true end
  | VArr items => forallb printable items
  | _ => true
  end.

(** The string of a value whose conversion returns: an array is joined
    with commas, [null] and [undefined] entries giving nothing; a plain
    object prints as [[object Object]]. *)
Fixpoint to_string (v : value) : string :=
  match v with
  | VUndefined => "undefined"
  | VNull => "null"
  | VBool b => if b then "true" else "false"
  | VNum x => Num.toString x
  | VStr s => s
  | VArr items =>
      Str.join ","
        (map (fun e => match e with
                       | VUndefined | VNull => ""
                       | _ => to_string e
                       end) items)
  | VObj _ => "[object Object]"
  end.

(** [String(v)], also what a template literal and a computed property
    key [obj[v]] make of [v]. *)
Definition ToString (v : value) : result string :=
  if printable v then Ok (to_string v)
  else Throw (TypeError "Cannot convert object to primitive value").

(** [Number(v)].  An array is converted through its [join]: empty gives
    [0], two or more elements give a string with a comma, hence [NaN]; a
    single element gives the number of that element's string, where a
    number prints to a string that reads back as itself ([-0] as [0]).
    A plain object prints as [[object Object]], hence [NaN]. *)
Fixpoint ToNumber_printable (v : value) : float :=
  match v with
  | VUndefined => Num.nan
  | VNull => 0
  | VBool b => if b then 1 else 0
  | VNum x => x
  | VStr s => Num.StringToNumber s
  | VArr items =>
      match items with
      | [] => 0
      | [e] =>
          match e with
          | VUndefined => 0
          | VNull => 0
          | VBool _ => Num.nan
          | VNum x => if PrimFloat.is_zero x then 0 else x
          | VStr s => Num.StringToNumber s
          | VArr _ => ToNumber_printable e
          | VObj _ => Num.nan
          end
      | _ :: _ :: _ => Num.nan
      end
  | VObj _ => Num.nan
  end.

Definition Number (v : value) : result float :=
  if printable v then Ok (ToNumber_printable v)
  else Throw (TypeError "Cannot convert object to primitive value").

End Js.

(* ================================================================== *)
(** * Containers: [Map] and [Set] with string keys *)

Module JsMap.

Definition t (V : Type) : Type := list (string * V).

Fixpoint get {V : Type} (k : string) (m : t V) : option V :=
  match m with
  | (k', v) :: r => if String.eqb k k' then Some v else get k r
  | [] => None
  end.

Definition has {V : Type} (k : string) (m : t V) : bool :=
  match get k m with Some _ => true | None => false end.

(** [m.set(k, v)]: an existing key keeps its place, a new one goes last. *)
Fixpoint set {V : Type} (k : string) (v : V) (m : t V) : t V :=
  match m with
  | (k', v') :: r =>
      if String.eqb k k' then (k, v) :: r else (k', v') :: set k v r
  | [] => [(k, v)]
  end.

Definition keys {V : Type} (m : t V) : list string := map fst m.
Definition values {V : Type} (m : t V) : list V := map snd m.
Definition size {V : Type} (m : t V) : nat := List.length m.
Definition clear {V : Type} (m : t V) : t V := [].

End JsMap.

Module JsSet.

Definition t : Type := list string.

Definition has (x : string) (s : t) : bool := existsb (String.eqb x) s.

(** [s.add(x)] *)
Definition add (x : string) (s : t) : t := if has x s then s else s ++ [x].

Definition size (s : t) : nat := List.length s.

End JsSet.

(* ================================================================== *)
(** * Data model *)

(** The confidence vector wrapped as a distribution record. *)
Record distribution : Type := {
  dist_type : string;
  means : list float;
  variances : list float;
  distribution_type : string;
  samples : nat;
  confidence_interval : float
}.

Record topology_metrics : Type := {
  centrality : float;
  clustering_coeff : float;
  degree : float;
  betweenness_centrality : float;
  eigenvector_centrality : float;
  pagerank : float;
  community_id : option string
}.

Record info_metrics : Type := {
  entropy : float;
  kl_divergence : float;
  mutual_information : float;
  mdl_score : float;
  information_gain : float;
  complexity : float
}.

(** What [tagMap[dimension]] evaluates to: an array of the table, or a
    member that the object literal inherits from [Object.prototype]
    (a function or an object, truthy and never an array). *)
Inductive tag_lookup : Type :=
| Tags (tags : list string)
| Inherited (member : string).

Module Meta.

(** The node metadata bundle.  [null] is [None]; [plan] is the one extra
    key a caller of the factory ever adds. *)
Record t : Type := {
  node_id : string;
  provenance : string;
  confidence : distribution;
  epistemic_status : string;
  disciplinary_tags : list string;
  falsification_criteria : option string;
  bias_flags : list string;
  revision_history : list value;
  layer_id : string;
  topology : topology_metrics;
  statistical_power : option value;
  info : info_metrics;
  impact_score : float;
  attribution : list string;
  plan : option value
}.

(** The object literal handed to [_createNodeMetadata].  The three call
    sites always give the first seven keys; the other four are optional
    ([None]: key absent). *)
Record base : Type := {
  b_node_id : string;
  b_provenance : string;
  b_epistemic_status : string;
  b_confidence : distribution;
  b_layer_id : string;
  b_disciplinary_tags : tag_lookup;
  b_impact_score : float;
  b_attribution : option (list string);
  b_falsification_criteria : option (option string);
  b_bias_flags : option (list string);
  b_plan : option value
}.

End Meta.

Module Node.

(** A node object.  [label] is a string for the root and the hypotheses
    and, for a dimension, the entry the caller gave. *)
Record t : Type := {
  node_id : string;
  label : value;
  type : string;
  content : string;
  confidence : distribution;
  metadata : Meta.t
}.

End Node.

Module EdgeMeta.

Record t : Type := {
  edge_id : string;
  edge_type : string;
  confidence : distribution;
  causal_metadata : option value;
  temporal_metadata : option value;
  weight : float;
  bidirectional : bool;
  layer_connection : option string
}.

End EdgeMeta.

Module Edge.

Record t : Type := {
  edge_id : string;
  source : string;
  target : string;
  metadata : EdgeMeta.t
}.

End Edge.

Module Layer.

Record t : Type := {
  id : string;
  name : string;
  description : string;
  nodes : JsSet.t;
  edges : JsSet.t;
  inter_layer_edges : JsSet.t
}.

Definition with_nodes (ns : JsSet.t) (l : t) : t :=
  {| id := id l; name := name l; description := description l;
     nodes := ns; edges := edges l; inter_layer_edges := inter_layer_edges l |}.

(** [layer.nodes.clear(); layer.edges.clear()] *)
Definition cleared (l : t) : t :=
  {| id := id l; name := name l; description := description l;
     nodes := []; edges := []; inter_layer_edges := inter_layer_edges l |}.

End Layer.

(** The state of one [ResearchQuestGraph] instance.  The maps
    [confidenceFunction], [metadataFunction] and [informationMetrics] are
    created empty and never written, so they are not carried. *)
Record graph : Type := {
  vertices : JsMap.t Node.t;
  edges : JsMap.t Edge.t;
  hyperedges : JsMap.t value;
  layers : JsMap.t Layer.t;
  nodeTypes : JsSet.t;
  metadata_stage : string;
  metadata_config : value;
  currentStage : nat
}.

Definition stageNames : list string :=
  ["initialization"; "decomposition"; "hypothesis_planning";
   "evidence_integration"; "pruning_merging"; "subgraph_extraction";
   "composition"; "reflection"].

(** [this.stageNames[stage - 1]]; [undefined] is [None]. *)
Definition stage_name (stage : nat) : option string :=
  match stage with
  | O => None
  | S k => nth_error stageNames k
  end.

(** The keys of [metadata.parameters], all of them active. *)
Definition active_parameters : list string :=
  map (fun k => ("P1_" ++ Str.of_nat k)%string) (seq 0 30).

(* ================================================================== *)
(** * Metadata factory *)

Local Open Scope float_scope.

Definition default_distribution : distribution :=
  {| dist_type := "probability_distribution";
     means := [0.5; 0.5; 0.5; 0.5];
     variances := [0.25; 0.25; 0.25; 0.25];
     distribution_type := "beta";
     samples := 1000;
     confidence_interval := 0.95 |}.

(** The callback of [means.map]: [Number(m)], then [0.5] for [NaN] or a
    value outside [0, 1]. *)
Definition valid_mean (m : value) : result float :=
  do num <- Js.Number m;
  Ok (if Num.out_of_unit num then 0.5 else num).

Fixpoint valid_means (ms : list value) : result (list float) :=
  match ms with
  | [] => Ok []
  | m :: rest =>
      do x <- valid_mean m;
      do xs <- valid_means rest;
      Ok (x :: xs)
  end.

(** [_createProbabilityDistribution(means)].  A non-array becomes
    [[0.5, 0.5, 0.5, 0.5]]; the [catch] turns an exception of [Number]
    into the default distribution. *)
Definition _createProbabilityDistribution (means0 : value) : distribution :=
  let ms :=
    match means0 with
    | VArr items => items
    | _ => [VNum 0.5; VNum 0.5; VNum 0.5; VNum 0.5]
    end in
  match valid_means ms with
  | Ok validMeans =>
      {| dist_type := "probability_distribution";
         means := validMeans;
         variances := map (fun m => m * (1 - m)) validMeans;
         distribution_type := "beta";
         samples := 1000;
         confidence_interval := 0.95 |}
  | Throw _ => default_distribution
  end.

(** The same call on an array of numbers the caller already holds. *)
Definition distribution_of (ms : list float) : distribution :=
  _createProbabilityDistribution (VArr (map VNum ms)).

Definition _createTopologyMetrics : topology_metrics :=
  {| centrality := 0; clustering_coeff := 0; degree := 0;
     betweenness_centrality := 0; eigenvector_centrality := 0;
     pagerank := 0; community_id := None |}.

Definition _createInfoMetrics : info_metrics :=
  {| entropy := 0; kl_divergence := 0; mutual_information := 0;
     mdl_score := 0; information_gain := 0; complexity := 0 |}.

(** [_validateImpactScore(score)] on a number. *)
Definition _validateImpactScore (score : float) : float :=
  if Num.out_of_unit score then 0.5 else score.

Definition option_default {A : Type} (d : A) (o : option A) : A :=
  match o with Some a => a | None => d end.

(** [_createNodeMetadata(baseMetadata)] on the object literals of the three
    call sites.  With those every property read succeeds, so the [catch]
    branch (the minimal bundle) is never entered. *)
Definition _createNodeMetadata (b : Meta.base) : Meta.t :=
  {| Meta.node_id := Meta.b_node_id b;
     Meta.provenance := Meta.b_provenance b;
     Meta.confidence := Meta.b_confidence b;
     Meta.epistemic_status := Meta.b_epistemic_status b;
     Meta.disciplinary_tags :=
       match Meta.b_disciplinary_tags b with
       | Tags tags => tags
       | Inherited _ => []
       end;
     Meta.falsification_criteria :=
       option_default None (Meta.b_falsification_criteria b);
     Meta.bias_flags := option_default [] (Meta.b_bias_flags b);
     Meta.revision_history := [];
     Meta.layer_id := Meta.b_layer_id b;
     Meta.topology := _createTopologyMetrics;
     Meta.statistical_power := None;
     Meta.info := _createInfoMetrics;
     Meta.impact_score := _validateImpactScore (Meta.b_impact_score b);
     Meta.attribution := option_default [] (Meta.b_attribution b);
     Meta.plan := Meta.b_plan b |}.

(** [_createEdgeMetadata({edge_id, edge_type, confidence})]: the defaults
    fill the other keys and the final spread restores the three given. *)
Definition _createEdgeMetadata (edge_id edge_type : string)
    (confidence : distribution) : EdgeMeta.t :=
  {| EdgeMeta.edge_id := edge_id;
     EdgeMeta.edge_type := edge_type;
     EdgeMeta.confidence := confidence;
     EdgeMeta.causal_metadata := None;
     EdgeMeta.temporal_metadata := None;
     EdgeMeta.weight := 1;
     EdgeMeta.bidirectional := false;
     EdgeMeta.layer_connection := None |}.

(* ================================================================== *)
(** * Validation layer *)

(** An array literal of strings, and one of numbers. *)
Definition strings (l : list string) : value := VArr (map VStr l).
Definition numbers (l : list float) : value := VArr (map VNum l).

(** [_createValidationError(field, value, expected, examples)].  The error
    gets its [data] only when there are examples; of [data], the field is
    carried. *)
Definition _createValidationError (field : string) (received : value)
    (expected : string) (examples : list value) : exn :=
  McpError (if (0 <? List.length examples)%nat then Some field else None)
    [Text ("Invalid parameter '" ++ field ++ "': " ++ expected ++ ". Received: ")%string;
     Json received].

(** The callback of [confidence.map] in [_validateConfidenceArray]. *)
Fixpoint validate_confidence_entries (paramName : string) (index : nat)
    (entries : list value) : result (list float) :=
  match entries with
  | [] => Ok []
  | v :: rest =>
      do num <- Js.Number v;
      let field := (paramName ++ "[" ++ Str.of_nat index ++ "]")%string in
      if Num.isNaN num then
        Throw (_createValidationError field v "a number between 0 and 1"
                 [VNum 0.5; VNum 0.8; VNum 1.0])
      else if (num <? 0) || (1 <? num) then
        Throw (_createValidationError field (VNum num)
                 "a number between 0 and 1 (inclusive)"
                 [VNum 0.0; VNum 0.5; VNum 0.8; VNum 1.0])
      else
        do nums <- validate_confidence_entries paramName (S index) rest;
        Ok (num :: nums)
  end.

Definition _validateConfidenceArray (confidence : value) (paramName : string)
    : result (list float) :=
  match confidence with
  | VArr entries =>
      if negb (List.length entries =? 4)%nat then
        Throw (_createValidationError paramName confidence
                 "array with exactly 4 elements [empirical_support, theoretical_basis, methodological_rigor, consensus_alignment]"
                 [numbers [0.8; 0.8; 0.8; 0.8]])
      else validate_confidence_entries paramName 0 entries
  | _ =>
      Throw (_createValidationError paramName confidence
               "array of 4 numbers between 0 and 1"
               [numbers [0.8; 0.8; 0.8; 0.8]; numbers [0.5; 0.7; 0.6; 0.9]])
  end.

Definition _validateTaskDescription (taskDescription : value) : result string :=
  let eczema := VStr "Analyze the effectiveness of topical treatments for eczema" in
  match taskDescription with
  | VNull | VUndefined =>
      Throw (_createValidationError "task_description" taskDescription
               "a non-empty string describing the research task"
               [eczema; VStr "Study the relationship between diet and skin health"])
  | VStr s =>
      let trimmed := Str.trim s in
      if (String.length trimmed =? 0)%nat then
        Throw (_createValidationError "task_description" taskDescription
                 "a non-empty string" [eczema])
      else if (String.length trimmed <? 10)%nat then
        Throw (_createValidationError "task_description" (VStr trimmed)
                 "a descriptive string with at least 10 characters" [eczema])
      else if (1000 <? String.length trimmed)%nat then
        Throw (_createValidationError "task_description"
                 (VStr (String.substring 0 50 trimmed ++ "..."))
                 "a string with maximum 1000 characters" [eczema])
      else Ok trimmed
  | _ =>
      Throw (_createValidationError "task_description" taskDescription "a string"
               [eczema])
  end.

(** [/^2\.\d+$/.test(nodeId)] *)
Definition is_dimension_id_format (nodeId : string) : bool :=
  match nodeId with
  | String "2" (String "." digits) =>
      negb (String.eqb digits "") && Str.all_digits digits
  | _ => false
  end.

(** [_validateDimensionNodeId(nodeId, existingNodes)].  For an id that is
    not stored the examples are the first three ids in use that start
    with [2.]: there may be none. *)
Definition _validateDimensionNodeId (nodeId : value)
    (existingNodes : option (JsMap.t Node.t)) : result string :=
  match nodeId with
  | VStr s =>
      if String.eqb s "" then
        Throw (_createValidationError "dimension_node_id" nodeId
                 ("a non-empty string in format " ++ Str.quoted "2.X")
                 [VStr "2.1"; VStr "2.2"; VStr "2.3"])
      else if negb (is_dimension_id_format s) then
        Throw (_createValidationError "dimension_node_id" nodeId
                 ("a string in format " ++ Str.quoted "2.X"
                    ++ " where X is the dimension number")
                 [VStr "2.1"; VStr "2.2"; VStr "2.3"; VStr "2.4"; VStr "2.5"])
      else
        match existingNodes with
        | Some nodes =>
            if negb (JsMap.has s nodes) then
              let availableNodes :=
                filter (Str.startsWith "2.") (JsMap.keys nodes) in
              Throw (_createValidationError "dimension_node_id" nodeId
                       ("an existing dimension node ID. Available: "
                          ++ Str.join ", " availableNodes)
                       (map VStr (firstn 3 availableNodes)))
            else Ok s
        | None => Ok s
        end
  | _ =>
      Throw (_createValidationError "dimension_node_id" nodeId
               ("a non-empty string in format " ++ Str.quoted "2.X")
               [VStr "2.1"; VStr "2.2"; VStr "2.3"])
  end.

Definition _validateHypothesesArray (hypotheses : value) : result (list value) :=
  let three := strings ["Hypothesis 1"; "Hypothesis 2"; "Hypothesis 3"] in
  match hypotheses with
  | VArr items =>
      if (List.length items <? 3)%nat then
        Throw (_createValidationError "hypotheses" hypotheses
                 "an array with at least 3 hypotheses (P1.3 specification)" [three])
      else if (5 <? List.length items)%nat then
        Throw (_createValidationError "hypotheses" hypotheses
                 "an array with maximum 5 hypotheses (P1.3 specification)" [three])
      else Ok items
  | _ =>
      Throw (_createValidationError "hypotheses" hypotheses
               "an array of hypothesis objects or strings"
               [three;
                VArr [VObj [("content", VStr "Hypothesis 1");
                            ("falsification_criteria", VStr "Test condition")]]])
  end.

(** What [_validateConfig] returns; a key that is not set is [None]. *)
Record safe_config : Type := {
  sc_disciplinary_tags : option (list string);
  sc_attribution : option (list string);
  sc_enable_multi_layer : option bool
}.

(** The object [{}]. *)
Definition no_config : safe_config :=
  {| sc_disciplinary_tags := None; sc_attribution := None;
     sc_enable_multi_layer := None |}.

(** The callback of [arr.filter]: a string that is not blank is kept;
    anything else is dropped, after a warning that prints the entry in a
    template literal, which throws when the entry has no string. *)
Definition keep_entry (x : value) : result bool :=
  match x with
  | VStr s => Ok (negb (String.length (Str.trim s) =? 0)%nat)
  | _ => do _ <- Js.ToString x; Ok false
  end.

(** [arr.filter(x => ...).map(x => x.trim())] *)
Fixpoint clean_strings (arr : list value) : result (list string) :=
  match arr with
  | [] => Ok []
  | x :: rest =>
      do keep <- keep_entry x;
      do kept <- clean_strings rest;
      Ok (match x with
          | VStr s => if keep then Str.trim s :: kept else kept
          | _ => kept
          end)
  end.

(** An optional array-of-strings property: absent, cleaned, or rejected. *)
Definition string_array_property (field : string) (v : value)
    (examples : list value) : result (option (list string)) :=
  match v with
  | VUndefined => Ok None
  | VArr arr => do cleaned <- clean_strings arr; Ok (Some cleaned)
  | _ => Throw (_createValidationError field v "an array of strings" examples)
  end.

(** The [try] block of [_validateConfig]. *)
Definition validate_config (config : value) : result safe_config :=
  match config with
  | VNull | VUndefined => Ok no_config
  | VObj _ =>
      do tags <- string_array_property "config.disciplinary_tags"
                   (Js.prop "disciplinary_tags" config)
                   [strings ["immunology"; "dermatology"];
                    strings ["cardiology"; "genetics"]];
      do attr <- string_array_property "config.attribution"
                   (Js.prop "attribution" config)
                   [strings ["Dr. Smith"; "Research Team A"]];
      Ok {| sc_disciplinary_tags := tags; sc_attribution := attr;
            sc_enable_multi_layer :=
              match Js.prop "enable_multi_layer" config with
              | VBool b => Some b
              | _ => None
              end |}
  | _ =>
      Throw (_createValidationError "config" config
               "an object with configuration properties"
               [VObj [("disciplinary_tags", strings ["immunology"; "dermatology"])]])
  end.

(** [_validateConfig(config)].  Its [catch] throws an [McpError] again and
    answers any other exception with [{}]. *)
Definition _validateConfig (config : value) : result safe_config :=
  match validate_config config with
  | Ok safeConfig => Ok safeConfig
  | Throw error => if is_McpError error then Throw error else Ok no_config
  end.

(** [_validateHypothesisConfig(config)]: the [max_hypotheses] of the
    returned object, [None] when the key is not set. *)
Definition _validateHypothesisConfig (config : value) : option nat :=
  match config with
  | VObj _ | VArr _ =>
      match Js.prop "max_hypotheses" config with
      | VUndefined => None
      | v =>
          match Js.Number v with
          | Ok maxHyp =>
              if negb (Num.isNaN maxHyp) && (0 <? maxHyp) && (maxHyp <=? 5)
              then Some (Num.floor_upto5 maxHyp)
              else Some 5%nat
          | Throw _ => Some 5%nat
          end
      end
  | _ => None
  end.

(** [Math.min(safeConfig.max_hypotheses || 5, 5)] *)
Definition maxHypotheses_of (max_hypotheses : option nat) : nat :=
  Nat.min
    (match max_hypotheses with
     | Some O => 5
     | Some n => n
     | None => 5
     end) 5.

Record validated_hypothesis : Type := {
  vh_content : string;
  vh_confidence : option (list float);
  vh_falsification_criteria : option string;
  vh_plan : option value;
  vh_impact_score : option float;
  vh_disciplinary_tags : option (list string);
  vh_attribution : option (list string);
  vh_needs_plan : bool;
  vh_needs_falsification_criteria : bool
}.

Definition hypothesis_field (index : nat) (suffix : string) : string :=
  ("hypotheses[" ++ Str.of_nat index ++ "]" ++ suffix)%string.

(** A string that is non-empty after trimming, trimmed. *)
Definition nonblank (v : value) : option string :=
  match v with
  | VStr s =>
      if (String.length (Str.trim s) =? 0)%nat then None else Some (Str.trim s)
  | _ => None
  end.

(** The object branch of [_validateHypothesis], inside its [try].  The
    filters of the two string arrays throw a [TypeError] on an entry that
    has no string. *)
Definition validate_hypothesis_object (hypothesis : value) (index : nat)
    : result validated_hypothesis :=
  let content := Js.prop "content" hypothesis in
  match nonblank content with
  | None =>
      Throw (_createValidationError (hypothesis_field index ".content") content
               "a non-empty string describing the hypothesis"
               [VStr "Treatment X is more effective than treatment Y";
                VStr "Diet factor Z influences skin condition"])
  | Some content' =>
      let confidence :=
        match Js.prop "confidence" hypothesis with
        | VUndefined => None
        | c =>
            match _validateConfidenceArray c
                    (hypothesis_field index ".confidence") with
            | Ok validated => Some validated
            | Throw _ => None
            end
        end in
      let fc := Js.prop "falsification_criteria" hypothesis in
      do criteria <-
        (match fc with
         | VUndefined => Ok None
         | _ =>
             match nonblank fc with
             | Some c => Ok (Some c)
             | None =>
                 Throw (_createValidationError
                          (hypothesis_field index ".falsification_criteria") fc
                          "a non-empty string describing testable criteria (P1.16 requirement)"
                          [VStr "If treatment shows less than 30% improvement in 4 weeks";
                           VStr "If no significant difference in p < 0.05 statistical test"])
             end
         end);
      let plan := Js.prop "plan" hypothesis in
      do plan' <-
        (match plan with
         | VUndefined => Ok None
         | VObj _ | VArr _ =>
             let ty := Js.prop "type" plan in
             if negb (Js.truthy ty) || negb (Js.is_string ty) then
               Throw (_createValidationError
                        (hypothesis_field index ".plan.type") ty
                        "a string describing the plan type"
                        [VStr "literature_search"; VStr "experimental_study";
                         VStr "data_analysis"])
             else Ok (Some plan)
         | _ =>
             Throw (_createValidationError (hypothesis_field index ".plan") plan
                      "an object describing the investigation plan (P1.3 requirement)"
                      [VObj [("type", VStr "literature_search");
                             ("description", VStr "Systematic review");
                             ("tools", strings ["pubmed"])]])
         end);
      let impact := Js.prop "impact_score" hypothesis in
      do score <-
        (match impact with
         | VUndefined => Ok None
         | _ =>
             do score <- Js.Number impact;
             if Num.out_of_unit score then
               Throw (_createValidationError
                        (hypothesis_field index ".impact_score") impact
                        "a number between 0 and 1 representing expected impact"
                        [VNum 0.6; VNum 0.8; VNum 1.0])
             else Ok (Some score)
         end);
      do tags <- string_array_property (hypothesis_field index ".disciplinary_tags")
                   (Js.prop "disciplinary_tags" hypothesis)
                   [strings ["immunology"; "dermatology"]];
      do attr <- string_array_property (hypothesis_field index ".attribution")
                   (Js.prop "attribution" hypothesis)
                   [strings ["Dr. Smith"; "Research Team A"]];
      Ok {| vh_content := content';
            vh_confidence := confidence;
            vh_falsification_criteria := criteria;
            vh_plan := plan';
            vh_impact_score := score;
            vh_disciplinary_tags := tags;
            vh_attribution := attr;
            vh_needs_plan := Js.is_undefined plan;
            vh_needs_falsification_criteria := Js.is_undefined fc |}
  end.

(** [_validateHypothesis(hypothesis, index)]: a string, an object, or a
    rejection; the [catch] rewraps what is not an [McpError]. *)
Definition _validateHypothesis (hypothesis : value) (index : nat)
    : result validated_hypothesis :=
  let attempt :=
    match hypothesis with
    | VStr s =>
        if (String.length (Str.trim s) =? 0)%nat then
          Throw (_createValidationError (hypothesis_field index "") hypothesis
                   "a non-empty string or object with content"
                   [VStr "Valid hypothesis text";
                    VObj [("content", VStr "Hypothesis text");
                          ("falsification_criteria", VStr "Test criteria")]])
        else
          Ok {| vh_content := Str.trim s;
                vh_confidence := None;
                vh_falsification_criteria := None;
                vh_plan := None;
                vh_impact_score := None;
                vh_disciplinary_tags := None;
                vh_attribution := None;
                vh_needs_plan := true;
                vh_needs_falsification_criteria := true |}
    | VObj _ | VArr _ => validate_hypothesis_object hypothesis index
    | _ =>
        Throw (_createValidationError (hypothesis_field index "") hypothesis
                 "a string or object with hypothesis content"
                 [VStr "Hypothesis text";
                  VObj [("content", VStr "Hypothesis text");
                        ("falsification_criteria", VStr "Test criteria")]])
    end in
  match attempt with
  | Ok validated => Ok validated
  | Throw e =>
      if is_McpError e then Throw e
      else Throw (McpError None
                    (Text ("Hypothesis " ++ Str.of_nat (index + 1)
                             ++ " validation failed: ")%string :: message_of e))
  end.

(** [_assessInitialBiasRisk(hypothesis)] on the validated content. *)
Definition _assessInitialBiasRisk (hypothesis : validated_hypothesis) : list string :=
  let content := Str.toLowerCase (vh_content hypothesis) in
  (if Str.includes "always" content || Str.includes "never" content
   then ["absolute_thinking"] else [])
  ++ (if Str.includes "obvious" content || Str.includes "clearly" content
      then ["confirmation_bias_risk"] else [])
  ++ (if Str.includes "proven" content || Str.includes "definitively" content
      then ["overconfidence_bias"] else []).

(** [_generateDefaultPlan(content)] *)
Definition _generateDefaultPlan (content : string) : value :=
  VObj [("type", VStr "literature_search");
        ("description", VStr ("Systematic literature review for: " ++ content));
        ("tools", VArr [VStr "pubmed_search"; VStr "citation_analysis"]);
        ("timeline", VStr "2-4 weeks");
        ("resources_needed", VArr [VStr "database_access"; VStr "literature_review_tools"]);
        ("expected_outcome", VStr "evidence_collection")].

(* ================================================================== *)
(** * Methods that change the graph *)

(** A method body: it runs on the current graph and leaves a graph and
    either a value or a thrown exception (with the mutations made so far). *)
Definition M (A : Type) : Type := graph -> graph * result A.

Definition ret {A : Type} (a : A) : M A := fun g => (g, Ok a).
Definition throw {A : Type} (e : exn) : M A := fun g => (g, Throw e).
Definition lift {A : Type} (r : result A) : M A := fun g => (g, r).
Definition get : M graph := fun g => (g, Ok g).
Definition modify (f : graph -> graph) : M unit := fun g => (f g, Ok tt).

Definition bindM {A B : Type} (m : M A) (k : A -> M B) : M B :=
  fun g =>
    match m g with
    | (g', Ok a) => k a g'
    | (g', Throw e) => (g', Throw e)
    end.

Notation "'let!' x := m 'in' k" := (bindM m (fun x => k))
  (at level 10, x name, m at level 100, k at level 200).
Notation "m ;; k" := (bindM m (fun _ => k))
  (at level 100, k at level 200, right associativity).

Definition set_vertices (v : JsMap.t Node.t) (g : graph) : graph :=
  {| vertices := v; edges := edges g; hyperedges := hyperedges g;
     layers := layers g; nodeTypes := nodeTypes g;
     metadata_stage := metadata_stage g; metadata_config := metadata_config g;
     currentStage := currentStage g |}.

Definition set_edges (e : JsMap.t Edge.t) (g : graph) : graph :=
  {| vertices := vertices g; edges := e; hyperedges := hyperedges g;
     layers := layers g; nodeTypes := nodeTypes g;
     metadata_stage := metadata_stage g; metadata_config := metadata_config g;
     currentStage := currentStage g |}.

Definition set_hyperedges (h : JsMap.t value) (g : graph) : graph :=
  {| vertices := vertices g; edges := edges g; hyperedges := h;
     layers := layers g; nodeTypes := nodeTypes g;
     metadata_stage := metadata_stage g; metadata_config := metadata_config g;
     currentStage := currentStage g |}.

Definition set_layers (l : JsMap.t Layer.t) (g : graph) : graph :=
  {| vertices := vertices g; edges := edges g; hyperedges := hyperedges g;
     layers := l; nodeTypes := nodeTypes g;
     metadata_stage := metadata_stage g; metadata_config := metadata_config g;
     currentStage := currentStage g |}.

Definition set_nodeTypes (t : JsSet.t) (g : graph) : graph :=
  {| vertices := vertices g; edges := edges g; hyperedges := hyperedges g;
     layers := layers g; nodeTypes := t;
     metadata_stage := metadata_stage g; metadata_config := metadata_config g;
     currentStage := currentStage g |}.

(** [this.currentStage = n; this.metadata.stage = name] *)
Definition set_stage (n : nat) (name : string) (g : graph) : graph :=
  {| vertices := vertices g; edges := edges g; hyperedges := hyperedges g;
     layers := layers g; nodeTypes := nodeTypes g;
     metadata_stage := name; metadata_config := metadata_config g;
     currentStage := n |}.

Definition defaultLayers : list Layer.t :=
  map (fun '(i, n, d) =>
         {| Layer.id := i; Layer.name := n; Layer.description := d;
            Layer.nodes := []; Layer.edges := []; Layer.inter_layer_edges := [] |})
    [("base", "Base Conceptual Layer", "Core concepts and relationships");
     ("methodological", "Methodological Layer", "Research methods and approaches");
     ("empirical", "Empirical Evidence Layer", "Data and evidence");
     ("theoretical", "Theoretical Framework Layer", "Theoretical constructs");
     ("interdisciplinary", "Interdisciplinary Bridge Layer", "Cross-domain connections")].

(** [_initializeLayerStructure()] *)
Definition _initializeLayerStructure (g : graph) : graph :=
  set_layers
    (fold_left (fun ls layer => JsMap.set (Layer.id layer) layer ls)
       defaultLayers (layers g)) g.

(** [for (const layer of this.layers.values())
       { layer.nodes.clear(); layer.edges.clear(); }] *)
Definition clear_layer_members (g : graph) : graph :=
  set_layers (map (fun '(k, layer) => (k, Layer.cleared layer)) (layers g)) g.

(** A [config = {}] parameter after its default. *)
Definition config_or_default (config : value) : value :=
  match config with VUndefined => VObj [] | c => c end.

(** [new ResearchQuestGraph(config)]; reading a property of [null] throws. *)
Definition new_ResearchQuestGraph (config : value) : result graph :=
  let config := config_or_default config in
  match config with
  | VNull =>
      Throw (TypeError "Cannot read properties of null (reading 'enable_multi_layer')")
  | _ =>
      let g :=
        {| vertices := []; edges := []; hyperedges := []; layers := [];
           nodeTypes := []; metadata_stage := "initialization";
           metadata_config := config; currentStage := 0 |} in
      Ok (match Js.prop "enable_multi_layer" config with
          | VBool false => g
          | _ => _initializeLayerStructure g
          end)
  end.

(** [_resetToInitialState()] *)
Definition _resetToInitialState (g : graph) : graph :=
  let g := set_vertices [] g in
  let g := set_edges [] g in
  let g := set_hyperedges [] g in
  let g := set_nodeTypes [] g in
  let g := set_stage 0 "initialization" g in
  if (0 <? JsMap.size (layers g))%nat then clear_layer_members g
  else _initializeLayerStructure g.

(** [_getInitializationWarnings()]; [metadata.parameters] is always set. *)
Definition _getInitializationWarnings (g : graph) : list string :=
  if (JsMap.size (layers g) =? 0)%nat then ["No layers initialized"] else [].

(** [this.layers.get(layerId).nodes.add(nodeId)]; a missing layer makes the
    property read throw. *)
Definition layer_nodes_add (layerId nodeId : string) : M unit :=
  fun g =>
    match JsMap.get layerId (layers g) with
    | Some layer =>
        (set_layers
           (JsMap.set layerId
              (Layer.with_nodes (JsSet.add nodeId (Layer.nodes layer)) layer)
              (layers g)) g,
         Ok tt)
    | None =>
        (g, Throw (TypeError "Cannot read properties of undefined (reading 'nodes')"))
    end.

Definition vertices_set (nodeId : string) (node : Node.t) : M unit :=
  modify (fun g => set_vertices (JsMap.set nodeId node (vertices g)) g).

Definition edges_set (edgeId : string) (edge : Edge.t) : M unit :=
  modify (fun g => set_edges (JsMap.set edgeId edge (edges g)) g).

Definition nodeTypes_add (t : string) : M unit :=
  modify (fun g => set_nodeTypes (JsSet.add t (nodeTypes g)) g).

(** ** Stage 1: [initialize] *)

Inductive initialize_result : Type :=
| InitializeSucceeded (node_id message : string) (current_stage : nat)
    (stage_name : option string) (active : list string) (warnings : list string)
| InitializeFailed (error : msg) (message : string) (current_stage : nat)
    (recovery_attempted : bool).

Definition wrong_stage (what : string) (current : nat) (expected : string) : exn :=
  Error [Text (what ++ " Current stage: " ++ Str.of_nat current
                 ++ ", expected: " ++ expected)%string].

(** The arguments of [initialize] after their defaults. *)
Definition confidence_or_default (initialConfidence : value) : value :=
  match initialConfidence with
  | VUndefined => VArr [VNum 0.8; VNum 0.8; VNum 0.8; VNum 0.8]
  | c => c
  end.

(** The root node [initialize] builds from validated arguments. *)
Definition root_node (content : string) (confidence : list float)
    (safeConfig : safe_config) : Node.t :=
  {| Node.node_id := "n0";
     Node.label := VStr "Task Understanding";
     Node.type := "root";
     Node.content := content;
     Node.confidence := distribution_of confidence;
     Node.metadata :=
       _createNodeMetadata
         {| Meta.b_node_id := "n0";
            Meta.b_provenance := "user_input";
            Meta.b_epistemic_status := "accepted";
            Meta.b_confidence := distribution_of confidence;
            Meta.b_layer_id := "base";
            Meta.b_disciplinary_tags :=
              Tags (option_default ["immunology"; "dermatology"]
                      (sc_disciplinary_tags safeConfig));
            Meta.b_impact_score := 0.8;
            Meta.b_attribution := Some (option_default [] (sc_attribution safeConfig));
            Meta.b_falsification_criteria := None;
            Meta.b_bias_flags := None;
            Meta.b_plan := None |} |}.

(** The guard that opens every stage operation:
    [if (this.currentStage !== expected) throw new Error(...)]. *)
Definition require_stage (what : string) (expected : nat) (expected_text : string)
    : M unit :=
  let! g := get in
  if negb (currentStage g =? expected)%nat
  then throw (wrong_stage what (currentStage g) expected_text)
  else ret tt.

(** [if (this.vertices.size > 0) { ... clear ... }] *)
Definition clear_for_reinitialization : M unit :=
  let! g := get in
  if (0 <? JsMap.size (vertices g))%nat
  then modify (fun g =>
                 clear_layer_members
                   (set_hyperedges [] (set_edges [] (set_vertices [] g))))
  else ret tt.

(** From [this.vertices.set('n0', rootNode)] to the [return]. *)
Definition add_root (rootNode : Node.t) : M initialize_result :=
  vertices_set "n0" rootNode ;;
  nodeTypes_add "root" ;;
  let! g1 := get in
  (if JsMap.has "base" (layers g1) then layer_nodes_add "base" "n0"
   else (modify _initializeLayerStructure ;; layer_nodes_add "base" "n0")) ;;
  modify (set_stage 1 "initialization") ;;
  let! g2 := get in
  ret (InitializeSucceeded "n0"
         "ASR-GoT graph initialized successfully following P1.1 specification"
         (currentStage g2) (stage_name (currentStage g2)) active_parameters
         (_getInitializationWarnings g2)).

(** The [try] block of [initialize]. *)
Definition initialize_body (taskDescription initialConfidence config : value)
    : M initialize_result :=
  let initialConfidence := confidence_or_default initialConfidence in
  let config := config_or_default config in
  require_stage "Cannot initialize." 0 "0 (before initialization)" ;;
  clear_for_reinitialization ;;
  let! validatedTaskDescription := lift (_validateTaskDescription taskDescription) in
  let! validatedConfidence :=
    lift (_validateConfidenceArray initialConfidence "initial_confidence") in
  let! safeConfig := lift (_validateConfig config) in
  add_root (root_node validatedTaskDescription validatedConfidence safeConfig).

(** [initialize(taskDescription, initialConfidence, config)]: the [catch]
    resets the graph and reports the failure.  [_resetToInitialState]
    cannot throw, so the second, critical [catch] is never entered. *)
Definition initialize (taskDescription initialConfidence config : value)
    (g : graph) : graph * initialize_result :=
  match initialize_body taskDescription initialConfidence config g with
  | (g', Ok r) => (g', r)
  | (g', Throw error) =>
      let g'' := _resetToInitialState g' in
      (g'', InitializeFailed (message_of error)
              "Initialization failed, graph reset to initial state"
              (currentStage g'') true)
  end.

(** ** Stage 2: [decomposeTask] *)

Definition defaultDimensions : list value :=
  [VStr "Scope"; VStr "Objectives"; VStr "Constraints"; VStr "Data Needs";
   VStr "Use Cases"; VStr "Potential Biases"; VStr "Knowledge Gaps"].

Definition tagMap : list (string * list string) :=
  [("Scope", ["methodology"; "research_design"]);
   ("Objectives", ["goals"; "outcomes"]);
   ("Constraints", ["limitations"; "resources"]);
   ("Data Needs", ["data_science"; "methodology"]);
   ("Use Cases", ["application"; "translation"]);
   ("Potential Biases", ["methodology"; "bias_detection"]);
   ("Knowledge Gaps", ["knowledge_discovery"; "research_gaps"])].

(** The property names every object literal inherits from
    [Object.prototype]. *)
Definition Object_prototype_members : list string :=
  ["constructor"; "__defineGetter__"; "__defineSetter__"; "hasOwnProperty";
   "__lookupGetter__"; "__lookupSetter__"; "isPrototypeOf";
   "propertyIsEnumerable"; "toString"; "valueOf"; "__proto__";
   "toLocaleString"].

(** [tagMap[key] || ['general']] for a property key: an own key gives its
    array, an inherited member gives that member, anything else is
    [undefined] and gives the default. *)
Definition tags_at (key : string) : tag_lookup :=
  match JsMap.get key tagMap with
  | Some tags => Tags tags
  | None =>
      if existsb (String.eqb key) Object_prototype_members
      then Inherited key
      else Tags ["general"]
  end.

(** [_inferDisciplinaryTags(dimension)]: the dimension is turned into a
    property key, its string, which throws when it has none. *)
Definition _inferDisciplinaryTags (dimension : value) : result tag_lookup :=
  do key <- Js.ToString dimension;
  Ok (tags_at key).

Record decompose_result : Type := {
  dr_success : bool;
  dr_dimension_nodes : list string;
  dr_message : string;
  dr_current_stage : nat;
  dr_stage_name : option string;
  dr_dimensions : list value
}.

(** The node of a dimension, from what [_inferDisciplinaryTags] found and
    the string of the dimension in the template literal of [content]. *)
Definition dimension_node (nodeId : string) (dimension : value)
    (tags : tag_lookup) (text : string) : Node.t :=
  {| Node.node_id := nodeId;
     Node.label := dimension;
     Node.type := "dimension";
     Node.content := "Analysis of " ++ text ++ " aspects of the research task";
     Node.confidence := distribution_of [0.8; 0.8; 0.8; 0.8];
     Node.metadata :=
       _createNodeMetadata
         {| Meta.b_node_id := nodeId;
            Meta.b_provenance := "task_decomposition";
            Meta.b_epistemic_status := "pending";
            Meta.b_confidence := distribution_of [0.8; 0.8; 0.8; 0.8];
            Meta.b_layer_id := "base";
            Meta.b_disciplinary_tags := tags;
            Meta.b_impact_score := 0.6;
            Meta.b_attribution := None;
            Meta.b_falsification_criteria := None;
            Meta.b_bias_flags := None;
            Meta.b_plan := None |} |}.

Definition decomposition_edge (nodeId : string) : Edge.t :=
  let edgeId := ("e_n0_" ++ nodeId)%string in
  {| Edge.edge_id := edgeId;
     Edge.source := "n0";
     Edge.target := nodeId;
     Edge.metadata :=
       _createEdgeMetadata edgeId "Decomposition"
         (distribution_of [0.9; 0.9; 0.9; 0.9]) |}.

(** One turn of [taskDimensions.forEach((dimension, index) => ...)]; it
    yields the id it pushed onto [dimensionNodes].  The two conversions of
    the dimension to a string come before the first write. *)
Definition decompose_one (dimension : value) (index : nat) : M string :=
  let nodeId := ("2." ++ Str.of_nat (index + 1))%string in
  let! tags := lift (_inferDisciplinaryTags dimension) in
  let! text := lift (Js.ToString dimension) in
  vertices_set nodeId (dimension_node nodeId dimension tags text) ;;
  nodeTypes_add "dimension" ;;
  layer_nodes_add "base" nodeId ;;
  edges_set ("e_n0_" ++ nodeId)%string (decomposition_edge nodeId) ;;
  ret nodeId.

Fixpoint decompose_each (dimensions : list value) (index : nat) : M (list string) :=
  match dimensions with
  | [] => ret []
  | dimension :: rest =>
      let! nodeId := decompose_one dimension index in
      let! nodeIds := decompose_each rest (S index) in
      ret (nodeId :: nodeIds)
  end.

(** [customDimensions || defaultDimensions], and whether it has a
    [forEach]: only an array has. *)
Definition taskDimensions_of (customDimensions : value) : result (list value) :=
  if Js.truthy customDimensions then
    match customDimensions with
    | VArr items => Ok items
    | _ => Throw (TypeError "taskDimensions.forEach is not a function")
    end
  else Ok defaultDimensions.

(** [decomposeTask(customDimensions)].  There is no [try] around the
    body: an exception leaves the method, and what the loop stored before
    it stays. *)
Definition decomposeTask (customDimensions : value) : M decompose_result :=
  require_stage "Cannot decompose." 1 "1" ;;
  let! taskDimensions := lift (taskDimensions_of customDimensions) in
  let! dimensionNodes := decompose_each taskDimensions 0 in
  modify (set_stage 2 "decomposition") ;;
  let! g1 := get in
  ret {| dr_success := true;
         dr_dimension_nodes := dimensionNodes;
         dr_message :=
           "Task decomposed into " ++ Str.of_nat (List.length taskDimensions)
             ++ " dimensions following P1.2 specification exactly";
         dr_current_stage := currentStage g1;
         dr_stage_name := stage_name (currentStage g1);
         dr_dimensions := taskDimensions |}.

(** ** Stage 3: [generateHypotheses] *)

Inductive hypotheses_result : Type :=
| HypothesesSucceeded (hypothesis_nodes : list string) (message : string)
    (current_stage : nat) (stage_name : option string)
    (errors : option (list msg)) (warnings : option (list string))
| HypothesesFailed (error : msg) (message : string) (current_stage : nat)
    (stage_name : string) (recovery_attempted : bool).

Definition hypothesis_node (nodeId dimensionNumber : string) (index : nat)
    (validatedHypothesis : validated_hypothesis) : Node.t :=
  let hypothesisMetadata :=
    _createNodeMetadata
      {| Meta.b_node_id := nodeId;
         Meta.b_provenance := "hypothesis_generation";
         Meta.b_epistemic_status := "hypothetical";
         Meta.b_confidence :=
           match vh_confidence validatedHypothesis with
           | Some c => distribution_of c
           | None => distribution_of [0.5; 0.5; 0.5; 0.5]
           end;
         Meta.b_layer_id := "theoretical";
         Meta.b_disciplinary_tags :=
           Tags (option_default [] (vh_disciplinary_tags validatedHypothesis));
         Meta.b_impact_score :=
           match vh_impact_score validatedHypothesis with
           | Some s => if Num.truthy s then s else 0.6
           | None => 0.6
           end;
         Meta.b_attribution :=
           Some (option_default [] (vh_attribution validatedHypothesis));
         Meta.b_falsification_criteria :=
           Some (vh_falsification_criteria validatedHypothesis);
         Meta.b_bias_flags := Some (_assessInitialBiasRisk validatedHypothesis);
         Meta.b_plan :=
           Some (option_default
                   (_generateDefaultPlan (vh_content validatedHypothesis))
                   (vh_plan validatedHypothesis)) |} in
  {| Node.node_id := nodeId;
     Node.label :=
       VStr ("Hypothesis " ++ dimensionNumber ++ "." ++ Str.of_nat (index + 1));
     Node.type := "hypothesis";
     Node.content := vh_content validatedHypothesis;
     Node.confidence := Meta.confidence hypothesisMetadata;
     Node.metadata := hypothesisMetadata |}.

Definition hypothesis_edge (dimensionNodeId nodeId : string) : Edge.t :=
  let edgeId := ("e_" ++ dimensionNodeId ++ "_" ++ nodeId)%string in
  {| Edge.edge_id := edgeId;
     Edge.source := dimensionNodeId;
     Edge.target := nodeId;
     Edge.metadata :=
       _createEdgeMetadata edgeId "Hypothesis"
         (distribution_of [0.8; 0.8; 0.8; 0.8]) |}.

(** The [try] block of one turn of the [forEach] over the hypotheses. *)
Definition hypothesis_one (dimensionNodeId dimensionNumber : string)
    (hypothesis : value) (index : nat) : M string :=
  let nodeId := ("3." ++ dimensionNumber ++ "." ++ Str.of_nat (index + 1))%string in
  let! validatedHypothesis := lift (_validateHypothesis hypothesis index) in
  vertices_set nodeId
    (hypothesis_node nodeId dimensionNumber index validatedHypothesis) ;;
  nodeTypes_add "hypothesis" ;;
  let! g := get in
  (if JsMap.has "theoretical" (layers g)
   then layer_nodes_add "theoretical" nodeId
   else layer_nodes_add "base" nodeId) ;;
  edges_set ("e_" ++ dimensionNodeId ++ "_" ++ nodeId)%string
    (hypothesis_edge dimensionNodeId nodeId) ;;
  ret nodeId.

(** The whole [forEach]: each turn either pushes its node id or, in its
    [catch], pushes a line onto [errors]; the loop always goes on. *)
Fixpoint hypothesis_each (dimensionNodeId dimensionNumber : string)
    (hypotheses : list value) (index : nat) (g : graph)
    : graph * (list string * list msg) :=
  match hypotheses with
  | [] => (g, ([], []))
  | hypothesis :: rest =>
      match hypothesis_one dimensionNodeId dimensionNumber hypothesis index g with
      | (g', Ok nodeId) =>
          let '(g'', (nodes, errors)) :=
            hypothesis_each dimensionNodeId dimensionNumber rest (S index) g' in
          (g'', (nodeId :: nodes, errors))
      | (g', Throw hypothesisError) =>
          let '(g'', (nodes, errors)) :=
            hypothesis_each dimensionNodeId dimensionNumber rest (S index) g' in
          (g'', (nodes,
                 (Text ("Hypothesis " ++ Str.of_nat (index + 1) ++ ": ")%string
                    :: message_of hypothesisError) :: errors))
      end
  end.

(** [errors.join('; ')] *)
Fixpoint join_msgs (errors : list msg) : msg :=
  match errors with
  | [] => []
  | [e] => e
  | e :: rest => e ++ Text "; " :: join_msgs rest
  end.

(** The outer [try] block of [generateHypotheses]. *)
Definition generateHypotheses_body (dimensionNodeId hypotheses config : value)
    : M hypotheses_result :=
  let config := config_or_default config in
  require_stage "Cannot generate hypotheses." 2 "2" ;;
  let! g0 := get in
  let! validatedNodeId :=
    lift (_validateDimensionNodeId dimensionNodeId (Some (vertices g0))) in
  let! dimensionNode :=
    match JsMap.get validatedNodeId (vertices g0) with
    | Some node => ret node
    | None => throw (TypeError "Cannot read properties of undefined (reading 'type')")
    end in
  (if negb (String.eqb (Node.type dimensionNode) "dimension")
   then throw (McpError None
                 [Text ("Node " ++ validatedNodeId
                          ++ " is not a dimension node (type: "
                          ++ Node.type dimensionNode
                          ++ "). Expected a dimension node created in Stage 2.")%string])
   else ret tt) ;;
  let! validatedHypotheses := lift (_validateHypothesesArray hypotheses) in
  let maxHypotheses := maxHypotheses_of (_validateHypothesisConfig config) in
  let! dimensionNumber :=
    match Str.split_dot validatedNodeId with
    | _ :: number :: _ => ret number
    | _ => throw (Error [Text ("Invalid dimension node ID format: " ++ validatedNodeId
                                 ++ ". Expected format: 2.X")%string])
    end in
  let! created :=
    (fun g =>
       let '(g', r) :=
         hypothesis_each validatedNodeId dimensionNumber
           (firstn maxHypotheses validatedHypotheses) 0 g in
       (g', Ok r)) in
  let '(hypothesisNodes, errors) := created in
  (if (List.length hypothesisNodes =? 0)%nat
   then throw (Error (Text "Failed to create any hypotheses. Errors: "
                        :: join_msgs errors))
   else ret tt) ;;
  modify (set_stage 3 "hypothesis_planning") ;;
  let! g1 := get in
  ret (HypothesesSucceeded hypothesisNodes
         ("Generated " ++ Str.of_nat (List.length hypothesisNodes)
            ++ " hypotheses following P1.3 specification exactly")
         (currentStage g1) (stage_name (currentStage g1))
         (if (0 <? List.length errors)%nat then Some errors else None)
         (if (0 <? List.length errors)%nat
          then Some [(Str.of_nat (List.length errors)
                        ++ " hypotheses failed to create")%string]
          else None)).

(** [generateHypotheses(dimensionNodeId, hypotheses, config)]: the outer
    [catch] reports the failure and resets nothing. *)
Definition generateHypotheses (dimensionNodeId hypotheses config : value)
    (g : graph) : graph * hypotheses_result :=
  match generateHypotheses_body dimensionNodeId hypotheses config g with
  | (g', Ok r) => (g', r)
  | (g', Throw error) =>
      (g', HypothesesFailed (message_of error) "Hypothesis generation failed"
             (currentStage g')
             (option_default "unknown" (stage_name (currentStage g')))
             false)
  end.

(* ================================================================== *)
(** * Reading the graph: summary and export *)

Module Summary.

Record confidence_statistics : Type := {
  mean : float;
  std : float;
  min : float;
  max : float
}.

Record impact_distribution : Type := {
  high_impact : nat;
  medium_impact : nat;
  low_impact : nat;
  average_impact : float
}.

Record graph_state : Type := {
  vertices_count : nat;
  edges_count : nat;
  hyperedges_count : nat;
  layers_count : nat;
  node_types : list string
}.

(** The summary object.  Its [topology_metrics] entry (density, degree,
    clustering, components, diameter) is not carried. *)
Record t : Type := {
  state : graph_state;
  current_stage : nat;
  stage_name : string;
  layers : list string;
  layer_distribution : list (string * nat);
  node_type_breakdown : list (string * nat);
  confidence : confidence_statistics;
  impact : impact_distribution;
  active_parameters : list string;
  total_parameters : nat;
  bias_flags_count : nat;
  falsifiability_coverage : float;
  interdisciplinary_bridges : nat;
  knowledge_gaps : nat
}.

End Summary.

(** [xs.reduce((a, b) => a + b, 0)] *)
Definition sum (xs : list float) : float := fold_left PrimFloat.add xs 0.

(** [Math.min(a, b)] and [Math.max(a, b)]: [NaN] is contagious and [-0]
    is below [+0]. *)
Definition Math_min2 (a b : float) : float :=
  if Num.isNaN a || Num.isNaN b then Num.nan
  else if a <? b then a
  else if b <? a then b
  else if PrimFloat.is_zero a && PrimFloat.get_sign a then a else b.

Definition Math_max2 (a b : float) : float :=
  if Num.isNaN a || Num.isNaN b then Num.nan
  else if a <? b then b
  else if b <? a then a
  else if PrimFloat.is_zero a && PrimFloat.get_sign a then b else a.

(** [Math.min(...xs)] and [Math.max(...xs)] *)
Definition Math_min (xs : list float) : float := fold_left Math_min2 xs infinity.
Definition Math_max (xs : list float) : float := fold_left Math_max2 xs neg_infinity.

(** The number a node contributes to the confidence statistics. *)
Definition node_confidence (n : Node.t) : float :=
  if String.eqb (dist_type (Node.confidence n)) "probability_distribution"
  then sum (means (Node.confidence n)) / 4
  else 0.5.

(** [_getConfidenceStatistics()].  [Math.pow(c - mean, 2)] is taken as the
    correctly rounded square. *)
Definition _getConfidenceStatistics (g : graph) : Summary.confidence_statistics :=
  let confidences := map node_confidence (JsMap.values (vertices g)) in
  if (List.length confidences =? 0)%nat then
    {| Summary.mean := 0; Summary.std := 0; Summary.min := 0; Summary.max := 0 |}
  else
    let mean := sum confidences / Num.of_nat (List.length confidences) in
    let variance :=
      fold_left (fun s c => s + (c - mean) * (c - mean)) confidences 0
      / Num.of_nat (List.length confidences) in
    {| Summary.mean := mean;
       Summary.std := PrimFloat.sqrt variance;
       Summary.min := Math_min confidences;
       Summary.max := Math_max confidences |}.

(** [_getImpactDistribution()] *)
Definition _getImpactDistribution (g : graph) : Summary.impact_distribution :=
  let impacts :=
    map (fun n =>
           let i := Meta.impact_score (Node.metadata n) in
           if Num.truthy i then i else 0.5)
      (JsMap.values (vertices g)) in
  {| Summary.high_impact := List.length (filter (fun i => 0.7 <=? i) impacts);
     Summary.medium_impact :=
       List.length (filter (fun i => (0.4 <=? i) && (i <? 0.7)) impacts);
     Summary.low_impact := List.length (filter (fun i => i <? 0.4) impacts);
     Summary.average_impact := sum impacts / Num.of_nat (List.length impacts) |}.

(** [_getLayerDistribution()] *)
Definition _getLayerDistribution (g : graph) : list (string * nat) :=
  map (fun '(layerId, layer) => (layerId, JsSet.size (Layer.nodes layer))) (layers g).

(** [_getNodeTypeBreakdown()] *)
Definition _getNodeTypeBreakdown (g : graph) : list (string * nat) :=
  fold_left
    (fun breakdown node =>
       JsMap.set (Node.type node)
         (option_default 0%nat (JsMap.get (Node.type node) breakdown) + 1)%nat
         breakdown)
    (JsMap.values (vertices g)) [].

(** [_countBiasFlags()] *)
Definition _countBiasFlags (g : graph) : nat :=
  fold_left (fun total node =>
               (total + List.length (Meta.bias_flags (Node.metadata node)))%nat)
    (JsMap.values (vertices g)) 0%nat.

Definition count_type (t : string) (g : graph) : nat :=
  List.length (filter (fun n => String.eqb (Node.type n) t) (JsMap.values (vertices g))).

(** [_assessFalsifiabilityCoverage()] *)
Definition _assessFalsifiabilityCoverage (g : graph) : float :=
  let hypotheses :=
    filter (fun n => String.eqb (Node.type n) "hypothesis")
      (JsMap.values (vertices g)) in
  let withCriteria :=
    List.length
      (filter (fun h =>
                 match Meta.falsification_criteria (Node.metadata h) with
                 | Some c => negb (String.eqb c "")
                 | None => false
                 end) hypotheses) in
  if (0 <? List.length hypotheses)%nat
  then Num.of_nat withCriteria / Num.of_nat (List.length hypotheses)
  else 1.

(** [getGraphSummary()]: a pure read of the graph. *)
Definition getGraphSummary (g : graph) : Summary.t :=
  {| Summary.state :=
       {| Summary.vertices_count := JsMap.size (vertices g);
          Summary.edges_count := JsMap.size (edges g);
          Summary.hyperedges_count := JsMap.size (hyperedges g);
          Summary.layers_count := JsMap.size (layers g);
          Summary.node_types := nodeTypes g |};
     Summary.current_stage := currentStage g;
     Summary.stage_name :=
       option_default "pre-initialization" (stage_name (currentStage g));
     Summary.layers := JsMap.keys (layers g);
     Summary.layer_distribution := _getLayerDistribution g;
     Summary.node_type_breakdown := _getNodeTypeBreakdown g;
     Summary.confidence := _getConfidenceStatistics g;
     Summary.impact := _getImpactDistribution g;
     Summary.active_parameters := active_parameters;
     Summary.total_parameters := List.length active_parameters;
     Summary.bias_flags_count := _countBiasFlags g;
     Summary.falsifiability_coverage := _assessFalsifiabilityCoverage g;
     Summary.interdisciplinary_bridges := count_type "bridge" g;
     Summary.knowledge_gaps := count_type "placeholder_gap" g |}.

(** What [exportGraph] serializes (the [topology_insights] helpers are not
    carried). *)
Record graph_data : Type := {
  gd_vertices : list Node.t;
  gd_edges : list Edge.t;
  gd_hyperedges : list value;
  gd_layers : JsMap.t Layer.t;
  gd_summary : Summary.t;
  gd_completed_stages : list string
}.

(** The text [exportGraph] returns, by the serializer that produced it;
    the serialization itself is not modelled. *)
Inductive export : Type :=
| JSON_stringify (data : graph_data)
| exportAsYAML (data : graph_data).

(** [exportGraph(format)]: a pure read.  [format.toLowerCase()] throws on
    anything but a string; an unknown format throws after the data was
    gathered. *)
Definition exportGraph (format : value) (g : graph) : result export :=
  let format := match format with VUndefined => VStr "json" | f => f end in
  let graphData :=
    {| gd_vertices := JsMap.values (vertices g);
       gd_edges := JsMap.values (edges g);
       gd_hyperedges := JsMap.values (hyperedges g);
       gd_layers := layers g;
       gd_summary := getGraphSummary g;
       gd_completed_stages := firstn (currentStage g) stageNames |} in
  match format with
  | VStr f =>
      if String.eqb (Str.toLowerCase f) "json" then Ok (JSON_stringify graphData)
      else if String.eqb (Str.toLowerCase f) "yaml" then Ok (exportAsYAML graphData)
      else Throw (Error [Text ("Unsupported export format: " ++ f)%string])
  | VNull =>
      Throw (TypeError "Cannot read properties of null (reading 'toLowerCase')")
  | _ => Throw (TypeError "format.toLowerCase is not a function")
  end.

(* ================================================================== *)
(** * The five operations on one instance *)

Inductive operation : Type :=
| Initialize (taskDescription initialConfidence config : value)
| Decompose (customDimensions : value)
| GenerateHypotheses (dimensionNodeId hypotheses config : value)
| GetSummary
| ExportGraph (format : value).

(** The graph an operation leaves behind, whether it returned or threw. *)
Definition run (o : operation) (g : graph) : graph :=
  match o with
  | Initialize t c cfg => fst (initialize t c cfg g)
  | Decompose dims => fst (decomposeTask dims g)
  | GenerateHypotheses d hs cfg => fst (generateHypotheses d hs cfg g)
  | GetSummary => g
  | ExportGraph _ => g
  end.

(** The states of an instance: freshly constructed, then any sequence of
    operations. *)
Inductive reachable : graph -> Prop :=
| reachable_new (config : value) (g : graph) :
    new_ResearchQuestGraph config = Ok g -> reachable g
| reachable_run (o : operation) (g : graph) :
    reachable g -> reachable (run o g).

(** Number of vertices of kind root. *)
Definition root_count (g : graph) : nat := count_type "root" g.

(** [success] of each result. *)
Definition initialize_success (r : initialize_result) : bool :=
  match r with InitializeSucceeded _ _ _ _ _ _ => true | InitializeFailed _ _ _ _ => false end.

Definition hypotheses_success (r : hypotheses_result) : bool :=
  match r with HypothesesSucceeded _ _ _ _ _ _ => true | HypothesesFailed _ _ _ _ _ => false end.

(* ================================================================== *)
(** * Definitions used in the statements *)

(** The description the validator accepts: a string whose trimmed length
    is between 10 and 1000. *)
Definition acceptable_description (v : value) : Prop :=
  exists s, v = VStr s
            /\ (10 <= String.length (Str.trim s) <= 1000)%nat.

(** Unfolds the steps of a method body down to the graphs they pass on. *)
Ltac run_M :=
  unfold vertices_set, edges_set, nodeTypes_add in *;
  unfold bindM, get, ret, throw, lift, modify in *;
  cbn beta iota.

(** The members of every layer are empty. *)
Definition layers_empty (g : graph) : Prop :=
  Forall (fun kl => Layer.nodes (snd kl) = [] /\ Layer.edges (snd kl) = [])
    (layers g).

(** [new ResearchQuestGraph()] *)
Definition fresh_graph : graph :=
  _initializeLayerStructure
    {| vertices := []; edges := []; hyperedges := []; layers := [];
       nodeTypes := []; metadata_stage := "initialization";
       metadata_config := VObj []; currentStage := 0 |}.

(** ... after [initialize("Investigate the role of skin microbiome in
    disease", [0.8, 0.7, 0.9, 0.6])] *)
Definition initialized_graph : graph :=
  run (Initialize (VStr "Investigate the role of skin microbiome in disease")
         (VArr [VNum 0.8; VNum 0.7; VNum 0.9; VNum 0.6]) VUndefined)
    fresh_graph.

(** ... after [decomposeTask()] *)
Definition decomposed_graph : graph := run (Decompose VUndefined) initialized_graph.

(** [sets p n m m']: [m'] comes from [m] by [n] calls of [set], each with a
    key and a node that satisfy [p]. *)
Inductive sets (p : string -> Node.t -> Prop)
  : nat -> JsMap.t Node.t -> JsMap.t Node.t -> Prop :=
| sets_refl (m : JsMap.t Node.t) : sets p 0 m m
| sets_step (n : nat) (m m' : JsMap.t Node.t) (k : string) (v : Node.t) :
    sets p n m m' -> p k v -> sets p (S n) m (JsMap.set k v m').

(** The node [decomposeTask] stores under a key. *)
Definition is_dimension_entry (k : string) (v : Node.t) : Prop :=
  exists index dimension tags text,
    k = ("2." ++ Str.of_nat (index + 1))%string
    /\ v = dimension_node k dimension tags text.

(** The node [generateHypotheses] stores under a key. *)
Definition is_hypothesis_entry (k : string) (v : Node.t) : Prop :=
  exists number index h,
    k = ("3." ++ number ++ "." ++ Str.of_nat (index + 1))%string
    /\ v = hypothesis_node k number index h.

(** The checks before the loop: they read the graph and change nothing. *)
Definition hypotheses_checks (dimensionNodeId hypotheses : value) (g : graph)
    : result (string * string * list value) :=
  do _ <- (if negb (currentStage g =? 2)%nat
           then Throw (wrong_stage "Cannot generate hypotheses." (currentStage g) "2")
           else Ok tt);
  do validatedNodeId <- _validateDimensionNodeId dimensionNodeId (Some (vertices g));
  do dimensionNode <-
    (match JsMap.get validatedNodeId (vertices g) with
     | Some node => Ok node
     | None => Throw (TypeError "Cannot read properties of undefined (reading 'type')")
     end);
  do _ <- (if negb (String.eqb (Node.type dimensionNode) "dimension")
           then Throw (McpError None
                         [Text ("Node " ++ validatedNodeId
                                  ++ " is not a dimension node (type: "
                                  ++ Node.type dimensionNode
                                  ++ "). Expected a dimension node created in Stage 2.")%string])
           else Ok tt);
  do validatedHypotheses <- _validateHypothesesArray hypotheses;
  do dimensionNumber <-
    (match Str.split_dot validatedNodeId with
     | _ :: number :: _ => Ok number
     | _ => Throw (Error [Text ("Invalid dimension node ID format: " ++ validatedNodeId
                                  ++ ". Expected format: 2.X")%string])
     end);
  Ok (validatedNodeId, dimensionNumber, validatedHypotheses).

(** The loop and what follows it. *)
Definition hypotheses_commit (config : value)
    (checked : string * string * list value) (g : graph)
    : graph * result hypotheses_result :=
  let '(validatedNodeId, dimensionNumber, validatedHypotheses) := checked in
  let maxHypotheses :=
    maxHypotheses_of (_validateHypothesisConfig (config_or_default config)) in
  let '(g', (hypothesisNodes, errors)) :=
    hypothesis_each validatedNodeId dimensionNumber
      (firstn maxHypotheses validatedHypotheses) 0 g in
  if (List.length hypothesisNodes =? 0)%nat
  then (g', Throw (Error (Text "Failed to create any hypotheses. Errors: "
                            :: join_msgs errors)))
  else
    (set_stage 3 "hypothesis_planning" g',
     Ok (HypothesesSucceeded hypothesisNodes
           ("Generated " ++ Str.of_nat (List.length hypothesisNodes)
              ++ " hypotheses following P1.3 specification exactly")
           3 (Some "hypothesis_planning")
           (if (0 <? List.length errors)%nat then Some errors else None)
           (if (0 <? List.length errors)%nat
            then Some [(Str.of_nat (List.length errors)
                          ++ " hypotheses failed to create")%string]
            else None))).

(** An array of 3 to 5 items. *)
Definition valid_collection (hypotheses : value) : bool :=
  match hypotheses with
  | VArr items => (3 <=? List.length items)%nat && (List.length items <=? 5)%nat
  | _ => false
  end.

(** [hypothesis_nodes] of a result ([[]] on a failure). *)
Definition hypothesis_nodes_of (r : hypotheses_result) : list string :=
  match r with
  | HypothesesSucceeded nodes _ _ _ _ _ => nodes
  | HypothesesFailed _ _ _ _ _ => []
  end.

(** [errors] of a result ([[]] when the key is absent). *)
Definition errors_of (r : hypotheses_result) : list msg :=
  match r with
  | HypothesesSucceeded _ _ _ _ (Some errors) _ => errors
  | _ => []
  end.

(** The limit a call applies to the number of items it processes. *)
Definition limit_of (config : value) : nat :=
  maxHypotheses_of (_validateHypothesisConfig (config_or_default config)).

(** The strings a filter of a string array keeps: those that are not
    blank, trimmed. *)
Fixpoint kept_strings (arr : list value) : list string :=
  match arr with
  | VStr s :: rest =>
      if (String.length (Str.trim s) =? 0)%nat then kept_strings rest
      else Str.trim s :: kept_strings rest
  | _ :: rest => kept_strings rest
  | [] => []
  end.

(** A property that is an array with an entry that has no string. *)
Definition has_unprintable_entry (v : value) : bool :=
  match v with
  | VArr arr => negb (forallb Js.printable arr)
  | _ => false
  end.

(** An optional array property: not set, or an array. *)
Definition unset_or_array (v : value) : bool :=
  match v with
  | VUndefined | VArr _ => true
  | _ => false
  end.

(** What the filter makes of an optional array property. *)
Definition kept_of (v : value) : option (list string) :=
  match v with
  | VArr arr => Some (kept_strings arr)
  | _ => None
  end.

(** A hypothesis item with a content and one tag that has no string,
    [{toString: 1}]. *)
Definition item_with_unprintable_tag : value :=
  VObj [("content", VStr "Barrier lipids are depleted");
        ("disciplinary_tags", VArr [VObj [("toString", VNum 1)]])].

(** Whether [_validateHypothesis] accepts each item, in order. *)
Fixpoint accepted_from (index : nat) (items : list value) : list bool :=
  match items with
  | [] => []
  | h :: rest => is_ok (_validateHypothesis h index) :: accepted_from (S index) rest
  end.

(** The id of the dimension at a 0-based position. *)
Definition dimension_id (index : nat) : string := ("2." ++ Str.of_nat (index + 1))%string.

(** The node [decomposeTask] stores for a dimension that has a string. *)
Definition stored_dimension_node (nodeId : string) (dimension : value) : Node.t :=
  dimension_node nodeId dimension (tags_at (Js.to_string dimension))
    (Js.to_string dimension).

(** The vertex and the edge created for a dimension. *)
Definition dimension_vertex (entry : nat * value) : string * Node.t :=
  (dimension_id (fst entry),
   stored_dimension_node (dimension_id (fst entry)) (snd entry)).

Definition dimension_edge (entry : nat * value) : string * Edge.t :=
  (("e_n0_" ++ dimension_id (fst entry))%string,
   decomposition_edge (dimension_id (fst entry))).

(** The entries with the 0-based position of each, counted from [start]. *)
Definition indexed {A : Type} (start : nat) (entries : list A) : list (nat * A) :=
  combine (seq start (List.length entries)) entries.

(** The entries a loop of [decomposeTask] stores: those before the first
    one that has no string. *)
Fixpoint stored_entries (dimensions : list value) : list value :=
  match dimensions with
  | dimension :: rest =>
      if Js.printable dimension then dimension :: stored_entries rest else []
  | [] => []
  end.

(** The dimensions of a graph after a loop that stored [new] over the
    dimensions [old]: node [2.i] is replaced for every [i] up to the
    length of [new], the others stay. *)
Definition overwritten (new old : list value) : list value :=
  new ++ skipn (List.length new) old.

(** Every vertex of kind root is stored under the key [n0]. *)
Definition roots_named_n0 (m : JsMap.t Node.t) : Prop :=
  forall id n, In (id, n) m -> Node.type n = "root" -> id = "n0".

(** The ids of the five default layers, in the order of their creation. *)
Definition layer_ids : list string := map Layer.id defaultLayers.

(** The graph after one turn of the loop of [decomposeTask] on a
    dimension that has a string; [layer] is the base layer before the
    turn. *)
Definition after_decompose_one (dimension : value) (index : nat)
    (layer : Layer.t) (g : graph) : graph :=
  let nodeId := dimension_id index in
  {| vertices :=
       JsMap.set nodeId (stored_dimension_node nodeId dimension) (vertices g);
     edges := JsMap.set ("e_n0_" ++ nodeId)%string (decomposition_edge nodeId) (edges g);
     hyperedges := hyperedges g;
     layers :=
       JsMap.set "base"
         (Layer.with_nodes (JsSet.add nodeId (Layer.nodes layer)) layer) (layers g);
     nodeTypes := JsSet.add "dimension" (nodeTypes g);
     metadata_stage := metadata_stage g;
     metadata_config := metadata_config g;
     currentStage := currentStage g |}.

(** The id of the hypothesis at a 0-based position of the loop. *)
Definition hypothesis_id (number : string) (index : nat) : string :=
  ("3." ++ number ++ "." ++ Str.of_nat (index + 1))%string.

(** The layer a hypothesis node is filed under. *)
Definition hypothesis_layer (g : graph) : string :=
  if JsMap.has "theoretical" (layers g) then "theoretical" else "base".

(** The graph after one successful turn of the loop of
    [generateHypotheses]; [layer] is the layer of the new node before the
    turn. *)
Definition after_hypothesis_one (d number : string) (index : nat)
    (vh : validated_hypothesis) (layer : Layer.t) (g : graph) : graph :=
  let nodeId := hypothesis_id number index in
  {| vertices := JsMap.set nodeId (hypothesis_node nodeId number index vh) (vertices g);
     edges :=
       JsMap.set ("e_" ++ d ++ "_" ++ nodeId)%string (hypothesis_edge d nodeId) (edges g);
     hyperedges := hyperedges g;
     layers :=
       JsMap.set (hypothesis_layer g)
         (Layer.with_nodes (JsSet.add nodeId (Layer.nodes layer)) layer) (layers g);
     nodeTypes := JsSet.add "hypothesis" (nodeTypes g);
     metadata_stage := metadata_stage g;
     metadata_config := metadata_config g;
     currentStage := currentStage g |}.

(** The layers [initialize] files the root under: those of the graph, or
    the five default ones when the graph has no base layer. *)
Definition ready_layers (g : graph) : JsMap.t Layer.t :=
  if JsMap.has "base" (layers g) then layers g
  else layers (_initializeLayerStructure g).

(** The graph after the root was added; [layer] is the base layer of
    [ready_layers]. *)
Definition after_add_root (rootNode : Node.t) (layer : Layer.t) (g : graph) : graph :=
  {| vertices := JsMap.set "n0" rootNode (vertices g);
     edges := edges g;
     hyperedges := hyperedges g;
     layers :=
       JsMap.set "base"
         (Layer.with_nodes (JsSet.add "n0" (Layer.nodes layer)) layer) (ready_layers g);
     nodeTypes := JsSet.add "root" (nodeTypes g);
     metadata_stage := "initialization";
     metadata_config := metadata_config g;
     currentStage := 1 |}.

(** The items of the loop that pass [_validateHypothesis], each with its
    0-based position. *)
Fixpoint accepted_items (index : nat) (hypotheses : list value)
    : list (nat * validated_hypothesis) :=
  match hypotheses with
  | [] => []
  | h :: rest =>
      match _validateHypothesis h index with
      | Ok vh => (index, vh) :: accepted_items (S index) rest
      | Throw _ => accepted_items (S index) rest
      end
  end.

(** The vertex and the edge created for an accepted item. *)
Definition hypothesis_vertex (number : string) (entry : nat * validated_hypothesis)
    : string * Node.t :=
  (hypothesis_id number (fst entry),
   hypothesis_node (hypothesis_id number (fst entry)) number (fst entry) (snd entry)).

Definition hypothesis_link (d number : string) (entry : nat * validated_hypothesis)
    : string * Edge.t :=
  (("e_" ++ d ++ "_" ++ hypothesis_id number (fst entry))%string,
   hypothesis_edge d (hypothesis_id number (fst entry))).

(** The forms of the vertex and edge maps, by the value of the cursor:
    nothing at 0; from 1 on the root and the dimension nodes [2.1] to
    [2.n], each the node of an entry that has a string, with an edge from
    the root to each (at cursor 1 these are what loops that threw have
    left, at cursor 2 what the loops up to the one that came to its end
    have left); and at 3 these followed by the hypothesis nodes created
    for the accepted items of one call, with an edge from the chosen
    dimension node to each. *)
Inductive graph_form (g : graph) : Prop :=
| form_new :
    currentStage g = 0%nat -> vertices g = [] -> edges g = [] -> graph_form g
| form_initialized (content : string) (conf : list float) (sc : safe_config)
    (names : list value) :
    currentStage g = 1%nat ->
    forallb Js.printable names = true ->
    vertices g
    = ("n0", root_node content conf sc) :: map dimension_vertex (indexed 0 names) ->
    edges g = map dimension_edge (indexed 0 names) ->
    graph_form g
| form_decomposed (content : string) (conf : list float) (sc : safe_config)
    (names : list value) :
    currentStage g = 2%nat ->
    forallb Js.printable names = true ->
    vertices g
    = ("n0", root_node content conf sc) :: map dimension_vertex (indexed 0 names) ->
    edges g = map dimension_edge (indexed 0 names) ->
    graph_form g
| form_hypotheses (content : string) (conf : list float) (sc : safe_config)
    (names : list value) (a : nat) (items : list value) :
    currentStage g = 3%nat ->
    forallb Js.printable names = true ->
    (a < List.length names)%nat ->
    (List.length items <= 5)%nat ->
    accepted_items 0 items <> [] ->
    vertices g
    = ("n0", root_node content conf sc) :: map dimension_vertex (indexed 0 names)
        ++ map (hypothesis_vertex (Str.of_nat (a + 1))) (accepted_items 0 items) ->
    edges g
    = map dimension_edge (indexed 0 names)
        ++ map (hypothesis_link (dimension_id a) (Str.of_nat (a + 1)))
             (accepted_items 0 items) ->
    graph_form g.

(** The three kinds of vertex, each stored under an id of its own form. *)
Definition vertex_kind (k : string) (n : Node.t) : Prop :=
  (k = "n0" /\ Node.type n = "root"
   /\ Meta.layer_id (Node.metadata n) = "base")
  \/ (exists i, k = dimension_id i /\ Node.type n = "dimension"
                /\ Meta.layer_id (Node.metadata n) = "base")
  \/ (exists a i, k = hypothesis_id (Str.of_nat (a + 1)) i
                  /\ Node.type n = "hypothesis"
                  /\ Meta.layer_id (Node.metadata n) = "theoretical").

(** An edge of the tree: from the root to a dimension node, or from a
    dimension node to a hypothesis node. *)
Definition tree_edge (g : graph) (e : Edge.t) : Prop :=
  exists s t,
    JsMap.get (Edge.source e) (vertices g) = Some s
    /\ JsMap.get (Edge.target e) (vertices g) = Some t
    /\ ((Node.type s = "root" /\ Node.type t = "dimension"
         /\ EdgeMeta.edge_type (Edge.metadata e) = "Decomposition")
        \/ (Node.type s = "dimension" /\ Node.type t = "hypothesis"
            /\ EdgeMeta.edge_type (Edge.metadata e) = "Hypothesis")).

(** A layer of the graph is one of the default ones, but for its
    members: same id, name and description, stored under its id, and no
    edge in either of its edge sets. *)
Definition layer_shape (kl : string * Layer.t) (d : Layer.t) : Prop :=
  fst kl = Layer.id d
  /\ Layer.id (snd kl) = Layer.id d
  /\ Layer.name (snd kl) = Layer.name d
  /\ Layer.description (snd kl) = Layer.description d
  /\ Layer.edges (snd kl) = []
  /\ Layer.inter_layer_edges (snd kl) = [].

(** The layer map is empty or holds the five default layers in order. *)
Definition layers_shape (g : graph) : Prop :=
  layers g = [] \/ Forall2 layer_shape (layers g) defaultLayers.

(** The layer a vertex is filed under, by its id. *)
Definition layer_of_id (k : string) : string :=
  if Str.startsWith "3." k then "theoretical" else "base".

(** The members of every layer are the ids of that layer, in the order of
    the vertex map. *)
Definition members_by_id (vs : JsMap.t Node.t) (ls : JsMap.t Layer.t) : Prop :=
  forall L layer,
    JsMap.get L ls = Some layer ->
    Layer.nodes layer
    = filter (fun k => String.eqb (layer_of_id k) L) (JsMap.keys vs).

(** The kind of a vertex, by its id. *)
Definition kind_of_id (k : string) : string :=
  if String.eqb k "n0" then "root"
  else if Str.startsWith "2." k then "dimension"
  else "hypothesis".

(** The set of kinds holds the kinds of the ids in use. *)
Definition kinds_by_id (vs : JsMap.t Node.t) (kinds : JsSet.t) : Prop :=
  forall t,
    JsSet.has t kinds
    = existsb (fun k => String.eqb (kind_of_id k) t) (JsMap.keys vs).

(** One turn of the loop of [_getNodeTypeBreakdown]. *)
Definition breakdown_step (breakdown : JsMap.t nat) (node : Node.t) : JsMap.t nat :=
  JsMap.set (Node.type node)
    (option_default 0%nat (JsMap.get (Node.type node) breakdown) + 1)%nat breakdown.

(* ================================================================== *)
(** * The tool handler *)

(** The names of the advertised tools ([tools], as [ListTools] returns
    them), in order. *)
Definition tools : list string :=
  ["initialize_research_quest_graph"; "decompose_research_task";
   "generate_hypotheses"; "get_graph_summary"; "export_graph_data"].

(** [ErrorCode] of the errors the handler raises. *)
Inductive ErrorCode : Type :=
| InvalidParams
| InvalidRequest
| MethodNotFound
| InternalError.

(** Why the handler raises an error; the wording of the message is not
    carried.  [Failed prefix m] is the message [prefix] followed by the
    message of the exception caught. *)
Inductive reason : Type :=
| Bad_tool_name
| Bad_arguments (type_of_args : Js.jstype)
| Missing_parameter (parameter : string)
| No_graph
| Bad_format (format : value)
| Unknown_tool (name : string)
| Failed (prefix : string) (message : msg).

(** [new McpError(code, ...)] *)
Record rejection : Type := {
  code : ErrorCode;
  why : reason
}.

(** What a [catch] of the handler holds: an error of the handler or an
    exception of the class. *)
Inductive caught : Type :=
| CaughtMcp (r : rejection)
| CaughtExn (e : exn).

(** The object a tool serializes into its reply.  A [..._failure] reply
    is the result spread with [partial_success: false] and the message of
    the handler. *)
Inductive reply : Type :=
| initialize_reply (r : initialize_result)
| initialize_failure (r : initialize_result)
| decompose_reply (r : decompose_result)
| decompose_failure (r : decompose_result)
| hypotheses_reply (r : hypotheses_result)
| hypotheses_failure (r : hypotheses_result)
| summary_reply (summary : Summary.t) (graph_health : string)
| summary_fallback (error : caught) (graph_exists : bool)
    (vertices_count current_stage : nat)
| export_reply (text : export)
| export_fallback (error : caught) (vertices_count edges_count current_stage : nat).

(** A call returns a reply or throws an [McpError]; an exception raised
    before the [try] of the handler leaves it as it is. *)
Inductive outcome : Type :=
| Returned (r : reply)
| Rejected (r : rejection)
| Escaped (e : exn).

(** An exception caught by the [catch] of a tool: an [McpError] is thrown
    again as it is (the class builds them with [InvalidParams]), anything
    else is wrapped. *)
Definition rethrown (prefix : string) (e : exn) : rejection :=
  match e with
  | McpError _ m => {| code := InvalidParams; why := Failed "" m |}
  | _ => {| code := InternalError; why := Failed prefix (message_of e) |}
  end.

(** [args.dimensions] as [decomposeTask] gets it: anything but an array
    is replaced by [undefined]. *)
Definition dimensions_argument (dimensions : value) : value :=
  if negb (Js.is_undefined dimensions) && negb (Js.isArray dimensions)
  then VUndefined
  else dimensions.

(** [case 'initialize_asr_got_graph'] *)
Definition tool_initialize (args : value) (currentGraph : option graph)
    : option graph * outcome :=
  if negb (Js.truthy (Js.prop "task_description" args)) then
    (currentGraph,
     Rejected {| code := InvalidParams; why := Missing_parameter "task_description" |})
  else
    let config := Js.prop "config" args in
    match new_ResearchQuestGraph (if Js.truthy config then config else VObj []) with
    | Throw graphError =>
        (currentGraph,
         Rejected {| code := InternalError;
                     why := Failed "Failed to create graph: " (message_of graphError) |})
    | Ok g =>
        let '(g', initResult) :=
          initialize (Js.prop "task_description" args)
            (Js.prop "initial_confidence" args) config g in
        (Some g',
         Returned (if initialize_success initResult
                   then initialize_reply initResult
                   else initialize_failure initResult))
    end.

(** [case 'decompose_research_task'] *)
Definition tool_decompose (args : value) (currentGraph : option graph)
    : option graph * outcome :=
  match currentGraph with
  | None => (None, Rejected {| code := InvalidRequest; why := No_graph |})
  | Some g =>
      match decomposeTask (dimensions_argument (Js.prop "dimensions" args)) g with
      | (g', Ok decomposeResult) =>
          (Some g',
           Returned (if dr_success decomposeResult
                     then decompose_reply decomposeResult
                     else decompose_failure decomposeResult))
      | (g', Throw error) =>
          (Some g', Rejected (rethrown "Task decomposition failed: " error))
      end
  end.

(** [case 'generate_hypotheses'] *)
Definition tool_hypotheses (args : value) (currentGraph : option graph)
    : option graph * outcome :=
  match currentGraph with
  | None => (None, Rejected {| code := InvalidRequest; why := No_graph |})
  | Some g =>
      if negb (Js.truthy (Js.prop "dimension_node_id" args)) then
        (currentGraph,
         Rejected {| code := InvalidParams;
                     why := Missing_parameter "dimension_node_id" |})
      else if negb (Js.truthy (Js.prop "hypotheses" args)) then
        (currentGraph,
         Rejected {| code := InvalidParams; why := Missing_parameter "hypotheses" |})
      else
        let '(g', hypothesesResult) :=
          generateHypotheses (Js.prop "dimension_node_id" args)
            (Js.prop "hypotheses" args) (Js.prop "config" args) g in
        (Some g',
         Returned (if hypotheses_success hypothesesResult
                   then hypotheses_reply hypothesesResult
                   else hypotheses_failure hypothesesResult))
  end.

(** [case 'get_graph_summary']: its [catch] turns every error into a
    fallback reply. *)
Definition tool_summary (currentGraph : option graph) : option graph * outcome :=
  match currentGraph with
  | None =>
      (None,
       Returned (summary_fallback
                   (CaughtMcp {| code := InvalidRequest; why := No_graph |})
                   false 0 0))
  | Some g =>
      (currentGraph,
       Returned (summary_reply (getGraphSummary g)
                   (if (0 <? JsMap.size (vertices g))%nat then "healthy" else "empty")))
  end.

(** [case 'export_graph_data']: its [catch] turns every error into a
    fallback reply. *)
Definition tool_export (args : value) (currentGraph : option graph)
    : option graph * outcome :=
  match currentGraph with
  | None =>
      (None,
       Returned (export_fallback
                   (CaughtMcp {| code := InvalidRequest; why := No_graph |}) 0 0 0))
  | Some g =>
      let fallback (error : caught) :=
        Returned (export_fallback error (JsMap.size (vertices g))
                    (JsMap.size (edges g)) (currentStage g)) in
      let format :=
        if Js.truthy (Js.prop "format" args) then Js.prop "format" args
        else VStr "json" in
      (currentGraph,
       match format with
       | VStr f =>
           if negb (Js.truthy format) then
             fallback (CaughtMcp {| code := InvalidParams; why := Bad_format format |})
           else
             let lowerFormat := Str.toLowerCase f in
             if existsb (String.eqb lowerFormat) ["json"; "yaml"] then
               match exportGraph (VStr lowerFormat) g with
               | Ok exportedData => Returned (export_reply exportedData)
               | Throw error => fallback (CaughtExn error)
               end
             else
               fallback (CaughtMcp {| code := InvalidParams;
                                      why := Bad_format format |})
       | _ =>
           fallback (CaughtMcp {| code := InvalidParams; why := Bad_format format |})
       end)
  end.

(** The handler of [CallTool]: the state is the global [currentGraph].
    The first line logs the name in a template literal, before the [try]:
    a name that has no string makes the handler throw there. *)
Definition call_tool (name args : value) (currentGraph : option graph)
    : option graph * outcome :=
  match Js.ToString name with
  | Throw e => (currentGraph, Escaped e)
  | Ok _ =>
      match name with
      | VStr tool =>
          if String.eqb tool "" then
            (currentGraph, Rejected {| code := InvalidParams; why := Bad_tool_name |})
          else
            match args with
            | VObj _ | VArr _ =>
                if String.eqb tool "initialize_asr_got_graph" then
                  tool_initialize args currentGraph
                else if String.eqb tool "decompose_research_task" then
                  tool_decompose args currentGraph
                else if String.eqb tool "generate_hypotheses" then
                  tool_hypotheses args currentGraph
                else if String.eqb tool "get_graph_summary" then
                  tool_summary currentGraph
                else if String.eqb tool "export_graph_data" then
                  tool_export args currentGraph
                else
                  (currentGraph,
                   Rejected {| code := MethodNotFound; why := Unknown_tool tool |})
            | _ =>
                (currentGraph,
                 Rejected {| code := InvalidParams;
                             why := Bad_arguments (Js.typeof args) |})
            end
      | _ =>
          (currentGraph, Rejected {| code := InvalidParams; why := Bad_tool_name |})
      end
  end.

(** A session: the calls in order, from a state of [currentGraph]; it
    gives the final state and the outcomes. *)
Fixpoint session (calls : list (value * value)) (currentGraph : option graph)
    : option graph * list outcome :=
  match calls with
  | [] => (currentGraph, [])
  | (name, args) :: rest =>
      let '(currentGraph', o) := call_tool name args currentGraph in
      let '(final, outcomes) := session rest currentGraph' in
      (final, o :: outcomes)
  end.

(** A call that did not succeed: an error, or a fallback reply. *)
Definition no_success (o : outcome) : bool :=
  match o with
  | Rejected _ => true
  | Escaped _ => true
  | Returned (summary_fallback _ _ _ _) => true
  | Returned (export_fallback _ _ _ _) => true
  | Returned _ => false
  end.

(** [_validateExportFormat(format)] *)
Definition _validateExportFormat (format : value) : result string :=
  let validFormats := [VStr "json"; VStr "yaml"] in
  match format with
  | VStr f =>
      if negb (Js.truthy format) then
        Throw (_createValidationError "format" format
                 "a string specifying export format" validFormats)
      else
        let lowerFormat := Str.toLowerCase f in
        if existsb (String.eqb lowerFormat) ["json"; "yaml"] then Ok lowerFormat
        else
          Throw (_createValidationError "format" format
                   ("one of: " ++ Str.join ", " ["json"; "yaml"]) validFormats)
  | _ =>
      Throw (_createValidationError "format" format
               "a string specifying export format" validFormats)
  end.

(** Splits a chain of [do] steps that ended in [Ok] into its steps. *)
Ltac bind_ok H :=
  repeat match type of H with
         | bind ?r _ = Ok _ =>
             let E := fresh "E" in
             destruct r eqn:E; cbn [bind] in H; [|discriminate H]
         end.

(* ================================================================== *)
(** * Properties *)

(** ** The confidence wrapper *)

Section WrapConfidence.

Let clamp (num : float) : float := if Num.out_of_unit num then 0.5 else num.

Lemma Number_printable (v : value) :
  Js.printable v = true -> Js.Number v = Ok (Js.ToNumber_printable v).
Proof. intros H. unfold Js.Number. now rewrite H. Qed.

Lemma Number_not_printable (v : value) :
  Js.printable v = false -> is_ok (Js.Number v) = false.
Proof. intros H. unfold Js.Number. now rewrite H. Qed.

Lemma valid_means_printable (items : list value) :
  forallb Js.printable items = true ->
  valid_means items = Ok (map (fun v => clamp (Js.ToNumber_printable v)) items).
Proof.
  induction items as [|v items IH]; simpl; intros H; [reflexivity|].
  apply andb_prop in H as [Hv Hrest].
  unfold valid_mean. rewrite (Number_printable v Hv). simpl.
  now rewrite (IH Hrest).
Qed.

Lemma valid_means_not_printable (items : list value) :
  forallb Js.printable items = false -> is_ok (valid_means items) = false.
Proof.
  induction items as [|v items IH]; simpl; intros H; [discriminate|].
  unfold valid_mean, Js.Number.
  destruct (Js.printable v); simpl in *; [|reflexivity].
  destruct (valid_means items); [|reflexivity].
  now specialize (IH H).
Qed.

Lemma clamp_numbers (xs : list float) :
  Forall (fun x => Num.out_of_unit x = false) xs ->
  map (fun v => clamp (Js.ToNumber_printable v)) (map VNum xs) = xs.
Proof.
  induction 1 as [|x xs Hx _ IH]; simpl; [reflexivity|].
  unfold clamp at 1. rewrite Hx. now rewrite IH.
Qed.

Lemma printable_numbers (xs : list float) :
  forallb Js.printable (map VNum xs) = true.
Proof. induction xs; simpl; auto. Qed.

(** C8 (amended).  [_createProbabilityDistribution] always returns a
    distribution whose variances are [m * (1 - m)] of its means.  On an
    array of numbers in [0, 1] the means are the input.  On any array the
    means are the entries' [Number] coercions, with [0.5] in place of a
    coercion that is [NaN] or outside [0, 1]; when some coercion throws,
    and on a non-array, the result is the default distribution
    [0.5, 0.5, 0.5, 0.5]. *)
Theorem wrapConfidence_spec (input : value) :
  let d := _createProbabilityDistribution input in
  variances d = map (fun m => m * (1 - m)) (means d)
  /\ (forall xs,
        input = VArr (map VNum xs) ->
        Forall (fun x => Num.out_of_unit x = false) xs ->
        means d = xs /\ variances d = map (fun m => m * (1 - m)) xs)
  /\ (forall items,
        input = VArr items ->
        forallb Js.printable items = true ->
        means d =
          map (fun v =>
                 let num := Js.ToNumber_printable v in
                 if Num.out_of_unit num then 0.5 else num) items)
  /\ (forall items,
        input = VArr items ->
        forallb Js.printable items = false ->
        d = default_distribution)
  /\ (Js.isArray input = false -> d = default_distribution).
Proof.
  cbv zeta. repeat split.
  - unfold _createProbabilityDistribution.
    destruct (valid_means _); reflexivity.
  - subst input. unfold _createProbabilityDistribution.
    rewrite (valid_means_printable _ (printable_numbers xs)). simpl.
    now apply clamp_numbers.
  - subst input. unfold _createProbabilityDistribution.
    rewrite (valid_means_printable _ (printable_numbers xs)). simpl.
    now rewrite (clamp_numbers xs).
  - intros items -> Hp. unfold _createProbabilityDistribution.
    now rewrite (valid_means_printable _ Hp).
  - intros items -> Hp. unfold _createProbabilityDistribution.
    pose proof (valid_means_not_printable _ Hp) as H.
    destruct (valid_means items); [discriminate|reflexivity].
  - intros Hna. destruct input; try discriminate; reflexivity.
Qed.

End WrapConfidence.

(** C8, witness: the vector [0.8, 0.7, 0.9, 0.6]. *)
Lemma wrapConfidence_spec_witness :
  let xs := [0.8; 0.7; 0.9; 0.6] in
  let d := _createProbabilityDistribution (VArr (map VNum xs)) in
  means d = xs /\ variances d = map (fun m => m * (1 - m)) xs.
Proof.
  cbv zeta.
  apply (proj1 (proj2 (wrapConfidence_spec (VArr (map VNum [0.8; 0.7; 0.9; 0.6]))))
           [0.8; 0.7; 0.9; 0.6] eq_refl).
  repeat constructor.
Defined.

(** C8, as stated, fails: [null] is not a number in [0, 1], yet it is
    not replaced by [0.5] but coerced to [0]. *)
Lemma wrapConfidence_null_entry :
  let d := _createProbabilityDistribution (VArr [VNull; VNum 0.5; VNum 0.5; VNum 0.5]) in
  Js.typeof VNull = Js.Tobject
  /\ means d = [0; 0.5; 0.5; 0.5]
  /\ PrimFloat.eqb 0 0.5 = false.
Proof. cbv zeta. repeat split. Qed.

(** ** The task description *)

Lemma validateTaskDescription_ok (v : value) (t : string) :
  _validateTaskDescription v = Ok t <->
  exists s, v = VStr s /\ t = Str.trim s
            /\ (10 <= String.length (Str.trim s) <= 1000)%nat.
Proof.
  split.
  - destruct v; simpl; try discriminate.
    destruct (Nat.eqb_spec (String.length (Str.trim s)) 0); [discriminate|].
    destruct (Nat.ltb_spec (String.length (Str.trim s)) 10); [discriminate|].
    destruct (Nat.ltb_spec 1000 (String.length (Str.trim s))); [discriminate|].
    intros [= <-]. exists s. repeat split; lia.
  - intros (s & -> & -> & Hlo & Hhi). simpl.
    destruct (Nat.eqb_spec (String.length (Str.trim s)) 0); [lia|].
    destruct (Nat.ltb_spec (String.length (Str.trim s)) 10); [lia|].
    destruct (Nat.ltb_spec 1000 (String.length (Str.trim s))); [lia|].
    reflexivity.
Qed.

Lemma validateTaskDescription_throw (v : value) (e : exn) :
  _validateTaskDescription v = Throw e ->
  exists m, e = McpError (Some "task_description") m.
Proof.
  unfold _validateTaskDescription, _createValidationError.
  destruct v; try (intros [= <-]; eexists; reflexivity).
  destruct (_ =? _)%nat; [intros [= <-]; eexists; reflexivity|].
  destruct (_ <? _)%nat; [intros [= <-]; eexists; reflexivity|].
  destruct (_ <? _)%nat; [intros [= <-]; eexists; reflexivity|].
  discriminate.
Qed.


(** ** Facts about the containers *)

Section MapFacts.

Context {V : Type}.
Implicit Types (m : JsMap.t V) (k : string) (v : V).

Lemma get_set_same m k v : JsMap.get k (JsMap.set k v m) = Some v.
Proof.
  induction m as [|[k' v'] m IH]; simpl.
  - now rewrite String.eqb_refl.
  - destruct (String.eqb_spec k k'); simpl.
    + now rewrite String.eqb_refl.
    + destruct (String.eqb_spec k k'); [contradiction|exact IH].
Qed.

Lemma get_set_other m k k' v :
  k <> k' -> JsMap.get k (JsMap.set k' v m) = JsMap.get k m.
Proof.
  intros Hne. induction m as [|[k0 v0] m IH]; simpl.
  - destruct (String.eqb_spec k k'); [contradiction|reflexivity].
  - destruct (String.eqb_spec k' k0); simpl.
    + subst. destruct (String.eqb_spec k k0); [contradiction|reflexivity].
    + destruct (String.eqb_spec k k0); [reflexivity|exact IH].
Qed.

Lemma has_set m k k' v :
  JsMap.has k (JsMap.set k' v m) = String.eqb k k' || JsMap.has k m.
Proof.
  unfold JsMap.has. destruct (String.eqb_spec k k').
  - subst. now rewrite get_set_same.
  - now rewrite get_set_other.
Qed.

Lemma In_set m k v k' v' :
  In (k', v') (JsMap.set k v m) -> (k', v') = (k, v) \/ In (k', v') m.
Proof.
  induction m as [|[k0 v0] m IH]; simpl.
  - intros [H|[]]; auto.
  - destruct (String.eqb_spec k k0); simpl.
    + intros [H|H]; auto.
    + intros [H|H]; auto. destruct (IH H); auto.
Qed.

Lemma keys_set m k v :
  JsMap.keys (JsMap.set k v m)
  = if JsMap.has k m then JsMap.keys m else JsMap.keys m ++ [k].
Proof.
  unfold JsMap.has, JsMap.keys.
  induction m as [|[k0 v0] m IH]; simpl; [reflexivity|].
  destruct (String.eqb_spec k k0); simpl.
  - now subst.
  - rewrite IH. now destruct (JsMap.get k m).
Qed.

Lemma has_In_keys m k : JsMap.has k m = true <-> In k (JsMap.keys m).
Proof.
  unfold JsMap.has, JsMap.keys.
  induction m as [|[k0 v0] m IH]; simpl.
  - split; [discriminate|tauto].
  - destruct (String.eqb_spec k k0).
    + subst. split; auto.
    + rewrite IH. split; [auto|]. intros [H|H]; [congruence|assumption].
Qed.

Lemma NoDup_keys_set m k v :
  NoDup (JsMap.keys m) -> NoDup (JsMap.keys (JsMap.set k v m)).
Proof.
  intros Hnd. rewrite keys_set.
  destruct (JsMap.has k m) eqn:Hhas; [assumption|].
  apply NoDup_app; [assumption|repeat constructor; intros []|].
  intros x Hx [<-|[]].
  apply has_In_keys in Hx. congruence.
Qed.

Lemma size_set_le m k v : JsMap.size (JsMap.set k v m) <= S (JsMap.size m).
Proof.
  unfold JsMap.size.
  induction m as [|[k0 v0] m IH]; simpl; [lia|].
  destruct (String.eqb k k0); simpl; lia.
Qed.

Lemma get_In m k v : JsMap.get k m = Some v -> In (k, v) m.
Proof.
  induction m as [|[k0 v0] m IH]; simpl; [discriminate|].
  destruct (String.eqb_spec k k0).
  - intros [= ->]. subst. now left.
  - intros H. right. now apply IH.
Qed.

Lemma In_get m k v : NoDup (JsMap.keys m) -> In (k, v) m -> JsMap.get k m = Some v.
Proof.
  induction m as [|[k0 v0] m IH]; simpl; [tauto|].
  intros Hnd [H|H].
  - injection H as -> ->. now rewrite String.eqb_refl.
  - inversion Hnd as [|? ? Hnotin Hnd']; subst.
    destruct (String.eqb_spec k k0).
    + subst. exfalso. apply Hnotin. change (In k0 (JsMap.keys m)).
      unfold JsMap.keys. now apply (in_map fst) in H.
    + now apply IH.
Qed.

End MapFacts.

(** Counting the values that pass a test, after one [set]. *)
Lemma count_set_le {V : Type} (p : V -> bool) (m : JsMap.t V) (k : string) (v : V) :
  List.length (filter p (JsMap.values (JsMap.set k v m)))
  <= List.length (filter p (JsMap.values m)) + (if p v then 1 else 0).
Proof.
  unfold JsMap.values.
  induction m as [|[k0 v0] m IH]; simpl.
  - destruct (p v); simpl; lia.
  - destruct (String.eqb k k0); simpl.
    + destruct (p v), (p v0); simpl; lia.
    + destruct (p v0); simpl; lia.
Qed.

(** ** [initialize] *)

Lemma cleared_layers_empty (ls : JsMap.t Layer.t) :
  Forall (fun kl => Layer.nodes (snd kl) = [] /\ Layer.edges (snd kl) = [])
    (map (fun '(k, layer) => (k, Layer.cleared layer)) ls).
Proof. induction ls as [|[k layer] l IH]; cbn; constructor; auto. Qed.

Lemma reset_empty (g : graph) :
  let g' := _resetToInitialState g in
  vertices g' = [] /\ edges g' = [] /\ hyperedges g' = []
  /\ nodeTypes g' = [] /\ currentStage g' = 0%nat /\ layers_empty g'.
Proof.
  cbv zeta. unfold _resetToInitialState, layers_empty.
  cbn [set_stage set_nodeTypes set_hyperedges set_edges set_vertices layers
       vertices edges hyperedges nodeTypes currentStage].
  destruct (layers g) as [|kl ls] eqn:Hl; cbn [JsMap.size List.length Nat.ltb Nat.leb].
  - unfold _initializeLayerStructure. cbn. rewrite Hl. cbn.
    repeat split; repeat constructor.
  - unfold clear_layer_members. cbn [layers set_layers vertices edges hyperedges
                                     nodeTypes currentStage].
    repeat split. apply cleared_layers_empty.
Qed.

Lemma layer_nodes_add_ok (layerId nodeId : string) (g : graph) :
  JsMap.has layerId (layers g) = true ->
  exists layer,
    JsMap.get layerId (layers g) = Some layer
    /\ layer_nodes_add layerId nodeId g
       = (set_layers
            (JsMap.set layerId
               (Layer.with_nodes (JsSet.add nodeId (Layer.nodes layer)) layer)
               (layers g)) g, Ok tt).
Proof.
  unfold JsMap.has, layer_nodes_add.
  destruct (JsMap.get layerId (layers g)) as [layer|]; [|discriminate].
  intros _. now exists layer.
Qed.

Lemma has_base_after_structure (g : graph) :
  JsMap.has "base" (layers (_initializeLayerStructure g)) = true.
Proof.
  unfold _initializeLayerStructure. cbn [layers set_layers defaultLayers map fold_left].
  cbn [Layer.id]. rewrite !has_set. reflexivity.
Qed.

Lemma require_stage_ok (what text : string) (expected : nat) (g : graph) :
  currentStage g = expected -> require_stage what expected text g = (g, Ok tt).
Proof.
  intros <-. unfold require_stage. run_M. now rewrite Nat.eqb_refl.
Qed.

Lemma require_stage_wrong (what text : string) (expected : nat) (g : graph) :
  currentStage g <> expected ->
  require_stage what expected text g
  = (g, Throw (wrong_stage what (currentStage g) text)).
Proof.
  intros H. unfold require_stage. run_M.
  destruct (Nat.eqb_spec (currentStage g) expected); [contradiction|reflexivity].
Qed.

Lemma clear_for_reinitialization_ok (g : graph) :
  exists g1,
    clear_for_reinitialization g = (g1, Ok tt)
    /\ vertices g1 = [] /\ currentStage g1 = currentStage g.
Proof.
  unfold clear_for_reinitialization. run_M.
  destruct (vertices g) as [|kv vs] eqn:Hv; cbn - [clear_layer_members].
  - exists g. auto.
  - eexists. split; [reflexivity|]. split; reflexivity.
Qed.

Lemma add_root_ok (rootNode : Node.t) (g : graph) :
  vertices g = [] ->
  exists g' r,
    add_root rootNode g = (g', Ok r)
    /\ initialize_success r = true
    /\ vertices g' = [("n0", rootNode)]
    /\ currentStage g' = 1%nat
    /\ JsMap.has "base" (layers g') = true.
Proof.
  intros Hv. unfold add_root. run_M.
  set (g2 := set_nodeTypes _ _).
  assert (Hv2 : vertices g2 = [("n0", rootNode)]).
  { subst g2. cbn. now rewrite Hv. }
  destruct (JsMap.has "base" (layers g2)) eqn:Hb.
  - destruct (layer_nodes_add_ok "base" "n0" g2 Hb) as (layer & _ & ->).
    eexists _, _. split; [reflexivity|]. cbn. repeat split; auto.
    now rewrite has_set.
  - pose proof (has_base_after_structure g2) as Hb'.
    destruct (layer_nodes_add_ok "base" "n0" _ Hb') as (layer & _ & ->).
    eexists _, _. split; [reflexivity|]. cbn - [_initializeLayerStructure].
    repeat split; auto. now rewrite has_set.
Qed.

(** What the [try] block of [initialize] does at cursor 0 once its three
    validations pass. *)
Lemma initialize_body_ok (t c cfg : value) (g : graph)
    (d : string) (conf : list float) (sc : safe_config) :
  currentStage g = 0%nat ->
  _validateTaskDescription t = Ok d ->
  _validateConfidenceArray (confidence_or_default c) "initial_confidence" = Ok conf ->
  _validateConfig (config_or_default cfg) = Ok sc ->
  exists g' r,
    initialize_body t c cfg g = (g', Ok r)
    /\ initialize_success r = true
    /\ vertices g' = [("n0", root_node d conf sc)]
    /\ currentStage g' = 1%nat
    /\ JsMap.has "base" (layers g') = true.
Proof.
  intros Hs Ht Hc Hcfg.
  unfold initialize_body. unfold bindM at 1.
  rewrite (require_stage_ok _ _ _ _ Hs).
  unfold bindM at 1.
  destruct (clear_for_reinitialization_ok g) as (g1 & -> & Hv & _).
  unfold bindM, lift. rewrite Ht, Hc, Hcfg.
  now apply add_root_ok.
Qed.

(** At any other cursor the [try] block throws at once. *)
Lemma initialize_body_wrong_stage (t c cfg : value) (g : graph) :
  currentStage g <> 0%nat ->
  initialize_body t c cfg g
  = (g, Throw (wrong_stage "Cannot initialize." (currentStage g)
                 "0 (before initialization)")).
Proof.
  intros Hs. unfold initialize_body. unfold bindM at 1.
  now rewrite (require_stage_wrong _ _ _ _ Hs).
Qed.

(** A failed validation at cursor 0 ends in the reset. *)
Lemma initialize_body_throw (t c cfg : value) (g g' : graph) (e : exn) :
  initialize_body t c cfg g = (g', Throw e) ->
  initialize t c cfg g
  = (_resetToInitialState g',
     InitializeFailed (message_of e)
       "Initialization failed, graph reset to initial state" 0 true).
Proof.
  intros H. unfold initialize. rewrite H.
  now destruct (reset_empty g') as (_ & _ & _ & _ & -> & _).
Qed.

(** ** The scenario of the specification *)

Lemma fresh_graph_new : new_ResearchQuestGraph VUndefined = Ok fresh_graph.
Proof. reflexivity. Qed.

Lemma fresh_graph_reachable : reachable fresh_graph.
Proof. exact (reachable_new VUndefined fresh_graph fresh_graph_new). Defined.

Lemma initialized_graph_reachable : reachable initialized_graph.
Proof. exact (reachable_run _ _ fresh_graph_reachable). Defined.

Lemma decomposed_graph_reachable : reachable decomposed_graph.
Proof. exact (reachable_run _ _ initialized_graph_reachable). Defined.

(** ** C9: the task description *)

(** C9.  [initialize] accepts a task description exactly when it is a
    string whose trimmed length is between 10 and 1000: the validator
    returns the trimmed string in that case and otherwise throws an
    invalid-parameter error whose field is [task_description]; at cursor 0,
    with a valid confidence and config, [initialize] succeeds exactly on
    such a description and stores the trimmed string as the content of the
    root node [n0].  A 9-character description fails, a 10-character one
    passes. *)
Theorem task_description_rule :
  (forall v t,
      _validateTaskDescription v = Ok t <->
      exists s, v = VStr s /\ t = Str.trim s
                /\ (10 <= String.length (Str.trim s) <= 1000)%nat)
  /\ (forall v e,
        _validateTaskDescription v = Throw e ->
        exists m, e = McpError (Some "task_description") m)
  /\ (forall v c cfg g,
        currentStage g = 0%nat ->
        is_ok (_validateConfidenceArray (confidence_or_default c)
                 "initial_confidence") = true ->
        is_ok (_validateConfig (config_or_default cfg)) = true ->
        (initialize_success (snd (initialize v c cfg g)) = true
         <-> acceptable_description v)
        /\ (initialize_success (snd (initialize v c cfg g)) = true ->
            exists s n,
              v = VStr s
              /\ JsMap.get "n0" (vertices (fst (initialize v c cfg g))) = Some n
              /\ Node.type n = "root"
              /\ Node.content n = Str.trim s))
  /\ _validateTaskDescription (VStr "Too short")
     = Throw (McpError (Some "task_description")
                [Text "Invalid parameter 'task_description': a descriptive string with at least 10 characters. Received: ";
                 Json (VStr "Too short")])
  /\ initialize_success
       (snd (initialize (VStr "Too short") VUndefined VUndefined fresh_graph)) = false
  /\ _validateTaskDescription (VStr "Ten chars!") = Ok "Ten chars!"
  /\ initialize_success
       (snd (initialize (VStr "Ten chars!") VUndefined VUndefined fresh_graph)) = true.
Proof.
  split; [exact validateTaskDescription_ok|].
  split; [exact validateTaskDescription_throw|].
  split; [|repeat split].
  intros v c cfg g Hs Hc Hcfg.
  destruct (_validateConfidenceArray _ _) as [conf|] eqn:Ec; [|discriminate].
  destruct (_validateConfig _) as [sc|] eqn:Ecfg; [|discriminate].
  destruct (_validateTaskDescription v) as [d|e] eqn:Ev.
  - destruct (initialize_body_ok v c cfg g d conf sc Hs Ev Ec Ecfg)
      as (g' & r & Hbody & Hr & Hvs & _).
    unfold initialize. rewrite Hbody. cbn [fst snd].
    apply validateTaskDescription_ok in Ev as (s & -> & -> & Hlen).
    split.
    + split; [intros _; now exists s|intros _; exact Hr].
    + intros _. exists s, (root_node (Str.trim s) conf sc).
      rewrite Hvs. repeat split.
  - assert (Hfail : initialize_success (snd (initialize v c cfg g)) = false).
    { unfold initialize, initialize_body. unfold bindM at 1.
      rewrite (require_stage_ok _ _ _ _ Hs). unfold bindM at 1.
      destruct (clear_for_reinitialization_ok g) as (g1 & -> & _).
      unfold bindM, lift. rewrite Ev. reflexivity. }
    rewrite Hfail. split.
    + split; [discriminate|].
      intros (s & -> & Hlen).
      assert (H : _validateTaskDescription (VStr s) = Ok (Str.trim s))
        by (apply validateTaskDescription_ok; now exists s).
      congruence.
    + discriminate.
Qed.

(** C9, witness: the description of the scenario, on a fresh graph. *)
Lemma task_description_rule_witness :
  initialize_success
    (snd (initialize (VStr "Investigate the role of skin microbiome in disease")
            VUndefined VUndefined fresh_graph)) = true
  <-> acceptable_description
        (VStr "Investigate the role of skin microbiome in disease").
Proof.
  apply (proj1 (proj2 (proj2 task_description_rule))
           (VStr "Investigate the role of skin microbiome in disease")
           VUndefined VUndefined fresh_graph);
    reflexivity.
Defined.

(** ** C10: the summary of an empty graph *)

(** C10.  On a graph with no vertex, [average_impact] is the unguarded
    quotient [0 / 0], which is [NaN] and no number in [0, 1], while the
    confidence statistics take their guarded branch and are all [0]. *)
Theorem empty_summary (g : graph) :
  vertices g = [] ->
  let s := getGraphSummary g in
  Summary.average_impact (Summary.impact s) = 0 / 0
  /\ Num.isNaN (Summary.average_impact (Summary.impact s)) = true
  /\ (0 <=? Summary.average_impact (Summary.impact s)) = false
  /\ (Summary.average_impact (Summary.impact s) <=? 1) = false
  /\ Summary.confidence s
     = {| Summary.mean := 0; Summary.std := 0; Summary.min := 0; Summary.max := 0 |}.
Proof.
  intros Hv. cbv zeta.
  unfold getGraphSummary, _getImpactDistribution, _getConfidenceStatistics.
  cbn [Summary.impact Summary.confidence Summary.average_impact].
  rewrite Hv. repeat split.
Qed.

(** C10, witness: the summary of a freshly constructed graph. *)
Lemma empty_summary_witness :
  Num.isNaN (Summary.average_impact (Summary.impact (getGraphSummary fresh_graph))) = true
  /\ Summary.confidence (getGraphSummary fresh_graph)
     = {| Summary.mean := 0; Summary.std := 0; Summary.min := 0; Summary.max := 0 |}.
Proof.
  pose proof (empty_summary fresh_graph eq_refl) as H. cbv zeta in H.
  split; [exact (proj1 (proj2 H))|exact (proj2 (proj2 (proj2 (proj2 H))))].
Defined.

(** ** C1, C2, C3: calls at the wrong stage *)

Lemma decomposeTask_wrong_stage (dims : value) (g : graph) :
  currentStage g <> 1%nat ->
  decomposeTask dims g
  = (g, Throw (wrong_stage "Cannot decompose." (currentStage g) "1")).
Proof.
  intros Hs. unfold decomposeTask. unfold bindM at 1.
  now rewrite (require_stage_wrong _ _ _ _ Hs).
Qed.

Lemma generateHypotheses_wrong_stage (d hs cfg : value) (g : graph) :
  currentStage g <> 2%nat ->
  generateHypotheses d hs cfg g
  = (g, HypothesesFailed
          (message_of (wrong_stage "Cannot generate hypotheses." (currentStage g) "2"))
          "Hypothesis generation failed" (currentStage g)
          (option_default "unknown" (stage_name (currentStage g))) false).
Proof.
  intros Hs. unfold generateHypotheses, generateHypotheses_body.
  unfold bindM at 1. now rewrite (require_stage_wrong _ _ _ _ Hs).
Qed.

Lemma initialize_wrong_stage (t c cfg : value) (g : graph) :
  currentStage g <> 0%nat ->
  initialize t c cfg g
  = (_resetToInitialState g,
     InitializeFailed
       (message_of (wrong_stage "Cannot initialize." (currentStage g)
                      "0 (before initialization)"))
       "Initialization failed, graph reset to initial state" 0 true).
Proof.
  intros Hs. apply initialize_body_throw.
  now apply initialize_body_wrong_stage.
Qed.

(** C1, where the code departs from it.  Called at a cursor other than
    the expected one, every stage operation fails with a message that
    names the current and the expected stage, and [decomposeTask] (by an
    exception) and [generateHypotheses] (by a failure result) leave the
    graph exactly as it was, as the claim says.  [initialize] does not:
    its stage guard sits inside the [try], so the [catch] runs its
    recovery, which empties the vertex map, the edge map and the layer
    memberships and sets the cursor to 0; the graph after the call is
    never the graph before it. *)
Theorem wrong_stage_behaviour (g : graph) :
  (forall dims,
      currentStage g <> 1%nat ->
      decomposeTask dims g
      = (g, Throw (Error [Text ("Cannot decompose. Current stage: "
                                  ++ Str.of_nat (currentStage g)
                                  ++ ", expected: 1")%string])))
  /\ (forall d hs cfg,
        currentStage g <> 2%nat ->
        fst (generateHypotheses d hs cfg g) = g
        /\ exists stage_name,
            snd (generateHypotheses d hs cfg g)
            = HypothesesFailed
                [Text ("Cannot generate hypotheses. Current stage: "
                         ++ Str.of_nat (currentStage g)
                         ++ ", expected: 2")%string]
                "Hypothesis generation failed" (currentStage g) stage_name false)
  /\ (forall t c cfg,
        currentStage g <> 0%nat ->
        snd (initialize t c cfg g)
        = InitializeFailed
            [Text ("Cannot initialize. Current stage: "
                     ++ Str.of_nat (currentStage g)
                     ++ ", expected: 0 (before initialization)")%string]
            "Initialization failed, graph reset to initial state" 0 true
        /\ fst (initialize t c cfg g) = _resetToInitialState g
        /\ vertices (fst (initialize t c cfg g)) = []
        /\ edges (fst (initialize t c cfg g)) = []
        /\ layers_empty (fst (initialize t c cfg g))
        /\ currentStage (fst (initialize t c cfg g)) = 0%nat
        /\ fst (initialize t c cfg g) <> g).
Proof.
  repeat split.
  - intros dims Hs. now rewrite decomposeTask_wrong_stage.
  - now rewrite generateHypotheses_wrong_stage.
  - rewrite generateHypotheses_wrong_stage by assumption. eexists. reflexivity.
  - now rewrite initialize_wrong_stage.
  - now rewrite initialize_wrong_stage.
  - rewrite initialize_wrong_stage by assumption. apply reset_empty.
  - rewrite initialize_wrong_stage by assumption. apply reset_empty.
  - rewrite initialize_wrong_stage by assumption. apply reset_empty.
  - rewrite initialize_wrong_stage by assumption. apply reset_empty.
  - rewrite initialize_wrong_stage by assumption. cbn [fst]. intros Heq.
    destruct (reset_empty g) as (_ & _ & _ & _ & Hs & _).
    rewrite Heq in Hs. contradiction.
Qed.

(** C1, witness: the three operations on graphs of the scenario. *)
Lemma wrong_stage_behaviour_witness :
  decomposeTask VUndefined fresh_graph
  = (fresh_graph,
     Throw (Error [Text "Cannot decompose. Current stage: 0, expected: 1"]))
  /\ fst (generateHypotheses (VStr "2.1") (VArr []) VUndefined initialized_graph)
     = initialized_graph
  /\ vertices (fst (initialize VNull VUndefined VUndefined decomposed_graph)) = [].
Proof.
  split; [|split].
  - apply (proj1 (wrong_stage_behaviour fresh_graph) VUndefined). discriminate.
  - apply (proj1 (proj2 (wrong_stage_behaviour initialized_graph))
             (VStr "2.1") (VArr []) VUndefined).
    discriminate.
  - apply (proj2 (proj2 (wrong_stage_behaviour decomposed_graph))
             VNull VUndefined VUndefined).
    discriminate.
Defined.

(** C1 at a failing input: [initialize] with valid arguments on the
    initialized instance of the scenario (cursor 1) changes the vertex
    map, the layer memberships and the cursor, where the claim has them
    exactly as before. *)
Lemma initialize_wrong_stage_mutates :
  let g := initialized_graph in
  let g' := fst (initialize (VStr "A second research task, long enough")
                   VUndefined VUndefined g) in
  (currentStage g = 1 /\ JsMap.keys (vertices g) = ["n0"]
   /\ map (fun kl => Layer.nodes (snd kl)) (layers g) = [["n0"]; []; []; []; []])%nat
  /\ (currentStage g' = 0 /\ JsMap.keys (vertices g') = []
      /\ map (fun kl => Layer.nodes (snd kl)) (layers g') = [[]; []; []; []; []])%nat.
Proof. cbv zeta. repeat split. Qed.

Lemma initialize_success_inv (t c cfg : value) (g : graph) :
  initialize_success (snd (initialize t c cfg g)) = true ->
  exists d conf sc,
    currentStage g = 0%nat
    /\ _validateTaskDescription t = Ok d
    /\ vertices (fst (initialize t c cfg g)) = [("n0", root_node d conf sc)]
    /\ currentStage (fst (initialize t c cfg g)) = 1%nat
    /\ JsMap.has "base" (layers (fst (initialize t c cfg g))) = true.
Proof.
  destruct (Nat.eq_dec (currentStage g) 0) as [Hs|Hs].
  2:{ rewrite (initialize_wrong_stage _ _ _ _ Hs). discriminate. }
  destruct (_validateTaskDescription t) as [d|e1] eqn:Ev;
    [destruct (_validateConfidenceArray (confidence_or_default c) "initial_confidence")
       as [conf|e2] eqn:Ec;
     [destruct (_validateConfig (config_or_default cfg)) as [sc|e3] eqn:Ecfg|]|].
  - destruct (initialize_body_ok t c cfg g d conf sc Hs Ev Ec Ecfg)
      as (g' & r & Hbody & Hr & Hvs & Hst & Hb).
    unfold initialize. rewrite Hbody. cbn [fst snd]. intros _.
    now exists d, conf, sc.
  - unfold initialize, initialize_body. unfold bindM at 1.
    rewrite (require_stage_ok _ _ _ _ Hs). unfold bindM at 1.
    destruct (clear_for_reinitialization_ok g) as (g1 & -> & _).
    unfold bindM, lift. rewrite Ev, Ec, Ecfg. discriminate.
  - unfold initialize, initialize_body. unfold bindM at 1.
    rewrite (require_stage_ok _ _ _ _ Hs). unfold bindM at 1.
    destruct (clear_for_reinitialization_ok g) as (g1 & -> & _).
    unfold bindM, lift. rewrite Ev, Ec. discriminate.
  - unfold initialize, initialize_body. unfold bindM at 1.
    rewrite (require_stage_ok _ _ _ _ Hs). unfold bindM at 1.
    destruct (clear_for_reinitialization_ok g) as (g1 & -> & _).
    unfold bindM, lift. rewrite Ev. discriminate.
Qed.




(** C3 at its failing input: [decomposeTask] has no [try] of its own, so
    its stage guard throws past the method; [exportGraph] likewise throws
    on a format it does not know. *)
Theorem decomposeTask_throws :
  decomposeTask VUndefined fresh_graph
  = (fresh_graph,
     Throw (Error [Text "Cannot decompose. Current stage: 0, expected: 1"]))
  /\ exportGraph (VStr "xml") fresh_graph
     = Throw (Error [Text "Unsupported export format: xml"]).
Proof. split; reflexivity. Qed.

(** ** How the vertex map grows *)

Section Sets.

Variable p : string -> Node.t -> Prop.

Lemma sets_trans (a b : nat) (m1 m2 m3 : JsMap.t Node.t) :
  sets p a m1 m2 -> sets p b m2 m3 -> sets p (b + a) m1 m3.
Proof.
  intros H12 H23. induction H23; cbn; [assumption|].
  apply sets_step; auto.
Qed.

Lemma sets_In (n : nat) (m m' : JsMap.t Node.t) (k : string) (v : Node.t) :
  sets p n m m' -> In (k, v) m' -> In (k, v) m \/ p k v.
Proof.
  induction 1 as [|n m m' k0 v0 _ IH Hp]; [auto|].
  intros Hin. apply In_set in Hin as [[= -> ->]|Hin]; auto.
Qed.

Lemma sets_NoDup (n : nat) (m m' : JsMap.t Node.t) :
  sets p n m m' -> NoDup (JsMap.keys m) -> NoDup (JsMap.keys m').
Proof.
  induction 1; [auto|]. intros Hnd. now apply NoDup_keys_set, IHsets.
Qed.

Lemma sets_count (q : Node.t -> bool) (n : nat) (m m' : JsMap.t Node.t) :
  sets p n m m' ->
  (List.length (filter q (JsMap.values m'))
   <= List.length (filter q (JsMap.values m)) + n)%nat.
Proof.
  induction 1 as [|n m m' k v _ IH _]; [lia|].
  pose proof (count_set_le q m' k v). destruct (q v); lia.
Qed.

Lemma sets_has (n : nat) (m m' : JsMap.t Node.t) (k : string) :
  sets p n m m' -> (forall v, ~ p k v) ->
  JsMap.has k m' = JsMap.has k m.
Proof.
  intros H Hk. induction H as [|n m m' k0 v0 _ IH Hp]; [reflexivity|].
  rewrite has_set, IH. destruct (String.eqb_spec k k0); [|reflexivity].
  subst. now destruct (Hk v0).
Qed.

End Sets.

Lemma sets_weaken (p q : string -> Node.t -> Prop) (n : nat)
    (m m' : JsMap.t Node.t) :
  (forall k v, p k v -> q k v) -> sets p n m m' -> sets q n m m'.
Proof. intros Hpq. induction 1; constructor; auto. Qed.

Lemma layer_nodes_add_vertices (layerId nodeId : string) (g : graph) :
  vertices (fst (layer_nodes_add layerId nodeId g)) = vertices g
  /\ currentStage (fst (layer_nodes_add layerId nodeId g)) = currentStage g.
Proof.
  unfold layer_nodes_add. destruct (JsMap.get layerId (layers g)); auto.
Qed.

Lemma ToString_printable (v : value) :
  Js.printable v = true -> Js.ToString v = Ok (Js.to_string v).
Proof. intros H. unfold Js.ToString. now rewrite H. Qed.

Lemma ToString_not_printable (v : value) :
  Js.printable v = false ->
  Js.ToString v = Throw (TypeError "Cannot convert object to primitive value").
Proof. intros H. unfold Js.ToString. now rewrite H. Qed.

(** One turn of the loop of [decomposeTask]: a dimension that has no
    string makes it throw before anything is written; otherwise the
    writes follow, with the node of that dimension. *)
Lemma decompose_one_cases (dimension : value) (index : nat) (g : graph) :
  let nodeId := ("2." ++ Str.of_nat (index + 1))%string in
  decompose_one dimension index g
  = if Js.printable dimension then
      (vertices_set nodeId (stored_dimension_node nodeId dimension) ;;
       nodeTypes_add "dimension" ;;
       layer_nodes_add "base" nodeId ;;
       edges_set ("e_n0_" ++ nodeId)%string (decomposition_edge nodeId) ;;
       ret nodeId) g
    else (g, Throw (TypeError "Cannot convert object to primitive value")).
Proof.
  cbv zeta. unfold decompose_one, _inferDisciplinaryTags.
  unfold bindM at 1, lift at 1.
  destruct (Js.printable dimension) eqn:Hp.
  - rewrite (ToString_printable _ Hp). cbn [bind].
    unfold bindM at 1, lift at 1. reflexivity.
  - now rewrite (ToString_not_printable _ Hp).
Qed.

Lemma decompose_one_vertices (dimension : value) (index : nat) (g : graph) :
  let nodeId := ("2." ++ Str.of_nat (index + 1))%string in
  vertices (fst (decompose_one dimension index g))
  = (if Js.printable dimension
     then JsMap.set nodeId (stored_dimension_node nodeId dimension) (vertices g)
     else vertices g)
  /\ currentStage (fst (decompose_one dimension index g)) = currentStage g.
Proof.
  cbv zeta. rewrite decompose_one_cases.
  destruct (Js.printable dimension); [|auto]. run_M.
  unfold layer_nodes_add. cbn [layers set_nodeTypes set_vertices].
  destruct (JsMap.get "base" (layers g)); cbn; auto.
Qed.

Lemma decompose_each_cons (d : value) (rest : list value) (index : nat) (g : graph) :
  decompose_each (d :: rest) index g
  = match decompose_one d index g with
    | (g1, Ok nodeId) =>
        match decompose_each rest (S index) g1 with
        | (g2, Ok nodeIds) => (g2, Ok (nodeId :: nodeIds))
        | (g2, Throw e) => (g2, Throw e)
        end
    | (g1, Throw e) => (g1, Throw e)
    end.
Proof.
  cbn [decompose_each]. unfold bindM, ret.
  destruct (decompose_one d index g) as [g1 [id|e]]; [|reflexivity].
  destruct (decompose_each rest (S index) g1) as [g2 [ids|e]]; reflexivity.
Qed.

Lemma decompose_each_sets (dimensions : list value) :
  forall (index : nat) (g : graph),
  exists n,
    (n <= List.length dimensions)%nat
    /\ sets is_dimension_entry n (vertices g)
         (vertices (fst (decompose_each dimensions index g)))
    /\ currentStage (fst (decompose_each dimensions index g)) = currentStage g.
Proof.
  induction dimensions as [|d rest IH]; intros index g.
  - exists 0%nat. cbn. repeat split; [lia|constructor].
  - rewrite decompose_each_cons.
    destruct (decompose_one_vertices d index g) as [Hv Hs]. cbv zeta in Hv.
    assert (H1 : exists n1, (n1 <= 1)%nat
                   /\ sets is_dimension_entry n1 (vertices g)
                        (vertices (fst (decompose_one d index g)))).
    { rewrite Hv. destruct (Js.printable d).
      - exists 1%nat. split; [lia|]. apply sets_step; [constructor|].
        now exists index, d, (tags_at (Js.to_string d)), (Js.to_string d).
      - exists 0%nat. split; [lia|constructor]. }
    destruct H1 as (n1 & Hn1 & H1).
    destruct (decompose_one d index g) as [g1 [id|e]]; cbn [fst] in *.
    + destruct (IH (S index) g1) as (n & Hn & Hsets & Hst).
      destruct (decompose_each rest (S index) g1) as [g2 [ids|e]]; cbn [fst] in *;
        exists (n + n1)%nat; cbn [List.length];
        (repeat split; [lia| |congruence]);
        exact (sets_trans _ _ _ _ _ _ H1 Hsets).
    + exists n1. cbn [List.length]. repeat split; [lia|exact H1|exact Hs].
Qed.

(** What [decomposeTask] does once its stage guard has passed. *)
Lemma decomposeTask_at_stage (dims : value) (g : graph) :
  currentStage g = 1%nat ->
  decomposeTask dims g
  = match taskDimensions_of dims with
    | Throw e => (g, Throw e)
    | Ok taskDimensions =>
        match decompose_each taskDimensions 0 g with
        | (g1, Throw e) => (g1, Throw e)
        | (g1, Ok dimensionNodes) =>
            (set_stage 2 "decomposition" g1,
             Ok {| dr_success := true;
                   dr_dimension_nodes := dimensionNodes;
                   dr_message :=
                     "Task decomposed into "
                       ++ Str.of_nat (List.length taskDimensions)
                       ++ " dimensions following P1.2 specification exactly";
                   dr_current_stage := 2;
                   dr_stage_name := Some "decomposition";
                   dr_dimensions := taskDimensions |})
        end
    end.
Proof.
  intros Hs. unfold decomposeTask. unfold bindM at 1.
  rewrite (require_stage_ok _ _ _ _ Hs). unfold bindM at 1, lift at 1.
  destruct (taskDimensions_of dims) as [taskDimensions|e]; [|reflexivity].
  unfold bindM at 1.
  destruct (decompose_each taskDimensions 0 g) as [g1 [ids|e]]; reflexivity.
Qed.

Lemma decomposeTask_sets (dims : value) (g : graph) :
  exists n, sets is_dimension_entry n (vertices g) (vertices (fst (decomposeTask dims g))).
Proof.
  destruct (Nat.eq_dec (currentStage g) 1) as [Hs|Hs].
  2:{ rewrite (decomposeTask_wrong_stage _ _ Hs). exists 0%nat. constructor. }
  rewrite (decomposeTask_at_stage _ _ Hs).
  destruct (taskDimensions_of dims) as [taskDimensions|e];
    [|exists 0%nat; constructor].
  destruct (decompose_each_sets taskDimensions 0 g) as (n & _ & Hsets & _).
  destruct (decompose_each _ _ g) as [g1 [ids|e]]; cbn [fst] in *;
    exists n; exact Hsets.
Qed.

Lemma hypothesis_one_cases (d number : string) (h : value) (index : nat) (g : graph) :
  let nodeId := ("3." ++ number ++ "." ++ Str.of_nat (index + 1))%string in
  currentStage (fst (hypothesis_one d number h index g)) = currentStage g
  /\ match _validateHypothesis h index with
     | Ok vh =>
         vertices (fst (hypothesis_one d number h index g))
         = JsMap.set nodeId (hypothesis_node nodeId number index vh) (vertices g)
     | Throw e => hypothesis_one d number h index g = (g, Throw e)
     end.
Proof.
  cbv zeta. unfold hypothesis_one. run_M.
  destruct (_validateHypothesis h index) as [vh|e]; [|auto].
  cbn [layers set_nodeTypes set_vertices].
  destruct (JsMap.has "theoretical" (layers g)); unfold layer_nodes_add;
    cbn [layers set_nodeTypes set_vertices];
    match goal with |- context [JsMap.get ?k (layers g)] =>
      destruct (JsMap.get k (layers g)) end; cbn; auto.
Qed.

Lemma hypothesis_each_sets (d number : string) (hypotheses : list value) :
  forall (index : nat) (g : graph),
  exists n,
    (n <= List.length hypotheses)%nat
    /\ sets is_hypothesis_entry n (vertices g)
         (vertices (fst (hypothesis_each d number hypotheses index g)))
    /\ currentStage (fst (hypothesis_each d number hypotheses index g))
       = currentStage g.
Proof.
  induction hypotheses as [|h rest IH]; intros index g.
  - exists 0%nat. cbn. repeat split; [lia|constructor].
  - cbn [hypothesis_each].
    destruct (hypothesis_one_cases d number h index g) as [Hs Hc]. cbv zeta in Hc.
    assert (H1 : exists n1, (n1 <= 1)%nat
                   /\ sets is_hypothesis_entry n1 (vertices g)
                        (vertices (fst (hypothesis_one d number h index g)))).
    { destruct (_validateHypothesis h index) as [vh|e].
      - exists 1%nat. split; [lia|]. rewrite Hc.
        apply sets_step; [constructor|]. now exists number, index, vh.
      - exists 0%nat. split; [lia|]. rewrite Hc. constructor. }
    destruct H1 as (n1 & Hn1 & H1).
    destruct (hypothesis_one d number h index g) as [g1 r1]; cbn [fst] in *.
    destruct (IH (S index) g1) as (n & Hn & Hsets & Hst).
    exists (n + n1)%nat.
    destruct r1;
      destruct (hypothesis_each d number rest (S index) g1) as [g2 [nodes errors]];
      cbn [fst List.length] in *;
      (repeat split; [lia| |congruence]);
      exact (sets_trans _ _ _ _ _ _ H1 Hsets).
Qed.

(** ** The layers stay in place *)

Lemma layer_nodes_add_has (layerId nodeId k : string) (g : graph) :
  JsMap.has k (layers (fst (layer_nodes_add layerId nodeId g)))
  = JsMap.has k (layers g).
Proof.
  unfold layer_nodes_add.
  destruct (JsMap.get layerId (layers g)) as [layer|] eqn:Hget; [|reflexivity].
  cbn. rewrite has_set. destruct (String.eqb_spec k layerId); [|reflexivity].
  subst. unfold JsMap.has. now rewrite Hget.
Qed.

Lemma decompose_one_has (dimension : value) (k : string) (index : nat) (g : graph) :
  JsMap.has k (layers (fst (decompose_one dimension index g)))
  = JsMap.has k (layers g).
Proof.
  rewrite decompose_one_cases.
  destruct (Js.printable dimension); [|reflexivity]. run_M.
  set (g1 := set_nodeTypes _ _).
  pose proof (layer_nodes_add_has "base" ("2." ++ Str.of_nat (index + 1)) k g1) as H.
  destruct (layer_nodes_add "base" _ g1) as [g2 [[]|e]]; cbn [fst] in *; exact H.
Qed.

Lemma decompose_each_has (k : string) (dimensions : list value) :
  forall (index : nat) (g : graph),
  JsMap.has k (layers (fst (decompose_each dimensions index g)))
  = JsMap.has k (layers g).
Proof.
  induction dimensions as [|d rest IH]; intros index g; [reflexivity|].
  rewrite decompose_each_cons.
  pose proof (decompose_one_has d k index g) as H1.
  destruct (decompose_one d index g) as [g1 [id|e]]; cbn [fst] in *; [|exact H1].
  specialize (IH (S index) g1).
  destruct (decompose_each rest (S index) g1) as [g2 [ids|e]]; cbn [fst] in *;
    congruence.
Qed.

Lemma hypothesis_one_has (d number k : string) (h : value) (index : nat) (g : graph) :
  JsMap.has k (layers (fst (hypothesis_one d number h index g)))
  = JsMap.has k (layers g).
Proof.
  unfold hypothesis_one. run_M.
  destruct (_validateHypothesis h index) as [vh|e]; [|reflexivity].
  set (g1 := set_nodeTypes _ _).
  set (nodeId := ("3." ++ number ++ "." ++ Str.of_nat (index + 1))%string).
  assert (H : forall l, JsMap.has k (layers (fst (layer_nodes_add l nodeId g1)))
                        = JsMap.has k (layers g))
    by (intros l; now rewrite layer_nodes_add_has).
  destruct (JsMap.has "theoretical" (layers g1)).
  - specialize (H "theoretical").
    destruct (layer_nodes_add "theoretical" nodeId g1) as [g2 [[]|e]];
      cbn [fst] in *; exact H.
  - specialize (H "base").
    destruct (layer_nodes_add "base" nodeId g1) as [g2 [[]|e]];
      cbn [fst] in *; exact H.
Qed.

Lemma hypothesis_each_has (d number k : string) (hypotheses : list value) :
  forall (index : nat) (g : graph),
  JsMap.has k (layers (fst (hypothesis_each d number hypotheses index g)))
  = JsMap.has k (layers g).
Proof.
  induction hypotheses as [|h rest IH]; intros index g; [reflexivity|].
  cbn [hypothesis_each].
  pose proof (hypothesis_one_has d number k h index g) as H1.
  destruct (hypothesis_one d number h index g) as [g1 r1]; cbn [fst] in *.
  specialize (IH (S index) g1).
  destruct r1;
    destruct (hypothesis_each d number rest (S index) g1) as [g2 [nodes errors]];
    cbn [fst] in *; congruence.
Qed.

(** ** What [generateHypotheses] does, in two parts *)

Lemma generateHypotheses_body_eq (d hs cfg : value) (g : graph) :
  generateHypotheses_body d hs cfg g
  = match hypotheses_checks d hs g with
    | Ok checked => hypotheses_commit cfg checked g
    | Throw e => (g, Throw e)
    end.
Proof.
  unfold generateHypotheses_body, hypotheses_checks, require_stage. run_M.
  destruct (negb (currentStage g =? 2)%nat); [reflexivity|]. cbn [bind].
  destruct (_validateDimensionNodeId d (Some (vertices g))) as [id|e];
    [|reflexivity]. cbn [bind].
  destruct (JsMap.get id (vertices g)) as [node|]; [|reflexivity]. cbn [bind].
  destruct (negb (String.eqb (Node.type node) "dimension")); [reflexivity|].
  cbn [bind].
  destruct (_validateHypothesesArray hs) as [items|e]; [|reflexivity]. cbn [bind].
  destruct (Str.split_dot id) as [|x [|number rest]]; try reflexivity.
  cbn [bind]. unfold hypotheses_commit.
  destruct (hypothesis_each id number _ 0 g) as [g' [nodes errors]].
  destruct (List.length nodes =? 0)%nat; reflexivity.
Qed.

(** ** C6: the collection rule and the limit *)

Lemma validateHypothesesArray_ok (hs : value) (items : list value) :
  _validateHypothesesArray hs = Ok items ->
  hs = VArr items /\ valid_collection hs = true.
Proof.
  unfold _validateHypothesesArray, valid_collection.
  destruct hs; try discriminate.
  destruct (Nat.ltb_spec (List.length items0) 3); [discriminate|].
  destruct (Nat.ltb_spec 5 (List.length items0)); [discriminate|].
  intros [= <-]. split; [reflexivity|].
  apply andb_true_intro. split; [apply Nat.leb_le|apply Nat.leb_le]; lia.
Qed.

Lemma validateHypothesesArray_valid (items : list value) :
  valid_collection (VArr items) = true ->
  _validateHypothesesArray (VArr items) = Ok items.
Proof.
  unfold _validateHypothesesArray, valid_collection.
  intros H. apply andb_prop in H as [H1 H2].
  apply Nat.leb_le in H1, H2.
  destruct (Nat.ltb_spec (List.length items) 3); [lia|].
  destruct (Nat.ltb_spec 5 (List.length items)); [lia|reflexivity].
Qed.

Lemma checks_invalid_collection (d hs : value) (g : graph) :
  valid_collection hs = false -> is_ok (hypotheses_checks d hs g) = false.
Proof.
  intros Hinv. unfold hypotheses_checks.
  destruct (negb (currentStage g =? 2)%nat); [reflexivity|]. cbn [bind].
  destruct (_validateDimensionNodeId d _) as [id|e]; [|reflexivity]. cbn [bind].
  destruct (JsMap.get id (vertices g)) as [node|]; [|reflexivity]. cbn [bind].
  destruct (negb (String.eqb (Node.type node) "dimension")); [reflexivity|].
  cbn [bind].
  destruct (_validateHypothesesArray hs) as [items|e] eqn:Hv; [|reflexivity].
  apply validateHypothesesArray_ok in Hv as [_ Hv]. congruence.
Qed.

Lemma generateHypotheses_checks_fail (d hs cfg : value) (g : graph) :
  is_ok (hypotheses_checks d hs g) = false ->
  fst (generateHypotheses d hs cfg g) = g
  /\ hypotheses_success (snd (generateHypotheses d hs cfg g)) = false.
Proof.
  unfold generateHypotheses. rewrite generateHypotheses_body_eq.
  destruct (hypotheses_checks d hs g); [discriminate|]. auto.
Qed.

Lemma hypothesis_each_lengths (d number : string) (hypotheses : list value) :
  forall (index : nat) (g : graph),
  let '(_, (nodes, errors)) := hypothesis_each d number hypotheses index g in
  (List.length nodes + List.length errors = List.length hypotheses)%nat.
Proof.
  induction hypotheses as [|h rest IH]; intros index g; [reflexivity|].
  cbn [hypothesis_each].
  destruct (hypothesis_one d number h index g) as [g1 r1].
  specialize (IH (S index) g1).
  destruct r1;
    destruct (hypothesis_each d number rest (S index) g1) as [g2 [nodes errors]];
    cbn [List.length]; lia.
Qed.

Lemma limit_le_5 (cfg : value) : (limit_of cfg <= 5)%nat.
Proof. unfold limit_of, maxHypotheses_of. apply Nat.le_min_r. Qed.

(** What a call leaves behind, whatever its arguments. *)
Lemma generateHypotheses_growth (d hs cfg : value) (g : graph) :
  exists n,
    (n <= limit_of cfg)%nat
    /\ (List.length (hypothesis_nodes_of (snd (generateHypotheses d hs cfg g)))
        <= limit_of cfg)%nat
    /\ sets is_hypothesis_entry n (vertices g)
         (vertices (fst (generateHypotheses d hs cfg g))).
Proof.
  unfold generateHypotheses. rewrite generateHypotheses_body_eq.
  destruct (hypotheses_checks d hs g) as [[[id number] items]|e].
  2:{ exists 0%nat. cbn. repeat split; [lia|lia|constructor]. }
  unfold hypotheses_commit. fold (limit_of cfg).
  destruct (hypothesis_each_sets id number (firstn (limit_of cfg) items) 0 g)
    as (n & Hn & Hsets & _).
  pose proof (hypothesis_each_lengths id number (firstn (limit_of cfg) items) 0 g) as Hl.
  pose proof (firstn_le_length (limit_of cfg) items) as Hf.
  destruct (hypothesis_each id number (firstn (limit_of cfg) items) 0 g)
    as [g' [nodes errors]]; cbn [fst] in *.
  exists n.
  destruct (List.length nodes =? 0)%nat; cbn [fst snd hypothesis_nodes_of List.length];
    repeat split; try lia; exact Hsets.
Qed.

(** C6 (amended).  [generateHypotheses] rejects a [hypotheses] argument
    that is not an array of 3 to 5 items, whatever the items are: it
    returns a failure and leaves the graph as it was.  Every call creates
    at most 5 hypothesis nodes; when [config.max_hypotheses] is an integer
    [k] from 1 to 5 it creates at most [k]; a [max_hypotheses] that is
    absent, not above 0 or above 5 gives the limit 5. *)
Theorem hypotheses_collection_rule (g : graph) (d hs cfg : value) :
  (valid_collection hs = false ->
   fst (generateHypotheses d hs cfg g) = g
   /\ hypotheses_success (snd (generateHypotheses d hs cfg g)) = false)
  /\ (limit_of cfg <= 5
      /\ List.length (hypothesis_nodes_of (snd (generateHypotheses d hs cfg g)))
         <= limit_of cfg
      /\ count_type "hypothesis" (fst (generateHypotheses d hs cfg g))
         <= count_type "hypothesis" g + limit_of cfg)%nat
  /\ (forall fields k,
        cfg = VObj fields ->
        Js.own "max_hypotheses" fields = Some (VNum (Num.of_nat k)) ->
        (1 <= k <= 5)%nat ->
        limit_of cfg = k)
  /\ (forall fields,
        cfg = VUndefined \/ cfg = VObj fields ->
        Js.own "max_hypotheses" fields = None ->
        limit_of cfg = 5%nat)
  /\ (forall fields m,
        cfg = VObj fields ->
        Js.own "max_hypotheses" fields = Some (VNum m) ->
        (0 <? m) = false \/ (m <=? 5) = false ->
        limit_of cfg = 5%nat).
Proof.
  split; [|split; [|split; [|split]]].
  - intros Hinv. apply generateHypotheses_checks_fail.
    now apply checks_invalid_collection.
  - destruct (generateHypotheses_growth d hs cfg g) as (n & Hn & Hlen & Hsets).
    split; [apply limit_le_5|]. split; [exact Hlen|].
    pose proof (sets_count _ (fun v => String.eqb (Node.type v) "hypothesis")
                  _ _ _ Hsets) as Hc.
    unfold count_type. lia.
  - intros fields k -> Hown Hk.
    unfold limit_of, _validateHypothesisConfig, config_or_default, Js.prop.
    rewrite Hown.
    assert (Hcases : (k = 1 \/ k = 2 \/ k = 3 \/ k = 4 \/ k = 5)%nat) by lia.
    destruct Hcases as [-> | [-> | [-> | [-> | ->]]]]; reflexivity.
  - intros fields [-> | ->] Hown; [reflexivity|].
    unfold limit_of, _validateHypothesisConfig, config_or_default, Js.prop.
    now rewrite Hown.
  - intros fields m -> Hown Hm.
    unfold limit_of, _validateHypothesisConfig, config_or_default, Js.prop.
    rewrite Hown. cbn [Js.Number Js.printable Js.ToNumber_printable].
    destruct Hm as [-> | ->];
      destruct (negb (Num.isNaN m)); cbn; try reflexivity.
    destruct (0 <? m); reflexivity.
Qed.

(** C6, witness: two items are rejected although both are valid, and
    [max_hypotheses: 3] limits five valid items to three nodes. *)
Lemma hypotheses_collection_rule_witness :
  (fst (generateHypotheses (VStr "2.1") (VArr [VStr "H1 text"; VStr "H2 text"])
          VUndefined decomposed_graph) = decomposed_graph
   /\ hypotheses_success
        (snd (generateHypotheses (VStr "2.1") (VArr [VStr "H1 text"; VStr "H2 text"])
                VUndefined decomposed_graph)) = false)
  /\ limit_of (VObj [("max_hypotheses", VNum 3)]) = 3%nat.
Proof.
  split.
  - apply (proj1 (hypotheses_collection_rule decomposed_graph (VStr "2.1")
                    (VArr [VStr "H1 text"; VStr "H2 text"]) VUndefined)).
    reflexivity.
  - apply (proj1 (proj2 (proj2
             (hypotheses_collection_rule decomposed_graph (VStr "2.1") VNull
                (VObj [("max_hypotheses", VNum 3)]))))
             [("max_hypotheses", VNum 3)] 3%nat eq_refl eq_refl).
    lia.
Defined.

(** C6, as stated, fails: with [max_hypotheses: 0] the call creates five
    hypothesis nodes, more than [min(0, 5) = 0]. *)
Lemma max_hypotheses_zero_creates_five :
  let hs := VArr [VStr "H1 text"; VStr "H2 text"; VStr "H3 text";
                  VStr "H4 text"; VStr "H5 text"] in
  let run := generateHypotheses (VStr "2.1") hs
               (VObj [("max_hypotheses", VNum 0)]) decomposed_graph in
  hypothesis_nodes_of (snd run) = ["3.1.1"; "3.1.2"; "3.1.3"; "3.1.4"; "3.1.5"]
  /\ count_type "hypothesis" decomposed_graph = 0%nat
  /\ count_type "hypothesis" (fst run) = 5%nat
  /\ Math_min2 0 5 = 0
  /\ (Num.of_nat 5 <=? Math_min2 0 5) = false.
Proof. cbv zeta. repeat split. Qed.

(** ** The base layer exists once the graph is initialized *)

Lemma decomposeTask_has (k : string) (dims : value) (g : graph) :
  JsMap.has k (layers (fst (decomposeTask dims g))) = JsMap.has k (layers g)
  /\ (currentStage (fst (decomposeTask dims g)) = currentStage g
      \/ currentStage g = 1%nat).
Proof.
  destruct (Nat.eq_dec (currentStage g) 1) as [Hs|Hs].
  2:{ rewrite (decomposeTask_wrong_stage _ _ Hs). auto. }
  split; [|now right].
  rewrite (decomposeTask_at_stage _ _ Hs).
  destruct (taskDimensions_of dims) as [taskDimensions|e]; [|reflexivity].
  pose proof (decompose_each_has k taskDimensions 0 g) as H.
  destruct (decompose_each _ _ g) as [g1 [ids|e]]; cbn [fst] in *; exact H.
Qed.

Lemma generateHypotheses_has (k : string) (d hs cfg : value) (g : graph) :
  JsMap.has k (layers (fst (generateHypotheses d hs cfg g))) = JsMap.has k (layers g)
  /\ (currentStage (fst (generateHypotheses d hs cfg g)) = currentStage g
      \/ currentStage g = 2%nat).
Proof.
  destruct (Nat.eq_dec (currentStage g) 2) as [Hs|Hs].
  2:{ rewrite (generateHypotheses_wrong_stage _ _ _ _ Hs). auto. }
  split; [|now right].
  unfold generateHypotheses. rewrite generateHypotheses_body_eq.
  destruct (hypotheses_checks d hs g) as [[[id number] items]|e]; [|reflexivity].
  unfold hypotheses_commit.
  pose proof (hypothesis_each_has id number k (firstn (limit_of cfg) items) 0 g) as H.
  fold (limit_of cfg).
  destruct (hypothesis_each id number _ 0 g) as [g' [nodes errors]]; cbn [fst] in *.
  destruct (List.length nodes =? 0)%nat; exact H.
Qed.

Lemma initialize_cases (t c cfg : value) (g : graph) :
  (initialize_success (snd (initialize t c cfg g)) = true
   /\ currentStage g = 0%nat
   /\ currentStage (fst (initialize t c cfg g)) = 1%nat
   /\ JsMap.has "base" (layers (fst (initialize t c cfg g))) = true
   /\ exists node, vertices (fst (initialize t c cfg g)) = [("n0", node)]
                   /\ Node.type node = "root")
  \/ (initialize_success (snd (initialize t c cfg g)) = false
      /\ currentStage (fst (initialize t c cfg g)) = 0%nat
      /\ vertices (fst (initialize t c cfg g)) = []).
Proof.
  destruct (initialize_success (snd (initialize t c cfg g))) eqn:Hok.
  - left. destruct (initialize_success_inv _ _ _ _ Hok)
      as (d & conf & sc & Hs & _ & Hv & Hst & Hb).
    repeat split; auto. now exists (root_node d conf sc).
  - right. split; [reflexivity|].
    unfold initialize in *.
    destruct (initialize_body t c cfg g) as [g' [r|e]] eqn:Hbody.
    + exfalso. cbn [snd] in Hok.
      destruct (Nat.eq_dec (currentStage g) 0) as [Hs|Hs].
      2:{ rewrite (initialize_body_wrong_stage _ _ _ _ Hs) in Hbody. discriminate. }
      revert Hbody. unfold initialize_body. unfold bindM at 1.
      rewrite (require_stage_ok _ _ _ _ Hs). unfold bindM at 1.
      destruct (clear_for_reinitialization_ok g) as (g1 & -> & Hv & _).
      unfold bindM, lift.
      destruct (_validateTaskDescription t); [|discriminate].
      destruct (_validateConfidenceArray _ _); [|discriminate].
      destruct (_validateConfig _); [|discriminate].
      destruct (add_root_ok (root_node a a0 a1) g1 Hv) as (g2 & r2 & -> & Hr2 & _).
      intros [= <- <-]. congruence.
    + cbn [fst]. destruct (reset_empty g') as (Hv & _ & _ & _ & Hs & _). auto.
Qed.

Lemma new_graph_empty (config : value) (g : graph) :
  new_ResearchQuestGraph config = Ok g ->
  currentStage g = 0%nat /\ vertices g = [] /\ edges g = [].
Proof.
  unfold new_ResearchQuestGraph.
  destruct (config_or_default config) as [| |b|x|s|items|fields];
    try discriminate; intros [= <-];
    repeat match goal with
           | |- context [match ?x with _ => _ end] => destruct x
           end; cbn; auto.
Qed.

(** In every state an instance can be in, the base layer exists as soon as
    the cursor has left 0. *)
Lemma reachable_base (g : graph) :
  reachable g -> currentStage g <> 0%nat -> JsMap.has "base" (layers g) = true.
Proof.
  induction 1 as [config g Hnew|o g Hr IH].
  - intros Hs. exfalso. apply Hs. now apply new_graph_empty in Hnew.
  - destruct o as [t c cfg|dims|d hs cfg| |f]; cbn [run]; auto.
    + destruct (initialize_cases t c cfg g) as [(_ & _ & _ & Hb & _)|(_ & Hs & _)];
        [auto|congruence].
    + destruct (decomposeTask_has "base" dims g) as [Hh [Hs|Hs]];
        rewrite Hh; intros Hne; apply IH; congruence.
    + destruct (generateHypotheses_has "base" d hs cfg g) as [Hh [Hs|Hs]];
        rewrite Hh; intros Hne; apply IH; congruence.
Qed.

(** ** C5: item-level failures *)

Lemma hypothesis_one_ok (d number : string) (h : value) (index : nat) (g : graph)
    (vh : validated_hypothesis) :
  JsMap.has "base" (layers g) = true ->
  _validateHypothesis h index = Ok vh ->
  exists g',
    hypothesis_one d number h index g
    = (g', Ok ("3." ++ number ++ "." ++ Str.of_nat (index + 1))%string).
Proof.
  intros Hb Hv. unfold hypothesis_one. run_M. rewrite Hv.
  set (g1 := set_nodeTypes _ _).
  set (nodeId := ("3." ++ number ++ "." ++ Str.of_nat (index + 1))%string).
  destruct (JsMap.has "theoretical" (layers g1)) eqn:Ht.
  - destruct (layer_nodes_add_ok "theoretical" nodeId g1 Ht) as (layer & _ & ->).
    eexists. reflexivity.
  - assert (Hb1 : JsMap.has "base" (layers g1) = true) by exact Hb.
    destruct (layer_nodes_add_ok "base" nodeId g1 Hb1) as (layer & _ & ->).
    eexists. reflexivity.
Qed.

Lemma hypothesis_each_counts (d number : string) (hypotheses : list value) :
  forall (index : nat) (g : graph),
  JsMap.has "base" (layers g) = true ->
  let '(g', (nodes, errors)) := hypothesis_each d number hypotheses index g in
  List.length nodes = count_occ bool_dec (accepted_from index hypotheses) true
  /\ List.length errors = count_occ bool_dec (accepted_from index hypotheses) false
  /\ (List.length nodes = 0%nat -> g' = g).
Proof.
  induction hypotheses as [|h rest IH]; intros index g Hb; [cbn; auto|].
  cbn [hypothesis_each accepted_from].
  pose proof (hypothesis_one_has d number "base" h index g) as Hb1.
  destruct (_validateHypothesis h index) as [vh|e] eqn:Hv.
  - destruct (hypothesis_one_ok d number h index g vh Hb Hv) as (g1 & Hone).
    rewrite Hone in *. cbn [fst] in Hb1.
    specialize (IH (S index) g1). rewrite Hb1 in IH. specialize (IH Hb).
    destruct (hypothesis_each d number rest (S index) g1) as [g2 [nodes errors]].
    destruct IH as (Hn & He & _). cbn [List.length is_ok count_occ].
    destruct (bool_dec true true) as [_|Hne]; [|now destruct Hne].
    destruct (bool_dec true false) as [Heq|_]; [discriminate|].
    repeat split; [lia|lia|discriminate].
  - destruct (hypothesis_one_cases d number h index g) as [_ Hc].
    cbv zeta in Hc. rewrite Hv in Hc. rewrite Hc.
    specialize (IH (S index) g Hb).
    destruct (hypothesis_each d number rest (S index) g) as [g2 [nodes errors]].
    destruct IH as (Hn & He & Hg). cbn [List.length is_ok count_occ].
    destruct (bool_dec false true) as [Heq|_]; [discriminate|].
    destruct (bool_dec false false) as [_|Hne]; [|now destruct Hne].
    repeat split; [lia|lia|exact Hg].
Qed.

Lemma no_dot_in_digits (cur : list ascii) (s : string) :
  Str.all_digits s = true ->
  Str.split_dot_aux cur s
  = [string_of_list_ascii (List.rev cur ++ list_ascii_of_string s)].
Proof.
  revert cur. induction s as [|c s IH]; intros cur; cbn.
  - intros _. now rewrite app_nil_r.
  - intros H. apply andb_prop in H as [Hc Hs].
    assert (Hdot : Ascii.eqb c "."%char = false).
    { destruct c as [[] [] [] [] [] [] [] []]; try discriminate Hc; reflexivity. }
    rewrite Hdot, (IH _ Hs). cbn. now rewrite <- app_assoc.
Qed.

Lemma split_dimension_id (id : string) :
  is_dimension_id_format id = true ->
  exists number, Str.split_dot id = ["2"; number] /\ id = ("2." ++ number)%string.
Proof.
  unfold is_dimension_id_format.
  destruct id as [|c1 [|c2 digits]]; try discriminate;
    try (destruct c1 as [[] [] [] [] [] [] [] []]; discriminate).
  destruct c1 as [[] [] [] [] [] [] [] []]; try discriminate.
  destruct c2 as [[] [] [] [] [] [] [] []]; try discriminate.
  intros H. apply andb_prop in H as [_ Hd].
  exists digits. split; [|reflexivity].
  unfold Str.split_dot. cbn. rewrite (no_dot_in_digits [] digits Hd). cbn.
  now rewrite string_of_list_ascii_of_string.
Qed.

Lemma checks_ok (id : string) (items : list value) (node : Node.t) (g : graph) :
  currentStage g = 2%nat ->
  is_dimension_id_format id = true ->
  JsMap.get id (vertices g) = Some node ->
  Node.type node = "dimension" ->
  valid_collection (VArr items) = true ->
  exists number,
    id = ("2." ++ number)%string
    /\ hypotheses_checks (VStr id) (VArr items) g = Ok (id, number, items).
Proof.
  intros Hs Hf Hget Hty Hvalid.
  destruct (split_dimension_id id Hf) as (number & Hsplit & Hid).
  exists number. split; [exact Hid|].
  unfold hypotheses_checks. rewrite Hs. cbn [Nat.eqb negb bind].
  unfold _validateDimensionNodeId. rewrite Hf.
  assert (Hne : String.eqb id "" = false) by (rewrite Hid; reflexivity).
  rewrite Hne. unfold JsMap.has. rewrite Hget. cbn [negb bind].
  rewrite Hget. cbn [bind]. rewrite Hty.
  cbn [String.eqb Ascii.eqb Bool.eqb negb bind].
  rewrite (validateHypothesesArray_valid items Hvalid). cbn [bind].
  now rewrite Hsplit.
Qed.

Lemma keep_entry_cases (x : value) :
  keep_entry x
  = if Js.printable x
    then Ok (match x with
             | VStr s => negb (String.length (Str.trim s) =? 0)%nat
             | _ => false
             end)
    else Throw (TypeError "Cannot convert object to primitive value").
Proof.
  unfold keep_entry, Js.ToString. destruct x; try reflexivity;
    now destruct (Js.printable _).
Qed.

(** The filter of a string array throws on an entry that has no string
    and otherwise keeps the strings that are not blank. *)
Lemma clean_strings_cases (arr : list value) :
  clean_strings arr
  = if forallb Js.printable arr then Ok (kept_strings arr)
    else Throw (TypeError "Cannot convert object to primitive value").
Proof.
  induction arr as [|x rest IH]; [reflexivity|].
  cbn [clean_strings forallb kept_strings]. rewrite keep_entry_cases, IH.
  destruct (Js.printable x) eqn:Hx; cbn [andb bind]; [|reflexivity].
  destruct (forallb Js.printable rest); cbn [bind]; [|reflexivity].
  destruct x; try reflexivity.
  now destruct (String.length (Str.trim s) =? 0)%nat.
Qed.

Lemma string_array_property_cases (field : string) (v : value)
    (examples : list value) :
  string_array_property field v examples
  = if negb (unset_or_array v) then
      Throw (_createValidationError field v "an array of strings" examples)
    else if has_unprintable_entry v then
      Throw (TypeError "Cannot convert object to primitive value")
    else Ok (kept_of v).
Proof.
  destruct v; try reflexivity.
  cbn [string_array_property unset_or_array has_unprintable_entry kept_of negb].
  rewrite clean_strings_cases. now destruct (forallb Js.printable items).
Qed.

(** An object item with a tag or an attribution that has no string is
    rejected. *)
Lemma validateHypothesis_unprintable (h : value) (index : nat) :
  Js.typeof h = Js.Tobject ->
  has_unprintable_entry (Js.prop "disciplinary_tags" h)
  || has_unprintable_entry (Js.prop "attribution" h) = true ->
  is_ok (_validateHypothesis h index) = false.
Proof.
  intros Hobj Hun.
  assert (Hnone : is_ok (validate_hypothesis_object h index) = false).
  { unfold validate_hypothesis_object.
    destruct (nonblank (Js.prop "content" h)); [|reflexivity].
    repeat match goal with
           | |- is_ok (bind ?r _) = false =>
               lazymatch r with
               | string_array_property _ _ _ => fail
               | _ => destruct r; cbn [bind]; [|reflexivity]
               end
           end.
    rewrite !string_array_property_cases.
    destruct (unset_or_array (Js.prop "disciplinary_tags" h)); cbn [negb bind];
      [|reflexivity].
    destruct (has_unprintable_entry (Js.prop "disciplinary_tags" h));
      cbn [bind orb] in *; [reflexivity|].
    destruct (unset_or_array (Js.prop "attribution" h)); cbn [negb bind];
      [|reflexivity].
    rewrite Hun. reflexivity. }
  unfold _validateHypothesis.
  destruct h; try discriminate Hobj; try reflexivity;
    destruct (validate_hypothesis_object _ index) as [vh|e];
    try discriminate Hnone; now destruct (is_McpError e).
Qed.

(** C5.  Once a call of [generateHypotheses] reaches its batch (cursor 2,
    an existing dimension node, a collection of 3 to 5 items), item
    failures stay with the item: when at least one processed item is
    accepted the call succeeds, sets the cursor to 3, returns one node id
    per accepted item and one [errors] line per rejected one; when none is
    accepted it fails and leaves the graph, cursor included, as it was.
    An item is rejected also when its check ends in an exception of the
    runtime: an object item with a tag or an attribution that has no
    string is rejected.  Five items of which the second is the empty
    string give success, four hypothesis nodes and one error.  Three
    items with a tag that has no string give a failure and the graph as
    it was; one such item between two valid ones gives success, two nodes
    and the error line of the item. *)
Theorem hypotheses_partial_failure :
  (forall (g : graph) (id : string) (node : Node.t) (items : list value)
          (cfg : value),
      reachable g ->
      currentStage g = 2%nat ->
      is_dimension_id_format id = true ->
      JsMap.get id (vertices g) = Some node ->
      Node.type node = "dimension" ->
      valid_collection (VArr items) = true ->
      let run := generateHypotheses (VStr id) (VArr items) cfg g in
      let flags := accepted_from 0 (firstn (limit_of cfg) items) in
      let accepted := count_occ bool_dec flags true in
      let rejected := count_occ bool_dec flags false in
      ((1 <= accepted)%nat ->
       hypotheses_success (snd run) = true
       /\ currentStage (fst run) = 3%nat
       /\ List.length (hypothesis_nodes_of (snd run)) = accepted
       /\ List.length (errors_of (snd run)) = rejected)
      /\ (accepted = 0%nat ->
          hypotheses_success (snd run) = false
          /\ fst run = g
          /\ currentStage (fst run) = 2%nat))
  /\ (forall (h : value) (index : nat),
        Js.typeof h = Js.Tobject ->
        has_unprintable_entry (Js.prop "disciplinary_tags" h)
        || has_unprintable_entry (Js.prop "attribution" h) = true ->
        is_ok (_validateHypothesis h index) = false)
  /\ (let run :=
        generateHypotheses (VStr "2.1")
          (VArr [VStr "H1 text"; VStr ""; VStr "H3 text"; VStr "H4 text";
                 VStr "H5 text"]) VUndefined decomposed_graph in
      hypotheses_success (snd run) = true
      /\ hypothesis_nodes_of (snd run) = ["3.1.1"; "3.1.3"; "3.1.4"; "3.1.5"]
      /\ count_type "hypothesis" decomposed_graph = 0%nat
      /\ count_type "hypothesis" (fst run) = 4%nat
      /\ List.length (errors_of (snd run)) = 1%nat
      /\ currentStage (fst run) = 3%nat)
  /\ (let run :=
        generateHypotheses (VStr "2.1")
          (VArr [item_with_unprintable_tag; item_with_unprintable_tag;
                 item_with_unprintable_tag]) VUndefined decomposed_graph in
      hypotheses_success (snd run) = false
      /\ fst run = decomposed_graph
      /\ currentStage (fst run) = 2%nat)
  /\ (let run :=
        generateHypotheses (VStr "2.1")
          (VArr [VStr "H1 text"; item_with_unprintable_tag; VStr "H3 text"])
          VUndefined decomposed_graph in
      hypotheses_success (snd run) = true
      /\ hypothesis_nodes_of (snd run) = ["3.1.1"; "3.1.3"]
      /\ errors_of (snd run)
         = [[Text "Hypothesis 2: "; Text "MCP error -32602: ";
             Text "Hypothesis 2 validation failed: ";
             Text "Cannot convert object to primitive value"]]
      /\ currentStage (fst run) = 3%nat).
Proof.
  split; [|split; [exact validateHypothesis_unprintable|];
           cbv zeta; repeat split; vm_compute; reflexivity].
  intros g id node items cfg Hr Hs Hf Hget Hty Hvalid. cbv zeta.
  destruct (checks_ok id items node g Hs Hf Hget Hty Hvalid) as (number & _ & Hchecks).
  assert (Hb : JsMap.has "base" (layers g) = true)
    by (apply reachable_base; [assumption|rewrite Hs; discriminate]).
  unfold generateHypotheses. rewrite generateHypotheses_body_eq, Hchecks.
  unfold hypotheses_commit. fold (limit_of cfg).
  pose proof (hypothesis_each_counts id number (firstn (limit_of cfg) items) 0 g Hb) as Hc.
  destruct (hypothesis_each id number (firstn (limit_of cfg) items) 0 g)
    as [g' [nodes errors]].
  destruct Hc as (Hn & He & Hg). rewrite <- Hn, <- He.
  destruct nodes as [|n0 nodes]; cbn [List.length Nat.eqb fst snd].
  - split; [intros H; inversion H|].
    intros _. cbn. rewrite (Hg eq_refl). auto.
  - split; [|discriminate]. intros _.
    cbn [hypotheses_success hypothesis_nodes_of errors_of currentStage set_stage
         List.length].
    repeat split. now destruct errors.
Qed.

(** C5, witness: the five items of the specification's example. *)
Lemma hypotheses_partial_failure_witness :
  let run :=
    generateHypotheses (VStr "2.1")
      (VArr [VStr "H1 text"; VStr ""; VStr "H3 text"; VStr "H4 text";
             VStr "H5 text"]) VUndefined decomposed_graph in
  hypotheses_success (snd run) = true
  /\ currentStage (fst run) = 3%nat
  /\ List.length (hypothesis_nodes_of (snd run)) = 4%nat
  /\ List.length (errors_of (snd run)) = 1%nat.
Proof.
  cbv zeta.
  refine (proj1 (proj1 hypotheses_partial_failure decomposed_graph "2.1" _
                   [VStr "H1 text"; VStr ""; VStr "H3 text"; VStr "H4 text";
                    VStr "H5 text"] VUndefined
                   decomposed_graph_reachable eq_refl eq_refl _ _ eq_refl) _).
  - reflexivity.
  - reflexivity.
  - vm_compute. lia.
Defined.

(** ** C7: what [decomposeTask] creates *)

Lemma of_nat_inj (a b : nat) : Str.of_nat a = Str.of_nat b -> a = b.
Proof.
  unfold Str.of_nat. intros H.
  apply DecimalNat.Unsigned.to_uint_inj.
  apply (f_equal NilEmpty.uint_of_string) in H.
  rewrite !NilEmpty.usu in H. now injection H.
Qed.

Lemma dimension_id_inj (a b : nat) : dimension_id a = dimension_id b -> a = b.
Proof.
  unfold dimension_id. cbn. intros [= H]. apply of_nat_inj in H. lia.
Qed.

Lemma append_inj_l (p a b : string) : (p ++ a = p ++ b)%string -> a = b.
Proof. induction p; cbn; [auto|]. intros [= H]. auto. Qed.

Section Fresh.

Context {V : Type}.

Lemma set_fresh (m : JsMap.t V) (k : string) (v : V) :
  JsMap.has k m = false -> JsMap.set k v m = m ++ [(k, v)].
Proof.
  unfold JsMap.has. induction m as [|[k0 v0] m IH]; cbn; [reflexivity|].
  destruct (String.eqb k k0); [discriminate|]. intros H. now rewrite IH.
Qed.

Lemma has_app_one (m : JsMap.t V) (k k0 : string) (v : V) :
  JsMap.has k (m ++ [(k0, v)]) = JsMap.has k m || String.eqb k k0.
Proof.
  unfold JsMap.has. induction m as [|[k1 v1] m IH]; cbn.
  - now destruct (String.eqb k k0).
  - destruct (String.eqb k k1); [reflexivity|exact IH].
Qed.

End Fresh.

Lemma indexed_cons {A : Type} (start : nat) (x : A) (l : list A) :
  indexed start (x :: l) = (start, x) :: indexed (S start) l.
Proof. reflexivity. Qed.

(** [set] on a map laid out by position: the entry at a position in use
    is replaced, the entry at the first free position is added. *)
Lemma set_indexed {A V : Type} (key : nat -> string) (f : nat * A -> string * V)
    (l : list A) :
  (forall i a, fst (f (i, a)) = key i) ->
  (forall i j, key i = key j -> i = j) ->
  forall (start j : nat) (a : A),
    (j <= List.length l)%nat ->
    JsMap.set (key (start + j)%nat) (snd (f ((start + j)%nat, a)))
      (map f (indexed start l))
    = map f (indexed start (firstn j l ++ a :: skipn (S j) l)).
Proof.
  intros Hkey Hinj. induction l as [|x l IH]; intros start j a Hj.
  - assert (j = 0)%nat as -> by (cbn in Hj; lia).
    cbn. rewrite Nat.add_0_r, <- (Hkey start a). now destruct (f (start, a)).
  - rewrite indexed_cons. cbn [map].
    pose proof (Hkey start x) as Hx. destruct (f (start, x)) as [k0 v0] eqn:Hf.
    cbn [fst] in Hx. subst k0. cbn [JsMap.set].
    destruct j as [|j].
    + rewrite Nat.add_0_r, String.eqb_refl. cbn [firstn skipn app].
      rewrite indexed_cons. cbn [map]. f_equal.
      rewrite <- (Hkey start a). now destruct (f (start, a)).
    + destruct (String.eqb_spec (key (start + S j)%nat) (key start)) as [He|_].
      { apply Hinj in He. lia. }
      cbn [firstn skipn app]. rewrite indexed_cons. cbn [map]. rewrite Hf. f_equal.
      replace (start + S j)%nat with (S start + j)%nat by lia.
      apply IH. cbn in Hj. lia.
Qed.

Lemma edge_id_inj (i j : nat) :
  ("e_n0_" ++ dimension_id i)%string = ("e_n0_" ++ dimension_id j)%string -> i = j.
Proof. intros H. now apply append_inj_l, dimension_id_inj in H. Qed.

(** One turn of the loop on a graph whose maps are laid out by position:
    the dimension takes position [index]. *)
Lemma decompose_one_form (dimension : value) (index : nat) (g : graph)
    (root : Node.t) (old : list value) :
  JsMap.has "base" (layers g) = true ->
  vertices g = ("n0", root) :: map dimension_vertex (indexed 0 old) ->
  edges g = map dimension_edge (indexed 0 old) ->
  (index <= List.length old)%nat ->
  Js.printable dimension = true ->
  let now := firstn index old ++ dimension :: skipn (S index) old in
  exists g',
    decompose_one dimension index g = (g', Ok (dimension_id index))
    /\ vertices g' = ("n0", root) :: map dimension_vertex (indexed 0 now)
    /\ edges g' = map dimension_edge (indexed 0 now)
    /\ currentStage g' = currentStage g
    /\ JsMap.has "base" (layers g') = true.
Proof.
  intros Hb Hv He Hi Hp. cbv zeta.
  rewrite decompose_one_cases, Hp. run_M.
  set (nodeId := ("2." ++ Str.of_nat (index + 1))%string).
  change nodeId with (dimension_id index) in *.
  set (g1 := set_nodeTypes _ _).
  assert (Hb1 : JsMap.has "base" (layers g1) = true) by exact Hb.
  destruct (layer_nodes_add_ok "base" (dimension_id index) g1 Hb1)
    as (layer & _ & ->).
  cbn beta iota. eexists. split; [reflexivity|].
  cbn [vertices edges currentStage layers set_edges set_layers set_nodeTypes
       set_vertices g1].
  rewrite Hv, He. repeat split.
  - cbn [JsMap.set].
    replace (String.eqb (dimension_id index) "n0") with false by reflexivity.
    f_equal.
    exact (set_indexed dimension_id dimension_vertex old
             (fun _ _ => eq_refl) dimension_id_inj 0 index dimension Hi).
  - exact (set_indexed (fun i => ("e_n0_" ++ dimension_id i)%string) dimension_edge
             old (fun _ _ => eq_refl) edge_id_inj 0 index dimension Hi).
  - now rewrite has_set.
Qed.

Lemma stored_entries_printable (items : list value) :
  forallb Js.printable (stored_entries items) = true.
Proof.
  induction items as [|v items IH]; [reflexivity|]. cbn.
  destruct (Js.printable v) eqn:Hp; [|reflexivity]. cbn. now rewrite Hp.
Qed.

Lemma stored_entries_all (items : list value) :
  forallb Js.printable items = true -> stored_entries items = items.
Proof.
  induction items as [|v items IH]; [reflexivity|]. cbn.
  intros H. apply andb_prop in H as [-> H]. now rewrite IH.
Qed.

Lemma stored_entries_length (items : list value) :
  (List.length (stored_entries items) <= List.length items)%nat.
Proof.
  induction items as [|v items IH]; [cbn; lia|]. cbn.
  destruct (Js.printable v); cbn; lia.
Qed.

Lemma overwrite_step {A : Type} (old : list A) :
  forall (index : nat) (d : A) (stored : list A),
  (index <= List.length old)%nat ->
  let old1 := firstn index old ++ d :: skipn (S index) old in
  firstn (S index) old1 ++ stored ++ skipn (S index + List.length stored)%nat old1
  = firstn index old ++ (d :: stored)
      ++ skipn (index + List.length (d :: stored))%nat old.
Proof.
  induction old as [|x old IH]; intros index d stored Hi; cbv zeta.
  - assert (index = 0)%nat as -> by (cbn in Hi; lia).
    cbn. now rewrite !skipn_nil.
  - destruct index as [|index].
    + cbn [firstn skipn app Nat.add List.length]. reflexivity.
    + cbn [firstn skipn app Nat.add List.length]. f_equal.
      apply (IH index d stored). cbn in Hi. lia.
Qed.

(** The loop of [decomposeTask] on a graph whose maps are laid out by
    position: the entries up to the first one without a string take the
    positions from [index] on; the loop throws at that entry, or comes to
    its end with the ids of all entries. *)
Lemma decompose_each_form (dimensions : list value) :
  forall (index : nat) (g : graph) (root : Node.t) (old : list value),
  JsMap.has "base" (layers g) = true ->
  vertices g = ("n0", root) :: map dimension_vertex (indexed 0 old) ->
  edges g = map dimension_edge (indexed 0 old) ->
  (index <= List.length old)%nat ->
  let stored := stored_entries dimensions in
  let now :=
    firstn index old ++ stored ++ skipn (index + List.length stored)%nat old in
  exists g',
    decompose_each dimensions index g
    = (g', if forallb Js.printable dimensions
           then Ok (map dimension_id (seq index (List.length dimensions)))
           else Throw (TypeError "Cannot convert object to primitive value"))
    /\ vertices g' = ("n0", root) :: map dimension_vertex (indexed 0 now)
    /\ edges g' = map dimension_edge (indexed 0 now)
    /\ currentStage g' = currentStage g.
Proof.
  induction dimensions as [|d rest IH]; intros index g root old Hb Hv He Hi;
    cbv zeta.
  - exists g. cbn [stored_entries List.length app forallb seq map decompose_each].
    rewrite Nat.add_0_r, firstn_skipn. auto.
  - rewrite decompose_each_cons. cbn [stored_entries forallb].
    destruct (Js.printable d) eqn:Hp.
    + destruct (decompose_one_form d index g root old Hb Hv He Hi Hp)
        as (g1 & -> & Hv1 & He1 & Hs1 & Hb1).
      set (old1 := firstn index old ++ d :: skipn (S index) old) in *.
      assert (Hfirst : List.length (firstn index old) = index)
        by (rewrite length_firstn; lia).
      assert (Hi1 : (S index <= List.length old1)%nat).
      { subst old1. rewrite length_app, Hfirst. cbn [List.length]. lia. }
      destruct (IH (S index) g1 root old1 Hb1 Hv1 He1 Hi1)
        as (g' & -> & Hv' & He' & Hs').
      pose proof (overwrite_step old index d (stored_entries rest) Hi) as Hnow.
      cbv zeta in Hnow. fold old1 in Hnow.
      rewrite Hnow in Hv', He'.
      exists g'. cbn [andb List.length seq map].
      destruct (forallb Js.printable rest);
        (split; [reflexivity|]); repeat split; try assumption; congruence.
    + exists g. rewrite decompose_one_cases, Hp.
      cbn [andb List.length app]. rewrite Nat.add_0_r, firstn_skipn. auto.
Qed.

(** [decomposeTask] on a graph at cursor 1 whose maps are laid out by
    position. *)
Lemma decomposeTask_form (dims : value) (g : graph) (root : Node.t)
    (old : list value) :
  currentStage g = 1%nat ->
  JsMap.has "base" (layers g) = true ->
  vertices g = ("n0", root) :: map dimension_vertex (indexed 0 old) ->
  edges g = map dimension_edge (indexed 0 old) ->
  match taskDimensions_of dims with
  | Throw e => decomposeTask dims g = (g, Throw e)
  | Ok taskDimensions =>
      let now := overwritten (stored_entries taskDimensions) old in
      exists g',
        vertices g' = ("n0", root) :: map dimension_vertex (indexed 0 now)
        /\ edges g' = map dimension_edge (indexed 0 now)
        /\ if forallb Js.printable taskDimensions then
             currentStage g' = 2%nat
             /\ exists r,
                 decomposeTask dims g = (g', Ok r)
                 /\ dr_success r = true
                 /\ dr_dimension_nodes r
                    = map dimension_id (seq 0 (List.length taskDimensions))
                 /\ dr_dimensions r = taskDimensions
                 /\ dr_current_stage r = 2%nat
           else
             currentStage g' = 1%nat
             /\ decomposeTask dims g
                = (g', Throw (TypeError "Cannot convert object to primitive value"))
  end.
Proof.
  intros Hs Hb Hv He. rewrite (decomposeTask_at_stage _ _ Hs).
  destruct (taskDimensions_of dims) as [taskDimensions|e]; [|reflexivity].
  cbv zeta.
  destruct (decompose_each_form taskDimensions 0 g root old Hb Hv He (Nat.le_0_l _))
    as (g1 & -> & Hv1 & He1 & Hs1).
  cbn [firstn app Nat.add] in Hv1, He1. fold (overwritten (stored_entries taskDimensions) old) in Hv1, He1.
  destruct (forallb Js.printable taskDimensions).
  - exists (set_stage 2 "decomposition" g1).
    split; [exact Hv1|]. split; [exact He1|]. split; [reflexivity|].
    eexists. split; [reflexivity|]. repeat split.
  - exists g1. split; [exact Hv1|]. split; [exact He1|]. split; [congruence|reflexivity].
Qed.

Lemma add_root_edges (rootNode : Node.t) (g : graph) :
  edges (fst (add_root rootNode g)) = edges g.
Proof.
  unfold add_root. run_M.
  destruct (JsMap.has "base" _); unfold layer_nodes_add;
    match goal with |- context [JsMap.get "base" ?l] =>
      destruct (JsMap.get "base" l) end; reflexivity.
Qed.

Lemma initialize_edges (t c cfg : value) (g : graph) :
  edges g = [] -> edges (fst (initialize t c cfg g)) = [].
Proof.
  intros He. unfold initialize.
  destruct (initialize_body t c cfg g) as [g' [r|e]] eqn:Hbody; cbn [fst].
  2:{ apply reset_empty. }
  destruct (Nat.eq_dec (currentStage g) 0) as [Hs|Hs].
  2:{ rewrite (initialize_body_wrong_stage _ _ _ _ Hs) in Hbody. discriminate. }
  revert Hbody. unfold initialize_body. unfold bindM at 1.
  rewrite (require_stage_ok _ _ _ _ Hs). unfold bindM at 1.
  assert (Hc : edges (fst (clear_for_reinitialization g)) = []
               /\ snd (clear_for_reinitialization g) = Ok tt).
  { unfold clear_for_reinitialization. run_M.
    destruct (0 <? JsMap.size (vertices g))%nat; cbn; auto. }
  destruct (clear_for_reinitialization g) as [g1 r1]. cbn [fst snd] in Hc.
  destruct Hc as [He1 ->]. unfold bindM, lift.
  destruct (_validateTaskDescription t); [|discriminate].
  destruct (_validateConfidenceArray _ _); [|discriminate].
  destruct (_validateConfig _); [|discriminate].
  pose proof (add_root_edges (root_node a a0 a1) g1) as Ha.
  destruct (add_root (root_node a a0 a1) g1) as [g2 r2]. cbn [fst] in Ha.
  intros [= <- _]. congruence.
Qed.

Lemma generateHypotheses_stage (d hs cfg : value) (g : graph) :
  currentStage (fst (generateHypotheses d hs cfg g)) = currentStage g
  \/ (currentStage g = 2%nat
      /\ currentStage (fst (generateHypotheses d hs cfg g)) = 3%nat).
Proof.
  destruct (Nat.eq_dec (currentStage g) 2) as [Hs|Hs].
  2:{ rewrite (generateHypotheses_wrong_stage _ _ _ _ Hs). auto. }
  unfold generateHypotheses. rewrite generateHypotheses_body_eq.
  destruct (hypotheses_checks d hs g) as [[[id number] items]|e]; [|auto].
  unfold hypotheses_commit.
  destruct (hypothesis_each_sets id number
              (firstn (maxHypotheses_of (_validateHypothesisConfig (config_or_default cfg)))
                 items) 0 g) as (n & _ & _ & Hst).
  destruct (hypothesis_each id number _ 0 g) as [g' [nodes errors]]; cbn [fst] in *.
  destruct (List.length nodes =? 0)%nat; cbn; auto.
Qed.

Lemma dimension_id_not_n0 (j : nat) :
  String.eqb (dimension_id j) "n0" = false
  /\ JsMap.has ("e_n0_" ++ dimension_id j) (@nil (string * Edge.t)) = false.
Proof. split; reflexivity. Qed.

Lemma decomposeTask_stage (dims : value) (g : graph) :
  match snd (decomposeTask dims g) with
  | Ok r =>
      currentStage g = 1%nat
      /\ currentStage (fst (decomposeTask dims g)) = 2%nat
      /\ dr_success r = true
  | Throw _ => currentStage (fst (decomposeTask dims g)) = currentStage g
  end.
Proof.
  destruct (Nat.eq_dec (currentStage g) 1) as [Hs|Hs].
  2:{ now rewrite (decomposeTask_wrong_stage _ _ Hs). }
  rewrite (decomposeTask_at_stage _ _ Hs).
  destruct (taskDimensions_of dims) as [taskDimensions|e]; [|reflexivity].
  destruct (decompose_each_sets taskDimensions 0 g) as (n & _ & _ & Hst).
  destruct (decompose_each _ _ g) as [g1 [ids|e]]; cbn [fst snd] in *.
  - cbn. auto.
  - exact Hst.
Qed.

Lemma not_dimension_entry_n0 (v : Node.t) : ~ is_dimension_entry "n0" v.
Proof. intros (index & d & tags & text & H & _). discriminate H. Qed.

Lemma not_hypothesis_entry_n0 (v : Node.t) : ~ is_hypothesis_entry "n0" v.
Proof. intros (number & index & h & H & _). discriminate H. Qed.

(** The graph of an instance: empty at cursor 0, and with a vertex [n0]
    from cursor 1 on. *)
Lemma reachable_shape (g : graph) :
  reachable g ->
  (currentStage g = 0%nat -> vertices g = [] /\ edges g = [])
  /\ (currentStage g <> 0%nat -> JsMap.has "n0" (vertices g) = true).
Proof.
  induction 1 as [config g Hnew|o g Hr IH].
  - apply new_graph_empty in Hnew as (Hs & Hv & He).
    split; [auto|]. rewrite Hs. intros H. now destruct H.
  - destruct IH as [IH0 IH1].
    destruct o as [t c cfg|dims|d hs cfg| |f]; cbn [run]; auto.
    + destruct (initialize_cases t c cfg g)
        as [(_ & Hs & Hst & _ & root & Hv & Hty)|(_ & Hst & Hv)].
      * split; [congruence|]. intros _. now rewrite Hv.
      * split; [|congruence]. intros _. split; [exact Hv|].
        unfold initialize.
        destruct (initialize_body t c cfg g) as [g' [r|e]] eqn:Hb; cbn [fst].
        -- unfold initialize in Hv, Hst. rewrite Hb in Hv, Hst. cbn [fst] in *.
           destruct (Nat.eq_dec (currentStage g) 0) as [Hs|Hs].
           ++ pose proof (initialize_edges t c cfg g (proj2 (IH0 Hs))) as He.
              unfold initialize in He. now rewrite Hb in He.
           ++ rewrite (initialize_body_wrong_stage _ _ _ _ Hs) in Hb. discriminate.
        -- apply reset_empty.
    + pose proof (decomposeTask_stage dims g) as Hst.
      destruct (decomposeTask_sets dims g) as (n & Hsets).
      rewrite (sets_has _ _ _ _ "n0" Hsets not_dimension_entry_n0).
      destruct (Nat.eq_dec (currentStage g) 1) as [Hs|Hs].
      2:{ now rewrite (decomposeTask_wrong_stage _ _ Hs). }
      destruct (snd (decomposeTask dims g)).
      * destruct Hst as (_ & Hst & _). split; [congruence|].
        intros _. apply IH1. congruence.
      * split; [congruence|]. intros _. apply IH1. congruence.
    + destruct (generateHypotheses_growth d hs cfg g) as (n & _ & _ & Hsets).
      rewrite (sets_has _ _ _ _ "n0" Hsets not_hypothesis_entry_n0).
      destruct (generateHypotheses_stage d hs cfg g) as [Hst|[Hs Hst]].
      * destruct (Nat.eq_dec (currentStage g) 2) as [Hs|Hs].
        -- split; [congruence|]. intros _. apply IH1. congruence.
        -- now rewrite (generateHypotheses_wrong_stage _ _ _ _ Hs).
      * split; [congruence|]. intros _. apply IH1. congruence.
Qed.

(** What the node of a dimension given as a string carries. *)
Lemma dimension_node_facts (nodeId dimension : string) :
  let node := stored_dimension_node nodeId (VStr dimension) in
  Node.node_id node = nodeId
  /\ Node.label node = VStr dimension
  /\ Node.type node = "dimension"
  /\ means (Node.confidence node) = [0.8; 0.8; 0.8; 0.8]
  /\ Meta.disciplinary_tags (Node.metadata node)
     = match JsMap.get dimension tagMap with
       | Some tags => tags
       | None =>
           if existsb (String.eqb dimension) Object_prototype_members
           then []
           else ["general"]
       end.
Proof.
  cbv zeta. repeat split.
  unfold stored_dimension_node, dimension_node, _createNodeMetadata, tags_at.
  cbn [Node.metadata Meta.disciplinary_tags Meta.b_disciplinary_tags Js.to_string].
  destruct (JsMap.get dimension tagMap); [reflexivity|].
  destruct (existsb _ _); reflexivity.
Qed.

(** C7 at its failing input: the dimension name [constructor] is not a key
    of the tag table, yet its node does not get the tags [general] but no
    tag at all, because [tagMap[dimension]] finds the member inherited
    from [Object.prototype]; an ordinary unknown name gets [general]. *)
Theorem decomposeTask_inherited_name :
  let g' :=
    run (Decompose (VArr [VStr "constructor"; VStr "Ethics"])) initialized_graph in
  JsMap.get "constructor" tagMap = None
  /\ option_map (fun n => (Node.label n, Node.type n,
                           Meta.disciplinary_tags (Node.metadata n)))
       (JsMap.get "2.1" (vertices g'))
     = Some (VStr "constructor", "dimension", [])
  /\ option_map (fun n => (Node.label n, Node.type n,
                           Meta.disciplinary_tags (Node.metadata n)))
       (JsMap.get "2.2" (vertices g'))
     = Some (VStr "Ethics", "dimension", ["general"]).
Proof. cbv zeta. repeat split; vm_compute; reflexivity. Qed.

(** ** C4: one root *)

Lemma dimension_entry_type (k : string) (v : Node.t) :
  is_dimension_entry k v -> Node.type v = "dimension".
Proof. intros (index & d & tags & text & _ & ->). reflexivity. Qed.

Lemma hypothesis_entry_type (k : string) (v : Node.t) :
  is_hypothesis_entry k v -> Node.type v = "hypothesis".
Proof. intros (number & index & h & _ & ->). reflexivity. Qed.

Lemma dimension_entry_not_root (k : string) (v : Node.t) :
  is_dimension_entry k v -> Node.type v <> "root".
Proof. intros H E. rewrite (dimension_entry_type _ _ H) in E. discriminate. Qed.

Lemma hypothesis_entry_not_root (k : string) (v : Node.t) :
  is_hypothesis_entry k v -> Node.type v <> "root".
Proof. intros H E. rewrite (hypothesis_entry_type _ _ H) in E. discriminate. Qed.

Lemma sets_roots (p : string -> Node.t -> Prop) (n : nat) (m m' : JsMap.t Node.t) :
  (forall k v, p k v -> Node.type v <> "root") ->
  sets p n m m' ->
  (NoDup (JsMap.keys m) -> NoDup (JsMap.keys m'))
  /\ (roots_named_n0 m -> roots_named_n0 m')
  /\ (forall id v, In (id, v) m' -> Node.type v = "root" -> In (id, v) m).
Proof.
  intros Hp Hsets. split; [now apply (sets_NoDup p n)|].
  assert (Hin : forall id v, In (id, v) m' -> Node.type v = "root" -> In (id, v) m).
  { intros id v Hin Hty.
    destruct (sets_In p n m m' id v Hsets Hin) as [H|H]; [exact H|].
    now destruct (Hp id v H). }
  split; [|exact Hin].
  intros Hroots id v Hi Hty. apply (Hroots id v); auto.
Qed.

Lemma vertices_invariant (g : graph) :
  reachable g -> NoDup (JsMap.keys (vertices g)) /\ roots_named_n0 (vertices g).
Proof.
  induction 1 as [config g Hnew|o g Hr [IHnd IHroots]].
  - apply new_graph_empty in Hnew as (_ & -> & _).
    split; [constructor|intros id n []].
  - destruct o as [t c cfg|dims|d hs cfg| |f]; cbn [run]; auto.
    + destruct (initialize_cases t c cfg g)
        as [(_ & _ & _ & _ & node & -> & _)|(_ & _ & ->)].
      * split; [repeat constructor; intros []|].
        intros id n [[= <- <-]|[]] _. reflexivity.
      * split; [constructor|intros id n []].
    + destruct (decomposeTask_sets dims g) as (n & Hsets).
      destruct (sets_roots _ _ _ _ dimension_entry_not_root Hsets)
        as (Hnd & Hroots & _).
      auto.
    + destruct (generateHypotheses_growth d hs cfg g) as (n & _ & _ & Hsets).
      destruct (sets_roots _ _ _ _ hypothesis_entry_not_root Hsets)
        as (Hnd & Hroots & _).
      auto.
Qed.

Lemma no_root_without_n0 (m : JsMap.t Node.t) :
  roots_named_n0 m -> ~ In "n0" (JsMap.keys m) ->
  filter (fun n => String.eqb (Node.type n) "root") (JsMap.values m) = [].
Proof.
  unfold JsMap.keys, JsMap.values.
  induction m as [|[k v] m IH]; cbn [map filter fst snd]; [reflexivity|].
  intros Hroots Hnotin.
  destruct (String.eqb_spec (Node.type v) "root") as [Hty|Hty].
  - exfalso. apply Hnotin. left. apply (Hroots k v); [now left|exact Hty].
  - apply IH.
    + intros id n Hin. apply Hroots. now right.
    + intros Hin. apply Hnotin. now right.
Qed.

Lemma at_most_one_root (m : JsMap.t Node.t) :
  NoDup (JsMap.keys m) -> roots_named_n0 m ->
  (List.length (filter (fun n => String.eqb (Node.type n) "root") (JsMap.values m))
   <= 1)%nat.
Proof.
  induction m as [|[k v] m IH]; [cbn; lia|].
  intros Hnd Hroots.
  change (JsMap.keys ((k, v) :: m)) with (k :: JsMap.keys m) in Hnd.
  change (JsMap.values ((k, v) :: m)) with (v :: JsMap.values m).
  inversion Hnd as [|? ? Hnotin Hnd']; subst.
  assert (Hrest : roots_named_n0 m)
    by (intros id n Hin; apply Hroots; now right).
  cbn [filter].
  destruct (String.eqb_spec (Node.type v) "root") as [Hty|Hty]; [|now apply IH].
  assert (Hk : k = "n0") by (apply (Hroots k v); [now left|exact Hty]).
  subst k. rewrite (no_root_without_n0 m Hrest Hnotin). cbn. lia.
Qed.

(** C4.  In every state an instance can reach through the five
    operations, at most one vertex is of kind root and it is stored under
    [n0]; and an operation leaves a root vertex that was not there before
    only when it is [initialize] run at cursor 0. *)
Theorem single_root (g : graph) :
  reachable g ->
  (root_count g <= 1)%nat
  /\ (forall id n, In (id, n) (vertices g) -> Node.type n = "root" -> id = "n0")
  /\ (forall o id n,
        In (id, n) (vertices (run o g)) ->
        Node.type n = "root" ->
        ~ In (id, n) (vertices g) ->
        (exists t c cfg, o = Initialize t c cfg)
        /\ currentStage g = 0%nat /\ id = "n0").
Proof.
  intros Hr. destruct (vertices_invariant g Hr) as [Hnd Hroots].
  split; [now apply at_most_one_root|]. split; [exact Hroots|].
  intros o id n Hin Hty Hnew.
  destruct o as [t c cfg|dims|d hs cfg| |f]; cbn [run] in Hin;
    try contradiction.
  - destruct (initialize_cases t c cfg g)
      as [(_ & Hs & _ & _ & node & Hv & _)|(_ & _ & Hv)];
      rewrite Hv in Hin.
    + destruct Hin as [[= <- <-]|[]]. split; [now exists t, c, cfg|auto].
    + destruct Hin.
  - exfalso. destruct (decomposeTask_sets dims g) as (k & Hsets).
    destruct (sets_In _ _ _ _ _ _ Hsets Hin) as [H|H]; [contradiction|].
    apply dimension_entry_type in H. congruence.
  - exfalso. destruct (generateHypotheses_growth d hs cfg g) as (k & _ & _ & Hsets).
    destruct (sets_In _ _ _ _ _ _ Hsets Hin) as [H|H]; [contradiction|].
    apply hypothesis_entry_type in H. congruence.
Qed.

(** C4, witness: the instance of the scenario after its decomposition. *)
Lemma single_root_witness :
  (root_count decomposed_graph <= 1)%nat
  /\ (forall id n,
        In (id, n) (vertices decomposed_graph) -> Node.type n = "root" -> id = "n0").
Proof.
  split.
  - exact (proj1 (single_root decomposed_graph decomposed_graph_reachable)).
  - exact (proj1 (proj2 (single_root decomposed_graph decomposed_graph_reachable))).
Defined.

(* ================================================================== *)
(** * Further properties of the graph operations *)

(** ** The cursor *)

Lemma generateHypotheses_outcome (d hs cfg : value) (g : graph) :
  (hypotheses_success (snd (generateHypotheses d hs cfg g)) = true
   /\ currentStage g = 2%nat
   /\ currentStage (fst (generateHypotheses d hs cfg g)) = 3%nat)
  \/ (hypotheses_success (snd (generateHypotheses d hs cfg g)) = false
      /\ currentStage (fst (generateHypotheses d hs cfg g)) = currentStage g).
Proof.
  destruct (Nat.eq_dec (currentStage g) 2) as [Hs|Hs].
  2:{ right. now rewrite (generateHypotheses_wrong_stage _ _ _ _ Hs). }
  unfold generateHypotheses. rewrite generateHypotheses_body_eq.
  destruct (hypotheses_checks d hs g) as [[[id number] items]|e]; [|right; auto].
  unfold hypotheses_commit.
  destruct (hypothesis_each_sets id number
              (firstn (maxHypotheses_of (_validateHypothesisConfig (config_or_default cfg)))
                 items) 0 g) as (n & _ & _ & Hst).
  destruct (hypothesis_each id number _ 0 g) as [g' [nodes errors]]; cbn [fst] in *.
  destruct (List.length nodes =? 0)%nat; cbn; auto.
Qed.

(** X1.  The cursor moves by exactly one on a successful stage operation
    and only then: [initialize] succeeds only from 0 and leaves 1,
    [decomposeTask] returns only from 1 and leaves 2, [generateHypotheses]
    succeeds only from 2 and leaves 3.  A failing [decomposeTask] or
    [generateHypotheses] leaves the cursor where it was, a failing
    [initialize] sets it to 0.  The cursor of an instance never exceeds
    3. *)
Theorem cursor_moves (g : graph) :
  (forall t c cfg,
      if initialize_success (snd (initialize t c cfg g))
      then currentStage g = 0%nat /\ currentStage (fst (initialize t c cfg g)) = 1%nat
      else currentStage (fst (initialize t c cfg g)) = 0%nat)
  /\ (forall dims,
        if is_ok (snd (decomposeTask dims g))
        then currentStage g = 1%nat
             /\ currentStage (fst (decomposeTask dims g)) = 2%nat
        else currentStage (fst (decomposeTask dims g)) = currentStage g)
  /\ (forall d hs cfg,
        if hypotheses_success (snd (generateHypotheses d hs cfg g))
        then currentStage g = 2%nat
             /\ currentStage (fst (generateHypotheses d hs cfg g)) = 3%nat
        else currentStage (fst (generateHypotheses d hs cfg g)) = currentStage g)
  /\ (reachable g -> (currentStage g <= 3)%nat).
Proof.
  split; [|split; [|split]].
  - intros t c cfg.
    destruct (initialize_cases t c cfg g)
      as [(-> & Hs & Hst & _)|(-> & Hst & _)]; auto.
  - intros dims. pose proof (decomposeTask_stage dims g) as H.
    destruct (snd (decomposeTask dims g)); cbn [is_ok]; tauto.
  - intros d hs cfg.
    destruct (generateHypotheses_outcome d hs cfg g) as [(-> & H)|(-> & H)]; auto.
  - induction 1 as [config g Hnew|o g Hr IH].
    + apply new_graph_empty in Hnew as (-> & _). lia.
    + destruct o as [t c cfg|dims|d hs cfg| |f]; cbn [run]; auto.
      * destruct (initialize_cases t c cfg g)
          as [(_ & _ & -> & _)|(_ & -> & _)]; lia.
      * pose proof (decomposeTask_stage dims g) as H.
        destruct (snd (decomposeTask dims g)); [|lia].
        destruct H as (_ & -> & _). lia.
      * destruct (generateHypotheses_outcome d hs cfg g)
          as [(_ & _ & ->)|(_ & ->)]; lia.
Qed.

(** X1, witness: the decomposed instance of the scenario is at cursor 2. *)
Lemma cursor_moves_witness : (currentStage decomposed_graph <= 3)%nat.
Proof.
  exact (proj2 (proj2 (proj2 (cursor_moves decomposed_graph)))
           decomposed_graph_reachable).
Defined.

(** ** What one step of each stage leaves *)

Lemma decompose_one_eq (dimension : value) (index : nat) (layer : Layer.t) (g : graph) :
  Js.printable dimension = true ->
  JsMap.get "base" (layers g) = Some layer ->
  decompose_one dimension index g
  = (after_decompose_one dimension index layer g, Ok (dimension_id index)).
Proof.
  intros Hp H. rewrite decompose_one_cases, Hp. unfold layer_nodes_add. run_M.
  cbn [layers set_nodeTypes set_vertices]. rewrite H. reflexivity.
Qed.

Lemma hypothesis_one_eq (d number : string) (h : value) (index : nat)
    (vh : validated_hypothesis) (layer : Layer.t) (g : graph) :
  _validateHypothesis h index = Ok vh ->
  JsMap.get (hypothesis_layer g) (layers g) = Some layer ->
  hypothesis_one d number h index g
  = (after_hypothesis_one d number index vh layer g, Ok (hypothesis_id number index)).
Proof.
  intros Hv H.
  unfold hypothesis_one, layer_nodes_add, after_hypothesis_one, hypothesis_layer in *.
  run_M.
  rewrite Hv. cbn [layers set_nodeTypes set_vertices].
  destruct (JsMap.has "theoretical" (layers g));
    cbn [layers set_nodeTypes set_vertices]; rewrite H; reflexivity.
Qed.

Lemma ready_layers_base (g : graph) : JsMap.has "base" (ready_layers g) = true.
Proof.
  unfold ready_layers. destruct (JsMap.has "base" (layers g)) eqn:H; [exact H|].
  apply has_base_after_structure.
Qed.

Lemma add_root_eq (rootNode : Node.t) (g : graph) :
  exists layer r,
    JsMap.get "base" (ready_layers g) = Some layer
    /\ initialize_success r = true
    /\ add_root rootNode g = (after_add_root rootNode layer g, Ok r).
Proof.
  pose proof (ready_layers_base g) as Hb. unfold JsMap.has in Hb.
  destruct (JsMap.get "base" (ready_layers g)) as [layer|] eqn:Hl; [|discriminate].
  exists layer. unfold add_root, layer_nodes_add. run_M.
  cbn [layers set_nodeTypes set_vertices]. unfold ready_layers in Hl.
  destruct (JsMap.has "base" (layers g)) eqn:Hhas.
  - cbn [layers set_nodeTypes set_vertices]. rewrite Hl.
    eexists. split; [reflexivity|]. split; cycle 1.
    { unfold after_add_root, ready_layers. rewrite Hhas. reflexivity. }
    reflexivity.
  - cbn [layers set_nodeTypes set_vertices _initializeLayerStructure set_layers] in *.
    rewrite Hl.
    eexists. split; [reflexivity|]. split; cycle 1.
    { unfold after_add_root, ready_layers. rewrite Hhas. reflexivity. }
    reflexivity.
Qed.

Lemma clear_for_reinitialization_nothing (g : graph) :
  vertices g = [] -> clear_for_reinitialization g = (g, Ok tt).
Proof. intros H. unfold clear_for_reinitialization. run_M. now rewrite H. Qed.

(** The graph [initialize] leaves, on a graph that has no vertex at cursor
    0: the reset one, or the one with the root added. *)
Lemma initialize_shape (t c cfg : value) (g : graph) :
  (currentStage g = 0%nat -> vertices g = []) ->
  (initialize_success (snd (initialize t c cfg g)) = false
   /\ fst (initialize t c cfg g) = _resetToInitialState g)
  \/ (initialize_success (snd (initialize t c cfg g)) = true
      /\ currentStage g = 0%nat
      /\ exists d conf sc layer,
          _validateTaskDescription t = Ok d
          /\ _validateConfidenceArray (confidence_or_default c) "initial_confidence"
             = Ok conf
          /\ _validateConfig (config_or_default cfg) = Ok sc
          /\ JsMap.get "base" (ready_layers g) = Some layer
          /\ fst (initialize t c cfg g) = after_add_root (root_node d conf sc) layer g).
Proof.
  intros Hv0.
  destruct (Nat.eq_dec (currentStage g) 0) as [Hs|Hs].
  2:{ left. rewrite (initialize_body_throw _ _ _ _ _ _
                       (initialize_body_wrong_stage t c cfg g Hs)). auto. }
  specialize (Hv0 Hs).
  assert (Hbody :
    initialize_body t c cfg g
    = match _validateTaskDescription t with
      | Ok d =>
          match _validateConfidenceArray (confidence_or_default c)
                  "initial_confidence" with
          | Ok conf =>
              match _validateConfig (config_or_default cfg) with
              | Ok sc => add_root (root_node d conf sc) g
              | Throw e => (g, Throw e)
              end
          | Throw e => (g, Throw e)
          end
      | Throw e => (g, Throw e)
      end).
  { unfold initialize_body. unfold bindM at 1.
    rewrite (require_stage_ok _ _ _ _ Hs). unfold bindM at 1.
    rewrite (clear_for_reinitialization_nothing g Hv0).
    unfold bindM, lift.
    destruct (_validateTaskDescription t); [|reflexivity].
    destruct (_validateConfidenceArray _ _); [|reflexivity].
    destruct (_validateConfig _); reflexivity. }
  destruct (_validateTaskDescription t) as [d|e] eqn:Ht.
  2:{ left. rewrite (initialize_body_throw _ _ _ _ _ _ Hbody). auto. }
  destruct (_validateConfidenceArray _ _) as [conf|e] eqn:Hc.
  2:{ left. rewrite (initialize_body_throw _ _ _ _ _ _ Hbody). auto. }
  destruct (_validateConfig _) as [sc|e] eqn:Hcfg.
  2:{ left. rewrite (initialize_body_throw _ _ _ _ _ _ Hbody). auto. }
  right.
  destruct (add_root_eq (root_node d conf sc) g) as (layer & r & Hl & Hr & Hadd).
  rewrite Hadd in Hbody. unfold initialize. rewrite Hbody. cbn [fst snd].
  split; [exact Hr|]. split; [exact Hs|].
  now exists d, conf, sc, layer.
Qed.

Lemma decompose_each_invariant (P : graph -> Prop) :
  (forall d i g, P g -> P (fst (decompose_one d i g))) ->
  forall dims i g, P g -> P (fst (decompose_each dims i g)).
Proof.
  intros Hone. induction dims as [|d rest IH]; intros i g Hg; [exact Hg|].
  rewrite decompose_each_cons.
  specialize (Hone d i g Hg).
  destruct (decompose_one d i g) as [g1 [id|e]]; cbn [fst] in *; [|exact Hone].
  specialize (IH (S i) g1 Hone).
  destruct (decompose_each rest (S i) g1) as [g2 [ids|e]]; exact IH.
Qed.

Lemma hypothesis_each_invariant (P : graph -> Prop) (d number : string) :
  (forall h i g, P g -> P (fst (hypothesis_one d number h i g))) ->
  forall hs i g, P g -> P (fst (hypothesis_each d number hs i g)).
Proof.
  intros Hone. induction hs as [|h rest IH]; intros i g Hg; [exact Hg|].
  cbn [hypothesis_each].
  specialize (Hone h i g Hg).
  destruct (hypothesis_one d number h i g) as [g1 r1]; cbn [fst] in *.
  specialize (IH (S i) g1 Hone).
  destruct r1;
    destruct (hypothesis_each d number rest (S i) g1) as [g2 [nodes errors]];
    exact IH.
Qed.

(** The graph [decomposeTask] leaves: the one the loop left, with the
    cursor set when the loop came to its end. *)
Lemma decomposeTask_graph (dims : value) (g : graph) :
  fst (decomposeTask dims g) = g
  \/ (currentStage g = 1%nat
      /\ exists taskDimensions,
          let g' := fst (decompose_each taskDimensions 0 g) in
          fst (decomposeTask dims g) = g'
          \/ fst (decomposeTask dims g) = set_stage 2 "decomposition" g').
Proof.
  destruct (Nat.eq_dec (currentStage g) 1) as [Hs|Hs].
  2:{ left. now rewrite (decomposeTask_wrong_stage _ _ Hs). }
  rewrite (decomposeTask_at_stage _ _ Hs).
  destruct (taskDimensions_of dims) as [taskDimensions|e]; [|now left].
  right. split; [exact Hs|]. exists taskDimensions. cbv zeta.
  destruct (decompose_each _ _ g) as [g1 [ids|e]]; cbn; auto.
Qed.

Lemma hypotheses_checks_inv (d hs : value) (g : graph)
    (id number : string) (items : list value) :
  hypotheses_checks d hs g = Ok (id, number, items) ->
  currentStage g = 2%nat
  /\ d = VStr id
  /\ id = ("2." ++ number)%string
  /\ (exists node, JsMap.get id (vertices g) = Some node
                   /\ Node.type node = "dimension")
  /\ _validateHypothesesArray hs = Ok items.
Proof.
  unfold hypotheses_checks.
  destruct (Nat.eqb_spec (currentStage g) 2) as [Hs|Hs]; cbn [negb bind];
    [|discriminate].
  unfold _validateDimensionNodeId.
  destruct d as [| | | |s| |]; try discriminate.
  destruct (String.eqb s ""); [discriminate|].
  destruct (is_dimension_id_format s) eqn:Hf; cbn [negb]; [|discriminate].
  destruct (JsMap.has s (vertices g)) eqn:Hhas; cbn [negb bind]; [|discriminate].
  destruct (JsMap.get s (vertices g)) as [node|] eqn:Hget; cbn [bind];
    [|discriminate].
  destruct (String.eqb_spec (Node.type node) "dimension") as [Ht|Ht];
    cbn [negb bind]; [|discriminate].
  destruct (_validateHypothesesArray hs) as [its|e]; cbn [bind]; [|discriminate].
  destruct (split_dimension_id s Hf) as (num & -> & Hid). cbn [bind].
  intros [= <- <- <-].
  repeat split; auto. now exists node.
Qed.

(** The graph [generateHypotheses] leaves: the one the loop left, with the
    cursor set when at least one node was created. *)
Lemma generateHypotheses_graph (d hs cfg : value) (g : graph) :
  fst (generateHypotheses d hs cfg g) = g
  \/ exists id number items,
      hypotheses_checks d hs g = Ok (id, number, items)
      /\ let g' := fst (hypothesis_each id number (firstn (limit_of cfg) items) 0 g) in
         fst (generateHypotheses d hs cfg g) = g'
         \/ fst (generateHypotheses d hs cfg g) = set_stage 3 "hypothesis_planning" g'.
Proof.
  unfold generateHypotheses. rewrite generateHypotheses_body_eq.
  destruct (hypotheses_checks d hs g) as [[[id number] items]|e]; [|now left].
  right. exists id, number, items. split; [reflexivity|].
  unfold hypotheses_commit, limit_of.
  destruct (hypothesis_each id number _ 0 g) as [g' [nodes errors]]; cbn [fst].
  destruct (List.length nodes =? 0)%nat; cbn; auto.
Qed.

(** ** An induction principle over the states of an instance

    A property holds of every state of an instance once it holds of a new
    instance and is kept by the reset, by the addition of the root to an
    empty graph at cursor 0, by one turn of each of the two loops, and by
    a move of the cursor. *)
Section Invariant.

Variable P : graph -> Prop.

Hypothesis P_new : forall config g, new_ResearchQuestGraph config = Ok g -> P g.
Hypothesis P_reset : forall g, P g -> P (_resetToInitialState g).
Hypothesis P_root :
  forall d conf sc layer g,
    currentStage g = 0%nat -> vertices g = [] -> edges g = [] ->
    JsMap.get "base" (ready_layers g) = Some layer ->
    P g -> P (after_add_root (root_node d conf sc) layer g).
Hypothesis P_dimension :
  forall dimension index layer g,
    Js.printable dimension = true ->
    JsMap.get "base" (layers g) = Some layer ->
    JsMap.has "n0" (vertices g) = true ->
    P g -> P (after_decompose_one dimension index layer g).
Hypothesis P_hypothesis :
  forall number index vh layer g,
    JsMap.get (hypothesis_layer g) (layers g) = Some layer ->
    JsMap.has ("2." ++ number)%string (vertices g) = true ->
    P g -> P (after_hypothesis_one ("2." ++ number)%string number index vh layer g).
Hypothesis P_stage : forall n name g, P g -> P (set_stage n name g).

Lemma decompose_one_keeps (dimension : value) (index : nat) (g : graph) :
  P g /\ JsMap.has "base" (layers g) = true /\ JsMap.has "n0" (vertices g) = true ->
  let g' := fst (decompose_one dimension index g) in
  P g' /\ JsMap.has "base" (layers g') = true /\ JsMap.has "n0" (vertices g') = true.
Proof.
  intros (Hp & Hb & Hn). cbv zeta.
  destruct (Js.printable dimension) eqn:Hprint.
  2:{ rewrite decompose_one_cases, Hprint. cbn [fst]. auto. }
  pose proof Hb as Hb'. unfold JsMap.has in Hb'.
  destruct (JsMap.get "base" (layers g)) as [layer|] eqn:Hl; [|discriminate].
  rewrite (decompose_one_eq dimension index layer g Hprint Hl). cbn [fst].
  split; [now apply P_dimension|].
  unfold after_decompose_one. cbn [layers vertices].
  rewrite !has_set, Hb, Hn. now rewrite !orb_true_r.
Qed.

Lemma hypothesis_one_keeps (number : string) (h : value) (index : nat) (g : graph) :
  P g /\ JsMap.has "base" (layers g) = true
  /\ JsMap.has ("2." ++ number)%string (vertices g) = true ->
  let g' := fst (hypothesis_one ("2." ++ number)%string number h index g) in
  P g' /\ JsMap.has "base" (layers g') = true
  /\ JsMap.has ("2." ++ number)%string (vertices g') = true.
Proof.
  intros (Hp & Hb & Hn). cbv zeta.
  destruct (_validateHypothesis h index) as [vh|e] eqn:Hv.
  2:{ destruct (hypothesis_one_cases ("2." ++ number) number h index g) as [_ Hc].
      cbv zeta in Hc. rewrite Hv in Hc. rewrite Hc. cbn [fst]. auto. }
  assert (Hhl : JsMap.has (hypothesis_layer g) (layers g) = true).
  { unfold hypothesis_layer.
    destruct (JsMap.has "theoretical" (layers g)) eqn:Ht; assumption. }
  unfold JsMap.has in Hhl.
  destruct (JsMap.get (hypothesis_layer g) (layers g)) as [layer|] eqn:Hl;
    [|discriminate].
  rewrite (hypothesis_one_eq _ number h index vh layer g Hv Hl). cbn [fst].
  split; [now apply P_hypothesis|].
  unfold after_hypothesis_one. cbn [layers vertices].
  rewrite !has_set, Hb, Hn. now rewrite !orb_true_r.
Qed.

Lemma reachable_invariant (g : graph) : reachable g -> P g.
Proof.
  induction 1 as [config g Hnew|o g Hr IH]; [exact (P_new _ _ Hnew)|].
  destruct (reachable_shape g Hr) as [Hshape0 Hshape1].
  destruct o as [t c cfg|dims|d hs cfg| |f]; cbn [run]; auto.
  - destruct (initialize_shape t c cfg g (fun Hs => proj1 (Hshape0 Hs)))
      as [(_ & ->)|(_ & Hs & dd & conf & sc & layer & _ & _ & _ & Hl & ->)].
    + now apply P_reset.
    + destruct (Hshape0 Hs) as [Hv He]. now apply P_root.
  - destruct (decomposeTask_graph dims g) as [->|(Hs & taskDimensions & Hg)];
      [exact IH|].
    cbv zeta in Hg.
    assert (Hloop :
      let g' := fst (decompose_each taskDimensions 0 g) in
      P g' /\ JsMap.has "base" (layers g') = true
      /\ JsMap.has "n0" (vertices g') = true).
    { apply (decompose_each_invariant
               (fun g => P g /\ JsMap.has "base" (layers g) = true
                         /\ JsMap.has "n0" (vertices g) = true)).
      - intros dimension index g0. apply decompose_one_keeps.
      - split; [exact IH|]. split.
        + apply reachable_base; [exact Hr|lia].
        + apply Hshape1. lia. }
    cbv zeta in Hloop. destruct Hloop as (Hp & _).
    destruct Hg as [->| ->]; [exact Hp|now apply P_stage].
  - destruct (generateHypotheses_graph d hs cfg g)
      as [->|(id & number & items & Hchecks & Hg)]; [exact IH|].
    cbv zeta in Hg.
    destruct (hypotheses_checks_inv _ _ _ _ _ _ Hchecks)
      as (Hs & _ & -> & (node & Hget & _) & _).
    assert (Hloop :
      let g' := fst (hypothesis_each ("2." ++ number)%string number
                       (firstn (limit_of cfg) items) 0 g) in
      P g' /\ JsMap.has "base" (layers g') = true
      /\ JsMap.has ("2." ++ number)%string (vertices g') = true).
    { apply (hypothesis_each_invariant
               (fun g => P g /\ JsMap.has "base" (layers g) = true
                         /\ JsMap.has ("2." ++ number)%string (vertices g) = true)).
      - intros h index g0. apply hypothesis_one_keeps.
      - split; [exact IH|]. split.
        + apply reachable_base; [exact Hr|lia].
        + unfold JsMap.has. now rewrite Hget. }
    cbv zeta in Hloop. destruct Hloop as (Hp & _).
    destruct Hg as [->| ->]; [exact Hp|now apply P_stage].
Qed.

End Invariant.

(** ** What [generateHypotheses] creates *)

Lemma hypothesis_id_inj (number : string) (a b : nat) :
  hypothesis_id number a = hypothesis_id number b -> a = b.
Proof.
  unfold hypothesis_id. intros H.
  apply (append_inj_l "3.") in H. apply append_inj_l in H.
  apply (append_inj_l ".") in H. apply of_nat_inj in H. lia.
Qed.

Lemma accepted_items_positions (hypotheses : list value) :
  forall index entry,
    In entry (accepted_items index hypotheses) ->
    (index <= fst entry < index + List.length hypotheses)%nat.
Proof.
  induction hypotheses as [|h rest IH]; intros index entry; cbn; [tauto|].
  destruct (_validateHypothesis h index).
  - intros [<-|H]; [cbn; lia|]. apply IH in H. lia.
  - intros H. apply IH in H. lia.
Qed.

Lemma accepted_items_length (hypotheses : list value) :
  forall index,
    (List.length (accepted_items index hypotheses) <= List.length hypotheses)%nat.
Proof.
  induction hypotheses as [|h rest IH]; intros index; cbn; [lia|].
  specialize (IH (S index)).
  destruct (_validateHypothesis h index); cbn; lia.
Qed.

Lemma hypothesis_each_exact (d number : string) (hypotheses : list value) :
  forall (index : nat) (g : graph),
  JsMap.has "base" (layers g) = true ->
  (forall j, (index <= j)%nat ->
             JsMap.has (hypothesis_id number j) (vertices g) = false
             /\ JsMap.has ("e_" ++ d ++ "_" ++ hypothesis_id number j) (edges g)
                = false) ->
  exists g' errors,
    hypothesis_each d number hypotheses index g
    = (g', (map (fun entry => hypothesis_id number (fst entry))
              (accepted_items index hypotheses), errors))
    /\ vertices g'
       = vertices g ++ map (hypothesis_vertex number) (accepted_items index hypotheses)
    /\ edges g'
       = edges g ++ map (hypothesis_link d number) (accepted_items index hypotheses)
    /\ currentStage g' = currentStage g
    /\ (accepted_items index hypotheses = [] -> g' = g).
Proof.
  induction hypotheses as [|h rest IH]; intros index g Hb Hfresh.
  - exists g, []. cbn. now rewrite !app_nil_r.
  - cbn [hypothesis_each accepted_items].
    destruct (_validateHypothesis h index) as [vh|e] eqn:Hv.
    + assert (Hhl : JsMap.has (hypothesis_layer g) (layers g) = true).
      { unfold hypothesis_layer.
        destruct (JsMap.has "theoretical" (layers g)) eqn:Ht; assumption. }
      unfold JsMap.has in Hhl.
      destruct (JsMap.get (hypothesis_layer g) (layers g)) as [layer|] eqn:Hl;
        [|discriminate].
      rewrite (hypothesis_one_eq d number h index vh layer g Hv Hl).
      set (g1 := after_hypothesis_one d number index vh layer g).
      destruct (Hfresh index (le_n _)) as [Hvf Hef].
      assert (Hv1 : vertices g1 = vertices g ++ [hypothesis_vertex number (index, vh)]).
      { subst g1. cbn. now apply set_fresh. }
      assert (He1 : edges g1 = edges g ++ [hypothesis_link d number (index, vh)]).
      { subst g1. cbn. now apply set_fresh. }
      assert (Hb1 : JsMap.has "base" (layers g1) = true).
      { subst g1. cbn. rewrite has_set, Hb. apply orb_true_r. }
      destruct (IH (S index) g1 Hb1) as (g' & errors & -> & Hv' & He' & Hs' & _).
      { intros j Hj. destruct (Hfresh j) as [Hvj Hej]; [lia|].
        rewrite Hv1, He1. unfold hypothesis_vertex, hypothesis_link. cbn [fst snd].
        rewrite !has_app_one, Hvj, Hej. cbn [orb]. split.
        - apply String.eqb_neq. intros H. apply hypothesis_id_inj in H. lia.
        - apply String.eqb_neq. intros H.
          apply (append_inj_l "e_") in H. apply append_inj_l in H.
          apply (append_inj_l "_"), hypothesis_id_inj in H. lia. }
      exists g', errors. cbn [map fst]. split; [reflexivity|].
      repeat split.
      * rewrite Hv', Hv1, <- app_assoc. reflexivity.
      * rewrite He', He1, <- app_assoc. reflexivity.
      * rewrite Hs'. reflexivity.
      * discriminate.
    + destruct (hypothesis_one_cases d number h index g) as [_ Hc].
      cbv zeta in Hc. rewrite Hv in Hc. rewrite Hc.
      destruct (IH (S index) g Hb) as (g' & errors & -> & Hv' & He' & Hs' & Hnil).
      { intros j Hj. apply Hfresh. lia. }
      eexists g', _. split; [reflexivity|]. auto.
Qed.

Lemma generateHypotheses_exact (d hs cfg : value) (g : graph)
    (id number : string) (items : list value) :
  JsMap.has "base" (layers g) = true ->
  hypotheses_checks d hs g = Ok (id, number, items) ->
  (forall j, JsMap.has (hypothesis_id number j) (vertices g) = false
             /\ JsMap.has ("e_" ++ id ++ "_" ++ hypothesis_id number j) (edges g)
                = false) ->
  let created := accepted_items 0 (firstn (limit_of cfg) items) in
  exists g' r,
    generateHypotheses d hs cfg g = (g', r)
    /\ vertices g' = vertices g ++ map (hypothesis_vertex number) created
    /\ edges g' = edges g ++ map (hypothesis_link id number) created
    /\ hypothesis_nodes_of r
       = map (fun entry => hypothesis_id number (fst entry)) created
    /\ match created with
       | [] => g' = g /\ hypotheses_success r = false
       | _ :: _ => currentStage g' = 3%nat /\ hypotheses_success r = true
       end.
Proof.
  intros Hb Hchecks Hfresh. cbv zeta.
  unfold generateHypotheses. rewrite generateHypotheses_body_eq, Hchecks.
  unfold hypotheses_commit. fold (limit_of cfg).
  destruct (hypothesis_each_exact id number (firstn (limit_of cfg) items) 0 g Hb)
    as (g' & errors & -> & Hv & He & Hs & Hnil); [intros j _; apply Hfresh|].
  rewrite length_map.
  destruct (accepted_items 0 (firstn (limit_of cfg) items)) as [|entry rest].
  - cbn. eexists _, _. split; [reflexivity|]. cbn. repeat split; auto.
  - cbn [List.length Nat.eqb]. run_M.
    eexists _, _. split; [reflexivity|]. cbn. repeat split; auto.
Qed.

(** A failing [generateHypotheses] leaves a graph with a base layer as it
    was. *)
Lemma generateHypotheses_failed (d hs cfg : value) (g : graph) :
  JsMap.has "base" (layers g) = true ->
  hypotheses_success (snd (generateHypotheses d hs cfg g)) = false ->
  fst (generateHypotheses d hs cfg g) = g.
Proof.
  intros Hb. unfold generateHypotheses. rewrite generateHypotheses_body_eq.
  destruct (hypotheses_checks d hs g) as [[[id number] items]|e]; [|reflexivity].
  unfold hypotheses_commit.
  pose proof (hypothesis_each_counts id number
                (firstn (maxHypotheses_of (_validateHypothesisConfig
                                             (config_or_default cfg))) items)
                0 g Hb) as H.
  destruct (hypothesis_each id number _ 0 g) as [g' [nodes errors]].
  destruct H as (_ & _ & Hg).
  destruct (List.length nodes =? 0)%nat eqn:Hn; cbn; [|discriminate].
  intros _. apply Hg. now apply Nat.eqb_eq.
Qed.

(** ** The graphs an instance can hold *)

Lemma keys_dimension_vertices (start : nat) (names : list value) (k : string) :
  In k (JsMap.keys (map dimension_vertex (indexed start names))) ->
  exists i, k = dimension_id i /\ (start <= i < start + List.length names)%nat.
Proof.
  unfold JsMap.keys. rewrite map_map. intros H.
  apply in_map_iff in H as ([i name] & <- & Hin).
  exists i. split; [reflexivity|].
  apply in_combine_l, in_seq in Hin. exact Hin.
Qed.

Lemma keys_dimension_edges (start : nat) (names : list value) (k : string) :
  In k (JsMap.keys (map dimension_edge (indexed start names))) ->
  exists i, k = ("e_n0_" ++ dimension_id i)%string
            /\ (start <= i < start + List.length names)%nat.
Proof.
  unfold JsMap.keys. rewrite map_map. intros H.
  apply in_map_iff in H as ([i name] & <- & Hin).
  exists i. split; [reflexivity|].
  apply in_combine_l, in_seq in Hin. exact Hin.
Qed.

(** No hypothesis id and no hypothesis edge id is in use in a decomposed
    graph. *)
Lemma hypothesis_ids_fresh (root : Node.t) (names : list value)
    (number : string) (j : nat) :
  JsMap.has (hypothesis_id number j)
    (("n0", root) :: map dimension_vertex (indexed 0 names)) = false
  /\ JsMap.has ("e_" ++ ("2." ++ number) ++ "_" ++ hypothesis_id number j)
       (map dimension_edge (indexed 0 names)) = false.
Proof.
  split.
  - destruct (JsMap.has _ _) eqn:H; [|reflexivity].
    apply has_In_keys in H. cbn [JsMap.keys map fst] in H.
    destruct H as [H|H]; [discriminate H|].
    apply keys_dimension_vertices in H as (i & H & _). discriminate H.
  - destruct (JsMap.has _ _) eqn:H; [|reflexivity].
    apply has_In_keys in H.
    apply keys_dimension_edges in H as (i & H & _). discriminate H.
Qed.

Lemma firstn_length_le {A : Type} (n : nat) (l : list A) :
  (List.length (firstn n l) <= List.length l)%nat.
Proof. rewrite length_firstn. lia. Qed.

Lemma overwritten_printable (new old : list value) :
  forallb Js.printable new = true ->
  forallb Js.printable old = true ->
  forallb Js.printable (overwritten new old) = true.
Proof.
  intros Hn Ho. unfold overwritten. rewrite forallb_app, Hn. cbn [andb].
  apply forallb_forall. intros x Hx.
  rewrite forallb_forall in Ho. apply Ho.
  rewrite <- (firstn_skipn (List.length new) old). apply in_or_app. now right.
Qed.

(** [decomposeTask] keeps the form of cursor 1, or moves to the form of
    cursor 2. *)
Lemma decomposeTask_keeps_form (dims : value) (g : graph)
    (content : string) (conf : list float) (sc : safe_config) (names : list value) :
  currentStage g = 1%nat ->
  JsMap.has "base" (layers g) = true ->
  forallb Js.printable names = true ->
  vertices g
  = ("n0", root_node content conf sc) :: map dimension_vertex (indexed 0 names) ->
  edges g = map dimension_edge (indexed 0 names) ->
  graph_form (fst (decomposeTask dims g)).
Proof.
  intros Hs Hb Hp Hv He.
  pose proof (decomposeTask_form dims g _ names Hs Hb Hv He) as H.
  destruct (taskDimensions_of dims) as [taskDimensions|e].
  2:{ rewrite H. now apply (form_initialized _ content conf sc names). }
  cbv zeta in H. destruct H as (g' & Hv' & He' & H).
  assert (Hp' : forallb Js.printable
                  (overwritten (stored_entries taskDimensions) names) = true)
    by (apply overwritten_printable; [apply stored_entries_printable|exact Hp]).
  destruct (forallb Js.printable taskDimensions).
  - destruct H as (Hst & r & -> & _). cbn [fst].
    now apply (form_decomposed _ content conf sc
                 (overwritten (stored_entries taskDimensions) names)).
  - destruct H as (Hst & ->). cbn [fst].
    now apply (form_initialized _ content conf sc
                 (overwritten (stored_entries taskDimensions) names)).
Qed.

Lemma reachable_form (g : graph) : reachable g -> graph_form g.
Proof.
  induction 1 as [config g Hnew|o g Hr IH].
  - apply new_graph_empty in Hnew as (Hs & Hv & He). now apply form_new.
  - destruct o as [t c cfg|dims|d hs cfg| |f]; cbn [run]; auto.
    + destruct (initialize_shape t c cfg g)
        as [(_ & ->)|(_ & Hs & content & conf & sc & layer & _ & _ & _ & _ & ->)].
      * intros Hs. destruct IH; congruence.
      * destruct (reset_empty g) as (Hv & He & _ & _ & Hs & _). now apply form_new.
      * apply (form_initialized _ content conf sc []); [reflexivity|reflexivity| |].
        -- cbn. destruct IH; try congruence.
           match goal with H : vertices g = [] |- _ => now rewrite H end.
        -- cbn. destruct IH; congruence.
    + destruct (Nat.eq_dec (currentStage g) 1) as [Hs|Hs].
      2:{ now rewrite (decomposeTask_wrong_stage _ _ Hs). }
      destruct IH as [Hs0|content conf sc names _ Hp Hv He|? ? ? ? Hs2|? ? ? ? ? ? Hs3];
        try congruence.
      apply (decomposeTask_keeps_form dims g content conf sc names);
        try assumption.
      apply reachable_base; [assumption|congruence].
    + destruct (Nat.eq_dec (currentStage g) 2) as [Hs|Hs].
      2:{ now rewrite (generateHypotheses_wrong_stage _ _ _ _ Hs). }
      assert (Hb : JsMap.has "base" (layers g) = true).
      { apply reachable_base; [assumption|congruence]. }
      destruct (hypotheses_success (snd (generateHypotheses d hs cfg g))) eqn:Hok.
      2:{ now rewrite (generateHypotheses_failed _ _ _ _ Hb Hok). }
      destruct IH as [Hs0|? ? ? ? Hs1|content conf sc names _ Hp Hv He|? ? ? ? ? ? Hs3];
        try congruence.
      destruct (hypotheses_checks d hs g) as [[[id number] items]|e] eqn:Hchecks.
      2:{ unfold generateHypotheses in Hok.
          rewrite generateHypotheses_body_eq, Hchecks in Hok. discriminate Hok. }
      destruct (hypotheses_checks_inv _ _ _ _ _ _ Hchecks)
        as (_ & _ & -> & (node & Hget & _) & Hitems).
      assert (Ha : exists a, number = Str.of_nat (a + 1)
                             /\ (a < List.length names)%nat).
      { apply get_In, (in_map fst) in Hget. rewrite Hv in Hget.
        cbn [map fst] in Hget. destruct Hget as [Hget|Hget]; [discriminate Hget|].
        apply keys_dimension_vertices in Hget as (a & Hid & Ha).
        exists a. split; [|lia].
        unfold dimension_id in Hid. now apply (append_inj_l "2.") in Hid. }
      destruct Ha as (a & -> & Ha).
      destruct (generateHypotheses_exact d hs cfg g _ _ _ Hb Hchecks)
        as (g' & r & Hrun & Hv' & He' & _ & Hcase).
      { intros j. rewrite Hv, He. apply hypothesis_ids_fresh. }
      rewrite Hrun in *. cbn [fst snd] in *.
      destruct (accepted_items 0 (firstn (limit_of cfg) items)) as [|e0 rest] eqn:Hacc.
      { destruct Hcase as [_ Hcase]. congruence. }
      destruct Hcase as [Hst _].
      apply (form_hypotheses _ content conf sc names a (firstn (limit_of cfg) items));
        try assumption.
      * pose proof (limit_le_5 cfg). rewrite length_firstn. lia.
      * rewrite Hacc. discriminate.
      * rewrite Hv', Hv, Hacc. reflexivity.
      * rewrite He', He, Hacc. reflexivity.
Qed.

Lemma indexed_length {A : Type} (start : nat) (names : list A) :
  List.length (indexed start names) = List.length names.
Proof. unfold indexed. rewrite length_combine, length_seq. lia. Qed.

Lemma indexed_In {A : Type} (names : list A) :
  forall start a,
    (a < List.length names)%nat ->
    exists name, In ((start + a)%nat, name) (indexed start names).
Proof.
  unfold indexed.
  induction names as [|name rest IH]; intros start a Ha; cbn in *; [lia|].
  destruct a as [|a].
  - exists name. left. f_equal. lia.
  - destruct (IH (S start) a) as (name' & Hin); [lia|].
    exists name'. right. now replace (start + S a)%nat with (S start + a)%nat by lia.
Qed.

(** X3.  The vertex and edge maps of an instance have one of these forms,
    by the value of the cursor: nothing at 0; from 1 on the root followed
    by dimension nodes [2.1] to [2.n] in order, each the node of an entry
    that has a string, with the edge from the root to each ([n] is 0
    after [initialize]; a [decomposeTask] that threw in its loop leaves
    the cursor at 1 with the nodes it stored); at 3 these followed by the
    hypothesis nodes of the accepted items of one collection of at most
    five, under one dimension [2.a], with the edge from that dimension
    node to each. *)
Theorem instance_graph_forms (g : graph) : reachable g -> graph_form g.
Proof. exact (reachable_form g). Qed.

(** X3, witness: the scenario after its decomposition. *)
Lemma instance_graph_forms_witness : graph_form decomposed_graph.
Proof. exact (instance_graph_forms decomposed_graph decomposed_graph_reachable). Defined.

(** X2.  What [decomposeTask] does on an instance at cursor 1.  The maps
    of the instance hold the root followed by the dimension nodes of the
    earlier loops (none after [initialize]).  The dimensions are the seven
    default names when the argument is falsy and the entries of the
    argument when it is an array; any other argument makes the method
    throw with the graph untouched.  The loop stores the entries in
    order, entry [i] as node [2.i] with its edge [e_n0_2.i], over the
    node that was there, and stops at the first entry that has no string,
    where it throws a [TypeError] with the cursor still at 1 and the
    nodes of the entries before it stored.  When every entry has a
    string, the method returns the ids [2.1] to [2.n] in order, echoes
    the dimensions and sets the cursor to 2. *)
Theorem decomposeTask_effect (dims : value) (g : graph) :
  reachable g ->
  currentStage g = 1%nat ->
  exists (root : Node.t) (old : list value),
    Node.type root = "root"
    /\ forallb Js.printable old = true
    /\ vertices g = ("n0", root) :: map dimension_vertex (indexed 0 old)
    /\ edges g = map dimension_edge (indexed 0 old)
    /\ match taskDimensions_of dims with
       | Throw e => decomposeTask dims g = (g, Throw e)
       | Ok taskDimensions =>
           let now := overwritten (stored_entries taskDimensions) old in
           exists g',
             vertices g' = ("n0", root) :: map dimension_vertex (indexed 0 now)
             /\ edges g' = map dimension_edge (indexed 0 now)
             /\ if forallb Js.printable taskDimensions then
                  currentStage g' = 2%nat
                  /\ exists r,
                      decomposeTask dims g = (g', Ok r)
                      /\ dr_success r = true
                      /\ dr_dimension_nodes r
                         = map dimension_id (seq 0 (List.length taskDimensions))
                      /\ dr_dimensions r = taskDimensions
                      /\ dr_current_stage r = 2%nat
                else
                  currentStage g' = 1%nat
                  /\ decomposeTask dims g
                     = (g', Throw (TypeError
                                     "Cannot convert object to primitive value"))
       end.
Proof.
  intros Hr Hs.
  destruct (reachable_form g Hr)
    as [Hs0|content conf sc old _ Hp Hv He|? ? ? ? Hs2|? ? ? ? ? ? Hs3];
    try congruence.
  exists (root_node content conf sc), old.
  split; [reflexivity|]. split; [exact Hp|]. split; [exact Hv|]. split; [exact He|].
  apply decomposeTask_form; try assumption.
  apply reachable_base; [assumption|congruence].
Qed.

(** X2, witness: on the initialized scenario, a first call whose third
    dimension has no string throws and leaves the nodes [2.1] and [2.2]
    at cursor 1. *)
Lemma decomposeTask_effect_witness :
  let dims := VArr [VStr "Scope"; VBool true; VObj [("toString", VNum 1)]] in
  exists g',
    decomposeTask dims initialized_graph
    = (g', Throw (TypeError "Cannot convert object to primitive value"))
    /\ currentStage g' = 1%nat
    /\ map (fun kn => (fst kn, Node.label (snd kn),
                       Meta.disciplinary_tags (Node.metadata (snd kn))))
         (vertices g')
       = [("n0", VStr "Task Understanding", ["immunology"; "dermatology"]);
          ("2.1", VStr "Scope", ["methodology"; "research_design"]);
          ("2.2", VBool true, ["general"])]
    /\ JsMap.keys (edges g') = ["e_n0_2.1"; "e_n0_2.2"].
Proof.
  cbv zeta.
  destruct (decomposeTask_effect
              (VArr [VStr "Scope"; VBool true; VObj [("toString", VNum 1)]])
              initialized_graph initialized_graph_reachable eq_refl)
    as (root & old & _ & _ & Hv & _ & g' & Hv' & He' & Hst & Hrun).
  assert (Hold : old = [] /\ root = root_node
                   "Investigate the role of skin microbiome in disease"
                   [0.8; 0.7; 0.9; 0.6] no_config).
  { destruct old; [|discriminate Hv]. split; [reflexivity|].
    vm_compute in Hv. injection Hv as <-. reflexivity. }
  destruct Hold as [-> ->].
  exists g'. split; [exact Hrun|]. split; [exact Hst|].
  rewrite Hv', He'. split; vm_compute; reflexivity.
Defined.

(** X4.  Once an instance is initialized its graph is a tree as far as the
    counts go: the summary reports one edge less than vertices.  Before,
    it reports no vertex and no edge. *)
Theorem summary_counts_tree (g : graph) :
  reachable g ->
  let state := Summary.state (getGraphSummary g) in
  if (currentStage g =? 0)%nat
  then Summary.vertices_count state = 0%nat /\ Summary.edges_count state = 0%nat
  else Summary.vertices_count state = S (Summary.edges_count state).
Proof.
  intros Hr. cbv zeta. cbn [getGraphSummary Summary.state Summary.vertices_count
                            Summary.edges_count]. unfold JsMap.size.
  destruct (reachable_form g Hr) as [Hs Hv He|? ? ? ? Hs _ Hv He|? ? ? ? Hs _ Hv He
                                    |? ? ? ? ? ? Hs _ _ _ _ Hv He];
    rewrite Hs, Hv, He; cbn [Nat.eqb List.length]; auto.
  - now rewrite !length_map.
  - now rewrite !length_map.
  - now rewrite !length_app, !length_map.
Qed.

(** X4, witness: the decomposed scenario has 8 vertices and 7 edges. *)
Lemma summary_counts_tree_witness :
  Summary.vertices_count (Summary.state (getGraphSummary decomposed_graph))
  = S (Summary.edges_count (Summary.state (getGraphSummary decomposed_graph))).
Proof. exact (summary_counts_tree decomposed_graph decomposed_graph_reachable). Defined.

Lemma form_vertices (g : graph) :
  graph_form g ->
  forall k n, In (k, n) (vertices g) ->
    Node.node_id n = k /\ Meta.node_id (Node.metadata n) = k /\ vertex_kind k n.
Proof.
  assert (Hroot : forall content conf sc k n,
             ("n0", root_node content conf sc) = (k, n) ->
             Node.node_id n = k /\ Meta.node_id (Node.metadata n) = k
             /\ vertex_kind k n).
  { intros content conf sc k n [= <- <-]. repeat split. left. repeat split. }
  assert (Hdim : forall names k n,
             In (k, n) (map dimension_vertex (indexed 0 names)) ->
             Node.node_id n = k /\ Meta.node_id (Node.metadata n) = k
             /\ vertex_kind k n).
  { intros names k n H. apply in_map_iff in H as ([i name] & [= <- <-] & _).
    repeat split. right. left. exists i. repeat split. }
  intros [Hs Hv He|? ? ? ? Hs _ Hv He|? ? ? ? Hs _ Hv He
         |? ? ? ? a ? Hs _ _ _ _ Hv He] k n Hin;
    rewrite Hv in Hin.
  - destruct Hin.
  - destruct Hin as [Hin|Hin]; [eapply Hroot, Hin|eapply Hdim, Hin].
  - destruct Hin as [Hin|Hin]; [eapply Hroot, Hin|eapply Hdim, Hin].
  - destruct Hin as [Hin|Hin]; [eapply Hroot, Hin|].
    apply in_app_or in Hin as [Hin|Hin]; [eapply Hdim, Hin|].
    apply in_map_iff in Hin as ([i vh] & [= <- <-] & _).
    repeat split. right. right. exists a, i. repeat split.
Qed.

(** X5.  Every vertex of an instance is stored under its own id: the key,
    the node's [node_id] and the [node_id] of its metadata agree, and no
    two vertices share an id.  The id tells the kind and the layer: [n0]
    is the root and [2.i] a dimension node, both of the base layer;
    [3.a.i] is a hypothesis node of the theoretical layer. *)
Theorem vertices_well_formed (g : graph) :
  reachable g ->
  NoDup (JsMap.keys (vertices g))
  /\ forall k n, In (k, n) (vertices g) ->
       Node.node_id n = k /\ Meta.node_id (Node.metadata n) = k /\ vertex_kind k n.
Proof.
  intros Hr. split.
  - apply vertices_invariant, Hr.
  - apply form_vertices, reachable_form, Hr.
Qed.

(** X5, witness: the first dimension node of the decomposed scenario. *)
Lemma vertices_well_formed_witness :
  Node.node_id (stored_dimension_node "2.1" (VStr "Scope")) = "2.1"
  /\ Meta.node_id (Node.metadata (stored_dimension_node "2.1" (VStr "Scope"))) = "2.1"
  /\ vertex_kind "2.1" (stored_dimension_node "2.1" (VStr "Scope")).
Proof.
  refine (proj2 (vertices_well_formed decomposed_graph decomposed_graph_reachable)
            "2.1" (stored_dimension_node "2.1" (VStr "Scope")) _).
  vm_compute. right. left. reflexivity.
Defined.

(** X6.  No edge of an instance dangles.  Every edge is stored under its
    own id, which is [e_<source>_<target>]; its two ends are vertices of
    the graph; and it goes from the root to a dimension node or from a
    dimension node to a hypothesis node. *)
Theorem edges_well_formed (g : graph) :
  reachable g ->
  forall k e, In (k, e) (edges g) ->
    Edge.edge_id e = k
    /\ EdgeMeta.edge_id (Edge.metadata e) = k
    /\ k = ("e_" ++ Edge.source e ++ "_" ++ Edge.target e)%string
    /\ tree_edge g e.
Proof.
  intros Hr k e Hin.
  pose proof (proj1 (vertices_invariant g Hr)) as Hnd.
  assert (Hdim : forall content conf sc names,
             vertices g = ("n0", root_node content conf sc)
                            :: map dimension_vertex (indexed 0 names)
                          \/ (exists rest,
                                 vertices g = ("n0", root_node content conf sc)
                                   :: map dimension_vertex (indexed 0 names) ++ rest) ->
             In (k, e) (map dimension_edge (indexed 0 names)) ->
             Edge.edge_id e = k
             /\ EdgeMeta.edge_id (Edge.metadata e) = k
             /\ k = ("e_" ++ Edge.source e ++ "_" ++ Edge.target e)%string
             /\ tree_edge g e).
  { intros content conf sc names Hv H.
    apply in_map_iff in H as ([i name] & [= <- <-] & Hi).
    repeat split.
    exists (root_node content conf sc),
      (stored_dimension_node (dimension_id i) name).
    cbn [decomposition_edge Edge.source Edge.target Edge.metadata fst snd].
    split; [|split; [|left; repeat split]].
    - destruct Hv as [->|(rest & ->)]; reflexivity.
    - apply In_get; [exact Hnd|].
      destruct Hv as [->|(rest & ->)]; right; [|apply in_or_app; left];
        apply in_map_iff; now exists (i, name). }
  destruct (reachable_form g Hr) as [Hs Hv He|? ? ? names Hs _ Hv He
                                    |? ? ? names Hs _ Hv He
                                    |? ? ? names a ? Hs _ Ha _ _ Hv He];
    rewrite He in Hin.
  - destruct Hin.
  - eapply Hdim; [left; exact Hv|exact Hin].
  - eapply Hdim; [left; exact Hv|exact Hin].
  - apply in_app_or in Hin as [Hin|Hin].
    { eapply Hdim; [right; eexists; exact Hv|exact Hin]. }
    apply in_map_iff in Hin as ([i vh] & [= <- <-] & Hi).
    repeat split.
    destruct (indexed_In names 0 a Ha) as (name & Hname). cbn [Nat.add] in Hname.
    exists (stored_dimension_node (dimension_id a) name),
      (hypothesis_node (hypothesis_id (Str.of_nat (a + 1)) i) (Str.of_nat (a + 1)) i vh).
    cbn [hypothesis_edge Edge.source Edge.target Edge.metadata fst snd].
    split; [|split; [|right; repeat split]].
    + apply In_get; [exact Hnd|]. rewrite Hv. right. apply in_or_app. left.
      apply in_map_iff. now exists (a, name).
    + apply In_get; [exact Hnd|]. rewrite Hv. right. apply in_or_app. right.
      apply in_map_iff. now exists (i, vh).
Qed.

(** X6, witness: the edge to the first dimension of the decomposed
    scenario. *)
Lemma edges_well_formed_witness :
  Edge.edge_id (decomposition_edge "2.1") = "e_n0_2.1"
  /\ EdgeMeta.edge_id (Edge.metadata (decomposition_edge "2.1")) = "e_n0_2.1"
  /\ "e_n0_2.1"
     = ("e_" ++ Edge.source (decomposition_edge "2.1") ++ "_"
          ++ Edge.target (decomposition_edge "2.1"))%string
  /\ tree_edge decomposed_graph (decomposition_edge "2.1").
Proof.
  refine (edges_well_formed decomposed_graph decomposed_graph_reachable
            "e_n0_2.1" (decomposition_edge "2.1") _).
  vm_compute. left. reflexivity.
Defined.

Lemma all_digits_of_uint (d : Decimal.uint) :
  Str.all_digits (NilEmpty.string_of_uint d) = true.
Proof. induction d; cbn; auto. Qed.

Lemma of_nat_nonempty (n : nat) : Str.of_nat (n + 1) <> "".
Proof.
  unfold Str.of_nat. intros H.
  apply (f_equal NilEmpty.uint_of_string) in H. rewrite NilEmpty.usu in H.
  cbn in H. injection H as H.
  apply (f_equal Nat.of_uint) in H. rewrite DecimalNat.Unsigned.of_to in H.
  cbn in H. lia.
Qed.

Lemma dimension_id_format (a : nat) : is_dimension_id_format (dimension_id a) = true.
Proof.
  unfold dimension_id. cbn.
  destruct (String.eqb_spec (Str.of_nat (a + 1)) "") as [H|_].
  - now apply of_nat_nonempty in H.
  - apply all_digits_of_uint.
Qed.

(** X7.  On an instance at cursor 2, [generateHypotheses] for an existing
    dimension [2.(a+1)] and a collection of 3 to 5 items creates one node
    for each item that [_validateHypothesis] accepts among the first
    [limit] ones and nothing else (an item with a tag or an attribution
    that has no string is not accepted):
    the node of the item at 0-based position [i] gets the id
    [3.(a+1).(i+1)], so a rejected item leaves a gap in the numbering; the
    nodes and their edges from the dimension node are appended in order.
    With at least one accepted item the cursor moves to 3; with none the
    call fails and the graph is unchanged. *)
Theorem generateHypotheses_effect (a : nat) (items : list value) (cfg : value)
    (g : graph) :
  reachable g ->
  currentStage g = 2%nat ->
  JsMap.has (dimension_id a) (vertices g) = true ->
  valid_collection (VArr items) = true ->
  let number := Str.of_nat (a + 1) in
  let created := accepted_items 0 (firstn (limit_of cfg) items) in
  exists g' r,
    generateHypotheses (VStr (dimension_id a)) (VArr items) cfg g = (g', r)
    /\ hypothesis_nodes_of r
       = map (fun entry => hypothesis_id number (fst entry)) created
    /\ vertices g' = vertices g ++ map (hypothesis_vertex number) created
    /\ edges g' = edges g ++ map (hypothesis_link (dimension_id a) number) created
    /\ match created with
       | [] => g' = g /\ hypotheses_success r = false
       | _ :: _ => currentStage g' = 3%nat /\ hypotheses_success r = true
       end.
Proof.
  intros Hr Hs Hhas Hvalid. cbv zeta.
  assert (Hb : JsMap.has "base" (layers g) = true).
  { apply reachable_base; [assumption|congruence]. }
  pose proof Hhas as Hget. unfold JsMap.has in Hget.
  destruct (JsMap.get (dimension_id a) (vertices g)) as [node|] eqn:Hnode;
    [clear Hget|discriminate].
  assert (Hty : Node.type node = "dimension").
  { destruct (form_vertices g (reachable_form g Hr) _ _ (get_In _ _ _ Hnode))
      as (_ & _ & [(H & _)|[(i & _ & H & _)|(b & i & H & _)]]);
      [discriminate H|exact H|discriminate H]. }
  destruct (checks_ok (dimension_id a) items node g Hs (dimension_id_format a)
              Hnode Hty Hvalid) as (number & Hid & Hchecks).
  apply (append_inj_l "2.") in Hid. subst number.
  destruct (generateHypotheses_exact _ _ cfg g _ _ _ Hb Hchecks)
    as (g' & r & Hrun & Hv & He & Hnodes & Hcase).
  { intros j.
    destruct (reachable_form g Hr)
      as [Hs0|? ? ? ? Hs1|? ? ? names _ _ Hv He|? ? ? ? ? ? Hs3];
      try congruence.
    rewrite Hv, He. apply hypothesis_ids_fresh. }
  exists g', r. auto.
Qed.

(** X7, witness: four items on the first dimension of the decomposed
    scenario, the second one blank and the third with a tag that has no
    string: the ids are [3.1.1] and [3.1.4]. *)
Lemma generateHypotheses_effect_witness :
  exists g' r,
    generateHypotheses (VStr "2.1")
      (VArr [VStr "Skin bacteria modulate inflammation"; VStr "   ";
             item_with_unprintable_tag; VStr "Dysbiosis precedes flares"])
      VUndefined decomposed_graph
    = (g', r)
    /\ hypothesis_nodes_of r = ["3.1.1"; "3.1.4"]
    /\ currentStage g' = 3%nat
    /\ hypotheses_success r = true.
Proof.
  destruct (generateHypotheses_effect 0
              [VStr "Skin bacteria modulate inflammation"; VStr "   ";
               item_with_unprintable_tag; VStr "Dysbiosis precedes flares"]
              VUndefined decomposed_graph
              decomposed_graph_reachable eq_refl eq_refl eq_refl)
    as (g' & r & Hrun & Hnodes & _ & _ & Hst & Hok).
  exists g', r. repeat split; assumption.
Defined.

(** ** The layers *)

Lemma default_layers_shape :
  Forall2 layer_shape
    (fold_left (fun ls layer => JsMap.set (Layer.id layer) layer ls) defaultLayers [])
    defaultLayers.
Proof. cbn. repeat constructor. Qed.

Lemma shape_cleared (ls : JsMap.t Layer.t) (ds : list Layer.t) :
  Forall2 layer_shape ls ds ->
  Forall2 layer_shape (map (fun '(k, layer) => (k, Layer.cleared layer)) ls) ds.
Proof.
  induction 1 as [|[k l] d ls ds (H1 & H2 & H3 & H4 & H5 & H6) _ IH]; cbn;
    constructor; [|exact IH].
  repeat split; assumption.
Qed.

Lemma shape_set_nodes (ls : JsMap.t Layer.t) (ds : list Layer.t)
    (k : string) (layer : Layer.t) (ns : JsSet.t) :
  Forall2 layer_shape ls ds ->
  JsMap.get k ls = Some layer ->
  Forall2 layer_shape (JsMap.set k (Layer.with_nodes ns layer) ls) ds.
Proof.
  induction 1 as [|[k0 l0] d ls ds Hs Hrest IH]; cbn; [discriminate|].
  destruct (String.eqb_spec k k0) as [->|Hne].
  - intros [= ->]. constructor; [|exact Hrest].
    destruct Hs as (H1 & H2 & H3 & H4 & H5 & H6). repeat split; assumption.
  - intros Hget. constructor; [exact Hs|exact (IH Hget)].
Qed.

Lemma shape_has (ls : JsMap.t Layer.t) (k : string) :
  Forall2 layer_shape ls defaultLayers ->
  JsMap.has k ls = existsb (String.eqb k) layer_ids.
Proof.
  intros H.
  assert (Hkeys : JsMap.keys ls = layer_ids).
  { unfold JsMap.keys, layer_ids. clear k.
    induction H as [|kl d ls ds (H1 & _) _ IH]; cbn; [reflexivity|].
    now rewrite H1, IH. }
  rewrite <- Hkeys. clear. unfold JsMap.has.
  induction ls as [|[k0 l0] ls IH]; cbn; [reflexivity|].
  destruct (String.eqb k k0); [reflexivity|exact IH].
Qed.

Lemma ready_layers_shape (g : graph) :
  layers_shape g -> Forall2 layer_shape (ready_layers g) defaultLayers.
Proof.
  unfold ready_layers. intros [Hnil|Hshape].
  - rewrite Hnil. cbn [JsMap.has JsMap.get].
    unfold _initializeLayerStructure. cbn [layers set_layers]. rewrite Hnil.
    apply default_layers_shape.
  - rewrite (shape_has _ "base" Hshape). exact Hshape.
Qed.

Lemma reachable_layers_shape (g : graph) : reachable g -> layers_shape g.
Proof.
  apply reachable_invariant.
  - intros config g0. unfold new_ResearchQuestGraph.
    destruct (config_or_default config) as [| |b|x|s|items|fields];
      try discriminate; intros [= <-];
      repeat match goal with
             | |- context [match ?x with _ => _ end] => destruct x
             end;
      solve [now left | right; apply default_layers_shape].
  - intros g0 [Hnil|Hshape]; right; unfold _resetToInitialState;
      cbn [set_stage set_nodeTypes set_hyperedges set_edges set_vertices layers].
    + rewrite Hnil. cbn [JsMap.size List.length Nat.ltb Nat.leb].
      unfold _initializeLayerStructure.
      cbn [set_stage set_nodeTypes set_hyperedges set_edges set_vertices
           layers set_layers].
      rewrite Hnil. apply default_layers_shape.
    + assert (Hsize : (0 <? JsMap.size (layers g0))%nat = true).
      { apply Nat.ltb_lt. unfold JsMap.size.
        rewrite (Forall2_length Hshape). cbn. lia. }
      rewrite Hsize. unfold clear_layer_members. cbn [layers set_layers].
      now apply shape_cleared.
  - intros d conf sc layer g0 _ _ _ Hl Hg. right.
    unfold after_add_root. cbn [layers].
    apply shape_set_nodes; [|exact Hl]. now apply ready_layers_shape.
  - intros dimension index layer g0 _ Hl _ [Hnil|Hshape]; right.
    + rewrite Hnil in Hl. discriminate.
    + unfold after_decompose_one. cbn [layers]. now apply shape_set_nodes.
  - intros number index vh layer g0 Hl _ [Hnil|Hshape]; right.
    + rewrite Hnil in Hl. discriminate.
    + unfold after_hypothesis_one. cbn [layers]. now apply shape_set_nodes.
  - intros n name g0 H. exact H.
Qed.

(** X8.  An instance has no layer at all (only at cursor 0, when it was
    built with [enable_multi_layer: false]) or exactly the five default
    layers, in the order base, methodological, empirical, theoretical,
    interdisciplinary.  Each layer is stored under its own id and keeps
    the name and the description it was created with, and its two edge
    sets are always empty: no operation files an edge under a layer. *)
Theorem layers_well_formed (g : graph) :
  reachable g ->
  (layers g = [] /\ currentStage g = 0%nat)
  \/ (JsMap.keys (layers g) = layer_ids
      /\ Forall2 layer_shape (layers g) defaultLayers).
Proof.
  intros Hr. destruct (reachable_layers_shape g Hr) as [Hnil|Hshape].
  - left. split; [exact Hnil|].
    destruct (Nat.eq_dec (currentStage g) 0) as [Hs|Hs]; [exact Hs|].
    pose proof (reachable_base g Hr Hs) as Hb. rewrite Hnil in Hb. discriminate.
  - right. split; [|exact Hshape].
    unfold JsMap.keys, layer_ids.
    induction Hshape as [|kl d ls ds (H1 & _) _ IH]; cbn; [reflexivity|].
    now rewrite H1, IH.
Qed.

(** X8, witness: the five layers of the decomposed scenario. *)
Lemma layers_well_formed_witness :
  JsMap.keys (layers decomposed_graph)
  = ["base"; "methodological"; "empirical"; "theoretical"; "interdisciplinary"]
  /\ Forall2 layer_shape (layers decomposed_graph) defaultLayers.
Proof.
  destruct (layers_well_formed decomposed_graph decomposed_graph_reachable)
    as [[_ H]|H]; [discriminate H|exact H].
Defined.

Lemma has_existsb {V : Type} (m : JsMap.t V) (k : string) :
  JsMap.has k m = existsb (String.eqb k) (JsMap.keys m).
Proof.
  unfold JsMap.has. induction m as [|[k0 v0] m IH]; cbn; [reflexivity|].
  destruct (String.eqb k k0); [reflexivity|exact IH].
Qed.

Lemma existsb_filter (f : string -> bool) (k : string) (l : list string) :
  f k = true ->
  existsb (String.eqb k) (filter f l) = existsb (String.eqb k) l.
Proof.
  intros Hk. induction l as [|x l IH]; cbn; [reflexivity|].
  destruct (String.eqb_spec k x) as [<-|Hne].
  - rewrite Hk. cbn. now rewrite String.eqb_refl.
  - destruct (f x); cbn; [|exact IH].
    destruct (String.eqb_spec k x); [contradiction|exact IH].
Qed.

Lemma members_step (k L0 : string) (layer : Layer.t) (v : Node.t)
    (vs : JsMap.t Node.t) (ls : JsMap.t Layer.t) :
  layer_of_id k = L0 ->
  JsMap.get L0 ls = Some layer ->
  members_by_id vs ls ->
  members_by_id (JsMap.set k v vs)
    (JsMap.set L0 (Layer.with_nodes (JsSet.add k (Layer.nodes layer)) layer) ls).
Proof.
  intros Hk Hget HP L l Hl. rewrite keys_set.
  destruct (String.eqb_spec L L0) as [->|Hne].
  - rewrite get_set_same in Hl. injection Hl as <-.
    cbn [Layer.nodes Layer.with_nodes]. rewrite (HP _ _ Hget).
    unfold JsSet.add, JsSet.has.
    rewrite existsb_filter by (rewrite Hk; apply String.eqb_refl).
    rewrite <- has_existsb.
    destruct (JsMap.has k vs); [reflexivity|].
    rewrite filter_app. cbn. now rewrite Hk, String.eqb_refl.
  - rewrite get_set_other in Hl by assumption. rewrite (HP _ _ Hl).
    destruct (JsMap.has k vs); [reflexivity|].
    rewrite filter_app. cbn. rewrite Hk.
    destruct (String.eqb_spec L0 L); [congruence|]. now rewrite app_nil_r.
Qed.

Lemma layer_of_hypothesis_id (number : string) (index : nat) :
  layer_of_id (hypothesis_id number index) = "theoretical".
Proof.
  unfold layer_of_id, hypothesis_id, Str.startsWith. cbn.
  now destruct (number ++ String "." (Str.of_nat (index + 1)))%string.
Qed.

Lemma members_none (ls : JsMap.t Layer.t) :
  Forall (fun kl => Layer.nodes (snd kl) = []) ls -> members_by_id [] ls.
Proof.
  intros H L layer Hget. apply get_In in Hget.
  rewrite Forall_forall in H. exact (H _ Hget).
Qed.

Lemma default_layers_no_member :
  Forall (fun kl : string * Layer.t => Layer.nodes (snd kl) = [])
    (fold_left (fun ls layer => JsMap.set (Layer.id layer) layer ls) defaultLayers []).
Proof. cbn. repeat constructor. Qed.

Lemma reachable_members (g : graph) :
  reachable g -> layers_shape g /\ members_by_id (vertices g) (layers g).
Proof.
  apply (reachable_invariant
           (fun g => layers_shape g /\ members_by_id (vertices g) (layers g))).
  - intros config g0 Hnew. split; [exact (reachable_layers_shape _ (reachable_new _ _ Hnew))|].
    destruct (new_graph_empty _ _ Hnew) as (_ & -> & _).
    apply members_none. revert Hnew. unfold new_ResearchQuestGraph.
    destruct (config_or_default config) as [| |b|x|s|items|fields];
      try discriminate; intros [= <-];
      repeat match goal with
             | |- context [match ?x with _ => _ end] => destruct x
             end;
      solve [constructor | apply default_layers_no_member].
  - intros g0 [Hshape _].
    destruct (reset_empty g0) as (Hv & _ & _ & _ & _ & Hl). cbv zeta in Hl.
    split.
    + unfold layers_shape, _resetToInitialState in *.
      cbn [set_stage set_nodeTypes set_hyperedges set_edges set_vertices layers].
      destruct Hshape as [Hnil|Hshape]; right.
      * rewrite Hnil. cbn [JsMap.size List.length Nat.ltb Nat.leb].
        unfold _initializeLayerStructure.
        cbn [set_stage set_nodeTypes set_hyperedges set_edges set_vertices
             layers set_layers].
        rewrite Hnil. apply default_layers_shape.
      * assert (Hsize : (0 <? JsMap.size (layers g0))%nat = true).
        { apply Nat.ltb_lt. unfold JsMap.size.
          rewrite (Forall2_length Hshape). cbn. lia. }
        rewrite Hsize. unfold clear_layer_members. cbn [layers set_layers].
        now apply shape_cleared.
    + rewrite Hv. apply members_none. unfold layers_empty in Hl.
      eapply Forall_impl; [|exact Hl]. now intros kl [H _].
  - intros d conf sc layer g0 _ Hv _ Hl [Hshape Hmem]. split.
    + right. unfold after_add_root. cbn [layers].
      apply shape_set_nodes; [|exact Hl]. now apply ready_layers_shape.
    + unfold after_add_root. cbn [layers vertices].
      apply members_step; [reflexivity|exact Hl|].
      rewrite Hv in *. unfold ready_layers.
      destruct (JsMap.has "base" (layers g0)) eqn:Hb; [exact Hmem|].
      destruct Hshape as [Hnil|Hshape].
      * unfold _initializeLayerStructure. cbn [layers set_layers]. rewrite Hnil.
        apply members_none, default_layers_no_member.
      * rewrite (shape_has _ "base" Hshape) in Hb. discriminate Hb.
  - intros dimension index layer g0 _ Hl _ [[Hnil|Hshape] Hmem].
    { rewrite Hnil in Hl. discriminate. }
    split.
    + right. unfold after_decompose_one. cbn [layers]. now apply shape_set_nodes.
    + unfold after_decompose_one. cbn [layers vertices].
      apply members_step; [reflexivity|exact Hl|exact Hmem].
  - intros number index vh layer g0 Hl _ [[Hnil|Hshape] Hmem].
    { rewrite Hnil in Hl. discriminate. }
    assert (Hth : hypothesis_layer g0 = "theoretical").
    { unfold hypothesis_layer. now rewrite (shape_has _ "theoretical" Hshape). }
    split.
    + right. unfold after_hypothesis_one. cbn [layers]. now apply shape_set_nodes.
    + unfold after_hypothesis_one. cbn [layers vertices].
      rewrite Hth in *.
      apply members_step; [apply layer_of_hypothesis_id|exact Hl|exact Hmem].
  - intros n name g0 H. exact H.
Qed.

Lemma filter_keys {V : Type} (f : string -> bool) (h : string * V -> bool)
    (m : JsMap.t V) :
  (forall kv, In kv m -> f (fst kv) = h kv) ->
  filter f (JsMap.keys m) = map fst (filter h m).
Proof.
  unfold JsMap.keys. induction m as [|kv m IH]; intros H; cbn; [reflexivity|].
  rewrite (H kv (or_introl eq_refl)), IH by (intros; apply H; now right).
  now destruct (h kv).
Qed.

Lemma kind_layer (k : string) (n : Node.t) :
  vertex_kind k n -> Meta.layer_id (Node.metadata n) = layer_of_id k.
Proof.
  intros [(-> & _ & ->)|[(i & -> & _ & ->)|(a & i & -> & _ & ->)]];
    [reflexivity|reflexivity|].
  symmetry. apply layer_of_hypothesis_id.
Qed.

(** X9.  The members of each layer are exactly the vertices whose
    metadata name that layer, in the order of their creation.  So the
    layer sets and the [layer_id] of the nodes never disagree. *)
Theorem layer_members (g : graph) (L : string) (layer : Layer.t) :
  reachable g ->
  JsMap.get L (layers g) = Some layer ->
  Layer.nodes layer
  = map fst (filter (fun kn => String.eqb (Meta.layer_id (Node.metadata (snd kn))) L)
               (vertices g)).
Proof.
  intros Hr Hget.
  rewrite (proj2 (reachable_members g Hr) L layer Hget).
  apply filter_keys. intros [k n] Hin. cbn [fst snd].
  destruct (form_vertices g (reachable_form g Hr) k n Hin) as (_ & _ & Hkind).
  now rewrite (kind_layer k n Hkind).
Qed.

(** X9, witness: the base layer of the decomposed scenario holds the root
    and the seven dimension nodes. *)
Lemma layer_members_witness :
  exists layer,
    JsMap.get "base" (layers decomposed_graph) = Some layer
    /\ Layer.nodes layer = ["n0"; "2.1"; "2.2"; "2.3"; "2.4"; "2.5"; "2.6"; "2.7"].
Proof.
  destruct (JsMap.get "base" (layers decomposed_graph)) as [layer|] eqn:H;
    [|vm_compute in H; discriminate H].
  exists layer. split; [reflexivity|].
  rewrite (layer_members decomposed_graph "base" layer decomposed_graph_reachable H).
  vm_compute. reflexivity.
Defined.

Lemma layer_sizes_sum (keys : list string) :
  (List.length (filter (fun k => String.eqb (layer_of_id k) "base") keys)
   + List.length (filter (fun k => String.eqb (layer_of_id k) "theoretical") keys)
   = List.length keys)%nat
  /\ filter (fun k => String.eqb (layer_of_id k) "methodological") keys = []
  /\ filter (fun k => String.eqb (layer_of_id k) "empirical") keys = []
  /\ filter (fun k => String.eqb (layer_of_id k) "interdisciplinary") keys = [].
Proof.
  induction keys as [|k keys (IH1 & IH2 & IH3 & IH4)]; [repeat split|].
  cbn [filter].
  assert (Hk : layer_of_id k = "base" \/ layer_of_id k = "theoretical").
  { unfold layer_of_id. destruct (Str.startsWith "3." k); auto. }
  destruct Hk as [-> | ->]; cbn [String.eqb Ascii.eqb Bool.eqb andb List.length];
    repeat split; try assumption; lia.
Qed.

(** X10.  The layer distribution of the summary counts every vertex once:
    its numbers add up to [vertices_count].  Only the base and the
    theoretical layer ever have members. *)
Theorem layer_distribution_total (g : graph) :
  reachable g ->
  list_sum (map snd (Summary.layer_distribution (getGraphSummary g)))
  = Summary.vertices_count (Summary.state (getGraphSummary g))
  /\ forall L n, In (L, n) (Summary.layer_distribution (getGraphSummary g)) ->
       L = "base" \/ L = "theoretical" \/ n = 0%nat.
Proof.
  intros Hr.
  cbn [getGraphSummary Summary.layer_distribution Summary.state Summary.vertices_count].
  unfold _getLayerDistribution, JsMap.size.
  destruct (reachable_members g Hr) as [Hshape Hmem].
  destruct (layer_sizes_sum (JsMap.keys (vertices g))) as (Hsum & Hm & He & Hi).
  destruct Hshape as [Hnil|Hshape].
  - rewrite Hnil. cbn. split; [|tauto].
    destruct (Nat.eq_dec (currentStage g) 0) as [Hs|Hs].
    + now rewrite (proj1 (proj1 (reachable_shape g Hr) Hs)).
    + pose proof (reachable_base g Hr Hs) as Hb. rewrite Hnil in Hb. discriminate.
  - unfold members_by_id in Hmem.
    set (ls := layers g) in *. clearbody ls.
    inversion Hshape as [|[k1 l1] d1 r1 ds1 (K1 & _) T1 E1]; subst.
    inversion T1 as [|[k2 l2] d2 r2 ds2 (K2 & _) T2 E2]; subst.
    inversion T2 as [|[k3 l3] d3 r3 ds3 (K3 & _) T3 E3]; subst.
    inversion T3 as [|[k4 l4] d4 r4 ds4 (K4 & _) T4 E4]; subst.
    inversion T4 as [|[k5 l5] d5 r5 ds5 (K5 & _) T5 E5]; subst.
    inversion T5; subst. cbn in K1, K2, K3, K4, K5. subst.
    pose proof (Hmem "base" l1 eq_refl) as N1.
    pose proof (Hmem "methodological" l2 eq_refl) as N2.
    pose proof (Hmem "empirical" l3 eq_refl) as N3.
    pose proof (Hmem "theoretical" l4 eq_refl) as N4.
    pose proof (Hmem "interdisciplinary" l5 eq_refl) as N5.
    rewrite Hm in N2. rewrite He in N3. rewrite Hi in N5.
    cbn [map snd list_sum JsSet.size fold_right].
    rewrite N1, N2, N3, N4, N5. unfold JsSet.size. cbn [List.length]. split.
    + assert (Hlen : List.length (JsMap.keys (vertices g)) = List.length (vertices g))
        by apply length_map.
      lia.
    + intros L n [[= <- <-]|[[= <- <-]|[[= <- <-]|[[= <- <-]|[[= <- <-]|[]]]]]]; auto.
Qed.

(** X10, witness: the decomposed scenario. *)
Lemma layer_distribution_total_witness :
  list_sum (map snd (Summary.layer_distribution (getGraphSummary decomposed_graph)))
  = Summary.vertices_count (Summary.state (getGraphSummary decomposed_graph)).
Proof.
  exact (proj1 (layer_distribution_total decomposed_graph decomposed_graph_reachable)).
Defined.

(** ** The set of node kinds *)

Lemma set_has_add (t x : string) (s : JsSet.t) :
  JsSet.has t (JsSet.add x s) = JsSet.has t s || String.eqb t x.
Proof.
  unfold JsSet.add. destruct (JsSet.has x s) eqn:Hx.
  - destruct (String.eqb_spec t x) as [->|_]; [|now rewrite orb_false_r].
    now rewrite Hx.
  - unfold JsSet.has. rewrite existsb_app. cbn. now rewrite orb_false_r.
Qed.

Lemma kinds_step (k : string) (v : Node.t) (vs : JsMap.t Node.t) (kinds : JsSet.t) :
  kinds_by_id vs kinds ->
  kinds_by_id (JsMap.set k v vs) (JsSet.add (kind_of_id k) kinds).
Proof.
  intros H t. rewrite set_has_add, H, keys_set.
  destruct (JsMap.has k vs) eqn:Hk.
  - destruct (String.eqb_spec t (kind_of_id k)) as [->|_];
      [|now rewrite orb_false_r].
    rewrite orb_true_r. symmetry. apply existsb_exists. exists k.
    split; [now apply has_In_keys|apply String.eqb_refl].
  - rewrite existsb_app. cbn. rewrite orb_false_r. f_equal. apply String.eqb_sym.
Qed.

Lemma kind_of_hypothesis_id (number : string) (index : nat) :
  kind_of_id (hypothesis_id number index) = "hypothesis".
Proof. reflexivity. Qed.

Lemma kind_of_dimension_id (index : nat) :
  kind_of_id (dimension_id index) = "dimension".
Proof.
  unfold kind_of_id, dimension_id, Str.startsWith. cbn.
  now destruct (Str.of_nat (index + 1)).
Qed.

Lemma reachable_kinds (g : graph) : reachable g -> kinds_by_id (vertices g) (nodeTypes g).
Proof.
  apply (reachable_invariant (fun g => kinds_by_id (vertices g) (nodeTypes g))).
  - intros config g0. unfold new_ResearchQuestGraph.
    destruct (config_or_default config) as [| |b|x|s|items|fields];
      try discriminate; intros [= <-];
      repeat match goal with
             | |- context [match ?x with _ => _ end] => destruct x
             end; intros t; reflexivity.
  - intros g0 _ t. destruct (reset_empty g0) as (-> & _ & _ & -> & _). reflexivity.
  - intros d conf sc layer g0 _ _ _ _ H. exact (kinds_step "n0" _ _ _ H).
  - intros dimension index layer g0 _ _ _ H.
    unfold after_decompose_one. cbn [vertices nodeTypes].
    rewrite <- (kind_of_dimension_id index). now apply kinds_step.
  - intros number index vh layer g0 _ _ H.
    exact (kinds_step (hypothesis_id number index) _ _ _ H).
  - intros n name g0 H. exact H.
Qed.

Lemma kind_type (k : string) (n : Node.t) :
  vertex_kind k n -> Node.type n = kind_of_id k.
Proof.
  intros [(-> & -> & _)|[(i & -> & -> & _)|(a & i & -> & -> & _)]];
    [reflexivity| |reflexivity].
  symmetry. apply kind_of_dimension_id.
Qed.

(** X11.  The set of node kinds of an instance, which the summary lists
    as [node_types], holds exactly the kinds of the vertices of the graph:
    a kind is in the set if and only if some vertex is of that kind. *)
Theorem node_types_exact (g : graph) (t : string) :
  reachable g ->
  JsSet.has t (Summary.node_types (Summary.state (getGraphSummary g))) = true
  <-> exists k n, In (k, n) (vertices g) /\ Node.type n = t.
Proof.
  intros Hr. cbn [getGraphSummary Summary.state Summary.node_types].
  rewrite (reachable_kinds g Hr t), existsb_exists.
  pose proof (form_vertices g (reachable_form g Hr)) as Hv.
  split.
  - intros (k & Hin & Ht). unfold JsMap.keys in Hin.
    apply in_map_iff in Hin as ([k' n] & <- & Hin). cbn [fst] in *.
    exists k', n. split; [exact Hin|].
    destruct (Hv _ _ Hin) as (_ & _ & Hkind).
    rewrite (kind_type _ _ Hkind). now apply String.eqb_eq.
  - intros (k & n & Hin & Ht). exists k. split.
    + unfold JsMap.keys. apply in_map_iff. now exists (k, n).
    + destruct (Hv _ _ Hin) as (_ & _ & Hkind).
      rewrite <- (kind_type _ _ Hkind). now apply String.eqb_eq.
Qed.

(** X11, witness: the decomposed scenario has a vertex of kind
    [dimension], and none of kind [hypothesis]. *)
Lemma node_types_exact_witness :
  (exists k n, In (k, n) (vertices decomposed_graph) /\ Node.type n = "dimension")
  /\ ((exists k n, In (k, n) (vertices decomposed_graph)
                   /\ Node.type n = "hypothesis") -> False).
Proof.
  split.
  - apply (node_types_exact decomposed_graph "dimension" decomposed_graph_reachable).
    vm_compute. reflexivity.
  - intros H.
    apply (node_types_exact decomposed_graph "hypothesis" decomposed_graph_reachable) in H.
    vm_compute in H. discriminate H.
Defined.

(** ** The impact bands of the summary *)

Lemma not_nan_spec (x : float) :
  PrimFloat.is_nan x = false -> Prim2SF x <> S754_nan.
Proof.
  unfold PrimFloat.is_nan. rewrite FloatAxioms.eqb_spec. unfold SFeqb.
  intros H Hn. rewrite Hn in H. discriminate H.
Qed.

(** [a <= b] is the negation of [b < a] unless one of them is [NaN]. *)
Lemma SFleb_negb_ltb (s : bool) (m : positive) (e : Z) (b : spec_float) :
  b <> S754_nan ->
  SFleb (S754_finite s m e) b = negb (SFltb b (S754_finite s m e)).
Proof.
  intros Hb. unfold SFleb, SFltb.
  destruct b as [s2| s2 | |s2 m2 e2]; [| |contradiction|]; cbn.
  - now destruct s.
  - now destruct s, s2.
  - pose proof (Pos.compare_cont_antisym m m2 Eq) as H. cbn in H.
    destruct s, s2; try reflexivity;
      rewrite (Z.compare_antisym e e2);
      destruct (e ?= e2)%Z; cbn; try reflexivity;
      rewrite <- H; now destruct (Pos.compare_cont Eq m m2).
Qed.

Lemma below_low_below_high (x : float) : (x <? 0.4) = true -> (x <? 0.7) = true.
Proof.
  rewrite !FloatAxioms.ltb_spec.
  change (Prim2SF 0.4) with (S754_finite false 7205759403792794 (-54)).
  change (Prim2SF 0.7) with (S754_finite false 6305039478318694 (-53)).
  unfold SFltb.
  destruct (Prim2SF x) as [s| s | |s m e]; cbn [SFcompare]; try discriminate; auto.
  destruct s; auto.
  destruct (Z.compare_spec e (-54)) as [->|H|H]; try discriminate.
  - intros _. reflexivity.
  - intros _. destruct (Z.compare_spec e (-53)); [lia|reflexivity|lia].
Qed.

(** A number that is not [NaN] falls in exactly one of the three bands. *)
Lemma impact_bands (x : float) :
  PrimFloat.is_nan x = false ->
  ((if (0.7 <=? x)%float then 1 else 0)
   + (if ((0.4 <=? x) && (x <? 0.7))%float then 1 else 0)
   + (if (x <? 0.4)%float then 1 else 0) = 1)%nat.
Proof.
  intros Hn. apply not_nan_spec in Hn.
  pose proof (below_low_below_high x) as Hmono.
  rewrite !FloatAxioms.leb_spec in *. rewrite !FloatAxioms.ltb_spec in *.
  change (Prim2SF 0.4) with (S754_finite false 7205759403792794 (-54)) in *.
  change (Prim2SF 0.7) with (S754_finite false 6305039478318694 (-53)) in *.
  rewrite !SFleb_negb_ltb by assumption.
  destruct (SFltb (Prim2SF x) (S754_finite false 7205759403792794 (-54)));
    destruct (SFltb (Prim2SF x) (S754_finite false 6305039478318694 (-53)));
    cbn; try reflexivity.
  discriminate (Hmono eq_refl).
Qed.

Lemma bands_total (impacts : list float) :
  Forall (fun i => PrimFloat.is_nan i = false) impacts ->
  (List.length (filter (fun i => (0.7 <=? i)%float) impacts)
   + List.length (filter (fun i => ((0.4 <=? i) && (i <? 0.7))%float) impacts)
   + List.length (filter (fun i => (i <? 0.4)%float) impacts)
   = List.length impacts)%nat.
Proof.
  induction 1 as [|x l Hx _ IH]; [reflexivity|].
  pose proof (impact_bands x Hx) as H. cbn [filter].
  destruct (0.7 <=? x); destruct ((0.4 <=? x) && (x <? 0.7)); destruct (x <? 0.4);
    cbn [List.length] in *; lia.
Qed.

(** X12.  The three impact bands of the summary count every vertex once,
    whatever the graph holds: [high_impact], [medium_impact] and
    [low_impact] add up to [vertices_count].  A score that is [NaN] would
    fall in no band; the distribution reads such a score (and a score of
    0) as 0.5. *)
Theorem impact_bands_total (g : graph) :
  (Summary.high_impact (Summary.impact (getGraphSummary g))
   + Summary.medium_impact (Summary.impact (getGraphSummary g))
   + Summary.low_impact (Summary.impact (getGraphSummary g))
   = Summary.vertices_count (Summary.state (getGraphSummary g)))%nat.
Proof.
  cbn [getGraphSummary Summary.impact Summary.state Summary.vertices_count].
  unfold _getImpactDistribution.
  cbn [Summary.high_impact Summary.medium_impact Summary.low_impact].
  rewrite bands_total.
  - unfold JsMap.size, JsMap.values. now rewrite !length_map.
  - apply Forall_forall. intros i Hin.
    apply in_map_iff in Hin as (n & <- & _).
    unfold Num.truthy.
    destruct (PrimFloat.is_nan (Meta.impact_score (Node.metadata n))) eqn:Hn;
      cbn [orb negb]; [reflexivity|].
    now destruct (PrimFloat.is_zero (Meta.impact_score (Node.metadata n))).
Qed.

(** ** What the summary never reports *)

Lemma reachable_hyperedges (g : graph) : reachable g -> hyperedges g = [].
Proof.
  apply (reachable_invariant (fun g => hyperedges g = [])); auto.
  - intros config g0. unfold new_ResearchQuestGraph.
    destruct (config_or_default config) as [| |b|x|s|items|fields];
      try discriminate; intros [= <-];
      repeat match goal with
             | |- context [match ?x with _ => _ end] => destruct x
             end; reflexivity.
  - intros g0 _. now destruct (reset_empty g0) as (_ & _ & -> & _).
Qed.

Lemma filter_none {A : Type} (f : A -> bool) (l : list A) :
  (forall x, In x l -> f x = false) -> filter f l = [].
Proof.
  induction l as [|x l IH]; intros H; cbn; [reflexivity|].
  rewrite (H x (or_introl eq_refl)). apply IH. intros y Hy. apply H. now right.
Qed.

Lemma count_other_type (g : graph) (t : string) :
  reachable g ->
  t <> "root" -> t <> "dimension" -> t <> "hypothesis" ->
  count_type t g = 0%nat.
Proof.
  intros Hr H1 H2 H3. unfold count_type. rewrite filter_none; [reflexivity|].
  intros n Hin. unfold JsMap.values in Hin.
  apply in_map_iff in Hin as ([k n'] & <- & Hin). cbn [snd].
  destruct (form_vertices g (reachable_form g Hr) k n' Hin)
    as (_ & _ & [(_ & Ht & _)|[(i & _ & Ht & _)|(a & i & _ & Ht & _)]]);
    rewrite Ht; now apply String.eqb_neq.
Qed.

(** X13.  Three numbers of the summary are 0 for every instance: no
    operation creates a hyperedge, a node of kind [bridge] or a node of
    kind [placeholder_gap], so [hyperedges_count],
    [interdisciplinary_bridges] and [knowledge_gaps] never move. *)
Theorem summary_constant_zeros (g : graph) :
  reachable g ->
  Summary.hyperedges_count (Summary.state (getGraphSummary g)) = 0%nat
  /\ Summary.interdisciplinary_bridges (getGraphSummary g) = 0%nat
  /\ Summary.knowledge_gaps (getGraphSummary g) = 0%nat.
Proof.
  intros Hr.
  cbn [getGraphSummary Summary.state Summary.hyperedges_count
       Summary.interdisciplinary_bridges Summary.knowledge_gaps].
  rewrite (reachable_hyperedges g Hr).
  split; [reflexivity|].
  split; apply count_other_type; try assumption; discriminate.
Qed.

(** X13, witness: the decomposed scenario. *)
Lemma summary_constant_zeros_witness :
  Summary.hyperedges_count (Summary.state (getGraphSummary decomposed_graph)) = 0%nat
  /\ Summary.interdisciplinary_bridges (getGraphSummary decomposed_graph) = 0%nat
  /\ Summary.knowledge_gaps (getGraphSummary decomposed_graph) = 0%nat.
Proof.
  exact (summary_constant_zeros decomposed_graph decomposed_graph_reachable).
Defined.

(** ** The breakdown by node kind *)

Lemma breakdown_get (t : string) (nodes : list Node.t) :
  forall acc,
    JsMap.get t (fold_left breakdown_step nodes acc)
    = let c := List.length (filter (fun n => String.eqb (Node.type n) t) nodes) in
      match JsMap.get t acc with
      | Some a => Some (a + c)%nat
      | None => if (c =? 0)%nat then None else Some c
      end.
Proof.
  induction nodes as [|n nodes IH]; intros acc; cbn [fold_left filter].
  - cbn. destruct (JsMap.get t acc) as [a|]; [f_equal; lia|reflexivity].
  - rewrite IH. unfold breakdown_step. cbv zeta.
    destruct (String.eqb_spec (Node.type n) t) as [<-|Hne].
    + rewrite get_set_same. cbn [List.length].
      destruct (JsMap.get (Node.type n) acc) as [a|]; cbn [option_default Nat.eqb];
        f_equal; lia.
    + rewrite get_set_other by congruence. reflexivity.
Qed.

Lemma sum_set_increment (k : string) (m : JsMap.t nat) :
  list_sum (JsMap.values
              (JsMap.set k (option_default 0%nat (JsMap.get k m) + 1)%nat m))
  = S (list_sum (JsMap.values m)).
Proof.
  induction m as [|[k0 v0] m IH]; cbn; [reflexivity|].
  destruct (String.eqb k k0); cbn; [lia|].
  unfold JsMap.values, list_sum in IH. rewrite IH. lia.
Qed.

Lemma breakdown_sum (nodes : list Node.t) :
  forall acc,
    list_sum (JsMap.values (fold_left breakdown_step nodes acc))
    = (list_sum (JsMap.values acc) + List.length nodes)%nat.
Proof.
  induction nodes as [|n nodes IH]; intros acc; cbn [fold_left List.length]; [lia|].
  rewrite IH. unfold breakdown_step. rewrite sum_set_increment. lia.
Qed.

(** X14.  The breakdown by node kind of the summary is exact: a kind has
    an entry if and only if some vertex is of that kind, the entry is the
    number of those vertices, and the entries add up to
    [vertices_count]. *)
Theorem node_type_breakdown_exact (g : graph) :
  reachable g ->
  (forall t,
      JsMap.get t (Summary.node_type_breakdown (getGraphSummary g))
      = if (count_type t g =? 0)%nat then None else Some (count_type t g))
  /\ list_sum (JsMap.values (Summary.node_type_breakdown (getGraphSummary g)))
     = Summary.vertices_count (Summary.state (getGraphSummary g)).
Proof.
  intros _.
  cbn [getGraphSummary Summary.node_type_breakdown Summary.state
       Summary.vertices_count].
  unfold _getNodeTypeBreakdown. fold breakdown_step. split.
  - intros t. rewrite breakdown_get. reflexivity.
  - rewrite breakdown_sum. unfold JsMap.size, JsMap.values.
    now rewrite length_map.
Qed.

(** X14, witness: one root and seven dimension nodes in the decomposed
    scenario. *)
Lemma node_type_breakdown_exact_witness :
  Summary.node_type_breakdown (getGraphSummary decomposed_graph)
  = [("root", 1%nat); ("dimension", 7%nat)]
  /\ list_sum (JsMap.values (Summary.node_type_breakdown
                               (getGraphSummary decomposed_graph)))
     = Summary.vertices_count (Summary.state (getGraphSummary decomposed_graph)).
Proof.
  split.
  - vm_compute. reflexivity.
  - exact (proj2 (node_type_breakdown_exact decomposed_graph
                    decomposed_graph_reachable)).
Defined.

(** ** When [initialize] succeeds, and what it returns *)

Lemma initialize_body_steps (t c cfg : value) (g : graph) :
  currentStage g = 0%nat ->
  exists g1,
    vertices g1 = []
    /\ initialize_body t c cfg g
       = match _validateTaskDescription t with
         | Ok d =>
             match _validateConfidenceArray (confidence_or_default c)
                     "initial_confidence" with
             | Ok conf =>
                 match _validateConfig (config_or_default cfg) with
                 | Ok sc => add_root (root_node d conf sc) g1
                 | Throw e => (g1, Throw e)
                 end
             | Throw e => (g1, Throw e)
             end
         | Throw e => (g1, Throw e)
         end.
Proof.
  intros Hs. destruct (clear_for_reinitialization_ok g) as (g1 & Hc & Hv & _).
  exists g1. split; [exact Hv|].
  unfold initialize_body. unfold bindM at 1.
  rewrite (require_stage_ok _ _ _ _ Hs). unfold bindM at 1. rewrite Hc.
  unfold bindM, lift.
  destruct (_validateTaskDescription t); [|reflexivity].
  destruct (_validateConfidenceArray _ _); [|reflexivity].
  destruct (_validateConfig _); reflexivity.
Qed.

Lemma size_set_positive {V : Type} (k : string) (v : V) (m : JsMap.t V) :
  (JsMap.size (JsMap.set k v m) =? 0)%nat = false.
Proof.
  destruct m as [|[k0 v0] m]; cbn; [reflexivity|].
  now destruct (String.eqb k k0).
Qed.

(** What [add_root] returns: no warning, since it has just made sure that
    the layers exist. *)
Lemma add_root_result (rootNode : Node.t) (g : graph) :
  exists g',
    add_root rootNode g
    = (g', Ok (InitializeSucceeded "n0"
                 "ASR-GoT graph initialized successfully following P1.1 specification"
                 1 (Some "initialization") active_parameters [])).
Proof.
  pose proof (ready_layers_base g) as Hb. unfold JsMap.has in Hb.
  destruct (JsMap.get "base" (ready_layers g)) as [layer|] eqn:Hl; [|discriminate].
  unfold add_root, layer_nodes_add, _getInitializationWarnings. run_M.
  cbn [layers set_nodeTypes set_vertices]. unfold ready_layers in Hl.
  destruct (JsMap.has "base" (layers g)) eqn:Hhas.
  - cbn [layers set_nodeTypes set_vertices]. rewrite Hl.
    cbn [layers set_layers set_stage currentStage]. rewrite size_set_positive.
    eexists. reflexivity.
  - cbn [layers set_nodeTypes set_vertices _initializeLayerStructure set_layers] in *.
    rewrite Hl.
    cbn [layers set_layers set_stage currentStage]. rewrite size_set_positive.
    eexists. reflexivity.
Qed.

(** [initialize] succeeds exactly at cursor 0 with accepted arguments. *)
Lemma initialize_success_criterion (t c cfg : value) (g : graph) :
  initialize_success (snd (initialize t c cfg g)) = true
  <-> currentStage g = 0%nat
      /\ is_ok (_validateTaskDescription t) = true
      /\ is_ok (_validateConfidenceArray (confidence_or_default c)
                  "initial_confidence") = true
      /\ is_ok (_validateConfig (config_or_default cfg)) = true.
Proof.
  destruct (Nat.eq_dec (currentStage g) 0) as [Hs|Hs].
  2:{ rewrite (initialize_body_throw _ _ _ _ _ _
                 (initialize_body_wrong_stage t c cfg g Hs)).
      cbn. split; [discriminate|tauto]. }
  destruct (initialize_body_steps t c cfg g Hs) as (g1 & _ & Hbody).
  unfold initialize. rewrite Hbody.
  destruct (_validateTaskDescription t) as [d|e]; cbn [is_ok snd initialize_success];
    [|split; [discriminate|intros (_ & H & _); discriminate H]].
  destruct (_validateConfidenceArray _ _) as [conf|e];
    cbn [is_ok snd initialize_success];
    [|split; [discriminate|intros (_ & _ & H & _); discriminate H]].
  destruct (_validateConfig _) as [sc|e]; cbn [is_ok snd initialize_success];
    [|split; [discriminate|intros (_ & _ & _ & H); discriminate H]].
  destruct (add_root_result (root_node d conf sc) g1) as (g' & ->).
  cbn. tauto.
Qed.

(** X15.  [initialize] succeeds exactly when the cursor is 0 and the three
    validators accept the description, the confidence vector and the
    configuration: nothing else in it can fail, whatever the graph
    holds. *)
Theorem initialize_succeeds_iff (t c cfg : value) (g : graph) :
  initialize_success (snd (initialize t c cfg g)) = true
  <-> currentStage g = 0%nat
      /\ is_ok (_validateTaskDescription t) = true
      /\ is_ok (_validateConfidenceArray (confidence_or_default c)
                  "initial_confidence") = true
      /\ is_ok (_validateConfig (config_or_default cfg)) = true.
Proof. exact (initialize_success_criterion t c cfg g). Qed.

Lemma initialize_result_shape (t c cfg : value) (g : graph) :
  match snd (initialize t c cfg g) with
  | InitializeSucceeded node_id _ current_stage stage_name _ warnings =>
      node_id = "n0" /\ current_stage = 1%nat
      /\ stage_name = Some "initialization" /\ warnings = []
  | InitializeFailed _ message current_stage recovery_attempted =>
      message = "Initialization failed, graph reset to initial state"
      /\ current_stage = 0%nat /\ recovery_attempted = true
  end.
Proof.
  destruct (Nat.eq_dec (currentStage g) 0) as [Hs|Hs].
  2:{ rewrite (initialize_body_throw _ _ _ _ _ _
                 (initialize_body_wrong_stage t c cfg g Hs)).
      cbn. auto. }
  destruct (initialize_body_steps t c cfg g Hs) as (g1 & _ & Hbody).
  destruct (initialize_body t c cfg g) as [g' [r|e]] eqn:Hb.
  2:{ rewrite (initialize_body_throw _ _ _ _ _ _ Hb). cbn. auto. }
  unfold initialize. rewrite Hb. cbn [snd].
  destruct (_validateTaskDescription t) as [d|e]; [|discriminate].
  destruct (_validateConfidenceArray _ _) as [conf|e]; [|discriminate].
  destruct (_validateConfig _) as [sc|e]; [|discriminate].
  destruct (add_root_result (root_node d conf sc) g1) as (g2 & Hadd).
  rewrite Hadd in Hbody. injection Hbody as _ ->. auto.
Qed.

(** X16.  What [initialize] returns.  A success always names the root
    [n0], cursor 1 and stage [initialization], and carries no warning: the
    warning about missing layers can never be given, since the layers are
    created before it is looked for.  A failure always reports cursor 0
    and a recovery. *)
Theorem initialize_result_fields (t c cfg : value) (g : graph) :
  match snd (initialize t c cfg g) with
  | InitializeSucceeded node_id _ current_stage stage_name _ warnings =>
      node_id = "n0" /\ current_stage = 1%nat
      /\ stage_name = Some "initialization" /\ warnings = []
  | InitializeFailed _ message current_stage recovery_attempted =>
      message = "Initialization failed, graph reset to initial state"
      /\ current_stage = 0%nat /\ recovery_attempted = true
  end.
Proof. exact (initialize_result_shape t c cfg g). Qed.

(** X17.  A failed [initialize] never leaves an instance stuck.  Whatever
    the graph held, it is blank afterwards: no vertex, edge, hyperedge or
    node kind, cursor 0, and no member in any layer.  The next
    [initialize] succeeds exactly when the validators accept its
    arguments. *)
Theorem initialize_recovers (t c cfg t' c' cfg' : value) (g : graph) :
  initialize_success (snd (initialize t c cfg g)) = false ->
  let g' := fst (initialize t c cfg g) in
  vertices g' = [] /\ edges g' = [] /\ hyperedges g' = [] /\ nodeTypes g' = []
  /\ currentStage g' = 0%nat /\ layers_empty g'
  /\ (initialize_success (snd (initialize t' c' cfg' g')) = true
      <-> is_ok (_validateTaskDescription t') = true
          /\ is_ok (_validateConfidenceArray (confidence_or_default c')
                      "initial_confidence") = true
          /\ is_ok (_validateConfig (config_or_default cfg')) = true).
Proof.
  intros Hfail. cbv zeta.
  assert (Hreset : exists g0, fst (initialize t c cfg g) = _resetToInitialState g0).
  { destruct (Nat.eq_dec (currentStage g) 0) as [Hs|Hs].
    2:{ exists g. now rewrite (initialize_body_throw _ _ _ _ _ _
                                 (initialize_body_wrong_stage t c cfg g Hs)). }
    destruct (initialize_body t c cfg g) as [g1 [r|e]] eqn:Hb.
    2:{ exists g1. now rewrite (initialize_body_throw _ _ _ _ _ _ Hb). }
    exfalso. pose proof (initialize_result_shape t c cfg g) as Hr.
    unfold initialize in Hfail, Hr. rewrite Hb in Hfail, Hr. cbn [snd] in *.
    destruct r; [discriminate Hfail|].
    destruct Hr as (_ & Hr & _).
    destruct (initialize_body_steps t c cfg g Hs) as (g2 & _ & Hbody).
    rewrite Hb in Hbody.
    destruct (_validateTaskDescription t) as [d|e]; [|discriminate].
    destruct (_validateConfidenceArray _ _) as [conf|e]; [|discriminate].
    destruct (_validateConfig _) as [sc|e]; [|discriminate].
    destruct (add_root_result (root_node d conf sc) g2) as (g3 & Hadd).
    rewrite Hadd in Hbody. discriminate Hbody. }
  destruct Hreset as (g0 & ->).
  destruct (reset_empty g0) as (Hv & He & Hh & Hn & Hs & Hl).
  repeat (split; [assumption|]).
  rewrite initialize_success_criterion. tauto.
Qed.

(** X17, witness: [initialize] on the decomposed scenario fails and wipes
    it, and the next [initialize] with the same description succeeds. *)
Lemma initialize_recovers_witness :
  let t := VStr "Investigate the role of skin microbiome in disease" in
  let g' := fst (initialize t VUndefined VUndefined decomposed_graph) in
  vertices g' = [] /\ currentStage g' = 0%nat
  /\ initialize_success (snd (initialize t VUndefined VUndefined g')) = true.
Proof.
  cbv zeta.
  destruct (initialize_recovers
              (VStr "Investigate the role of skin microbiome in disease")
              VUndefined VUndefined
              (VStr "Investigate the role of skin microbiome in disease")
              VUndefined VUndefined decomposed_graph eq_refl)
    as (Hv & _ & _ & _ & Hs & _ & Hok).
  split; [exact Hv|]. split; [exact Hs|].
  apply Hok. vm_compute. auto.
Defined.

(** ** The confidence validator *)

Lemma validate_confidence_entries_ok (paramName : string) (entries : list value) :
  forall (index : nat) (conf : list float),
    validate_confidence_entries paramName index entries = Ok conf
    <-> map Js.Number entries = map Ok conf
        /\ Forall (fun x => Num.out_of_unit x = false) conf.
Proof.
  induction entries as [|v rest IH]; intros index conf; cbn [validate_confidence_entries map].
  - split.
    + intros [= <-]. split; [reflexivity|constructor].
    + intros [H _]. destruct conf; [reflexivity|discriminate H].
  - destruct (Js.Number v) as [num|e]; cbn [bind].
    2:{ split; [discriminate|]. intros [H _]. destruct conf; discriminate H. }
    unfold Num.out_of_unit.
    destruct (Num.isNaN num) eqn:Hnan.
    { split; [discriminate|]. intros [H Hall].
      destruct conf as [|x conf]; [discriminate H|].
      injection H as -> _. inversion Hall as [|? ? Hx _]; subst.
      rewrite Hnan in Hx. discriminate Hx. }
    destruct ((num <? 0) || (1 <? num)) eqn:Hrange.
    { split; [discriminate|]. intros [H Hall].
      destruct conf as [|x conf]; [discriminate H|].
      injection H as -> _. inversion Hall as [|? ? Hx _]; subst.
      rewrite Hnan in Hx. cbn [orb] in Hx. rewrite Hrange in Hx. discriminate Hx. }
    specialize (IH (S index)).
    destruct (validate_confidence_entries paramName (S index) rest) as [nums|e];
      cbn [bind].
    + split.
      * intros [= <-]. destruct (proj1 (IH nums) eq_refl) as [Hmap Hall].
        split; [cbn [map]; now rewrite Hmap|].
        constructor; [|exact Hall]. rewrite Hnan. cbn [orb]. exact Hrange.
      * intros [H Hall]. destruct conf as [|x conf]; [discriminate H|].
        injection H as -> Hmap. inversion Hall as [|? ? _ Hrest]; subst.
        pose proof (proj2 (IH conf) (conj Hmap Hrest)) as Heq.
        now injection Heq as ->.
    + split; [discriminate|]. intros [H Hall].
      destruct conf as [|x conf]; [discriminate H|].
      injection H as _ Hmap. inversion Hall as [|? ? _ Hrest]; subst.
      pose proof (proj2 (IH conf) (conj Hmap Hrest)) as Heq. discriminate Heq.
Qed.

Lemma validateConfidenceArray_ok (confidence : value) (paramName : string)
    (conf : list float) :
  _validateConfidenceArray confidence paramName = Ok conf
  <-> exists entries,
        confidence = VArr entries
        /\ List.length entries = 4%nat
        /\ map Js.Number entries = map Ok conf
        /\ Forall (fun x => Num.out_of_unit x = false) conf.
Proof.
  unfold _validateConfidenceArray. split.
  - destruct confidence as [| | | | |entries|]; try discriminate.
    destruct (Nat.eqb_spec (List.length entries) 4) as [Hlen|Hlen];
      cbn [negb]; [|discriminate].
    intros H. apply validate_confidence_entries_ok in H as [Hmap Hall].
    now exists entries.
  - intros (entries & -> & Hlen & Hmap & Hall).
    rewrite Hlen. cbn [Nat.eqb negb].
    now apply validate_confidence_entries_ok.
Qed.

(** X18.  [_validateConfidenceArray] accepts exactly the arrays of four
    entries whose [Number] coercions all lie in [0, 1], and returns those
    coercions.  The entries need not be numbers: [null] and the empty
    string count as 0, [true] as 1, a numeric string as its value. *)
Theorem validateConfidenceArray_accepts (confidence : value) (paramName : string)
    (conf : list float) :
  (_validateConfidenceArray confidence paramName = Ok conf
   <-> exists entries,
         confidence = VArr entries
         /\ List.length entries = 4%nat
         /\ map Js.Number entries = map Ok conf
         /\ Forall (fun x => Num.out_of_unit x = false) conf)
  /\ _validateConfidenceArray (VArr [VNull; VStr ""; VBool true; VStr "0.25"])
       paramName
     = Ok [0; 0; 1; 0.25].
Proof.
  split; [apply validateConfidenceArray_ok|].
  apply validateConfidenceArray_ok.
  exists [VNull; VStr ""; VBool true; VStr "0.25"].
  split; [reflexivity|]. split; [reflexivity|]. split; [vm_compute; reflexivity|].
  repeat constructor.
Qed.

(** ** The configuration validator *)

Lemma validateConfig_verdict_eq (config : value) :
  _validateConfig config
  = match config with
    | VNull | VUndefined => Ok no_config
    | VObj _ =>
        let tags := Js.prop "disciplinary_tags" config in
        let attribution := Js.prop "attribution" config in
        if negb (unset_or_array tags) then
          Throw (_createValidationError "config.disciplinary_tags" tags
                   "an array of strings"
                   [strings ["immunology"; "dermatology"];
                    strings ["cardiology"; "genetics"]])
        else if has_unprintable_entry tags then Ok no_config
        else if negb (unset_or_array attribution) then
          Throw (_createValidationError "config.attribution" attribution
                   "an array of strings" [strings ["Dr. Smith"; "Research Team A"]])
        else if has_unprintable_entry attribution then Ok no_config
        else
          Ok {| sc_disciplinary_tags := kept_of tags;
                sc_attribution := kept_of attribution;
                sc_enable_multi_layer :=
                  match Js.prop "enable_multi_layer" config with
                  | VBool b => Some b
                  | _ => None
                  end |}
    | _ =>
        Throw (_createValidationError "config" config
                 "an object with configuration properties"
                 [VObj [("disciplinary_tags", strings ["immunology"; "dermatology"])]])
    end.
Proof.
  unfold _validateConfig, validate_config.
  destruct config; try reflexivity. cbv zeta.
  rewrite !string_array_property_cases.
  destruct (unset_or_array (Js.prop "disciplinary_tags" (VObj fields)));
    cbn [negb bind]; [|reflexivity].
  destruct (has_unprintable_entry (Js.prop "disciplinary_tags" (VObj fields)));
    cbn [bind]; [reflexivity|].
  destruct (unset_or_array (Js.prop "attribution" (VObj fields)));
    cbn [negb bind]; [|reflexivity].
  destruct (has_unprintable_entry (Js.prop "attribution" (VObj fields)));
    reflexivity.
Qed.

(** X30.  The verdict of [_validateConfig].  [null] and [undefined] give
    an object without keys.  Anything else that is not a plain object is
    rejected, and so is an object whose [disciplinary_tags] or
    [attribution] is set and is no array.  In between, an entry of one of
    the two arrays that has no string makes the filter throw, and the
    validator answers that with the object without keys: the tags, the
    attribution and [enable_multi_layer] of the caller are dropped, and
    an [attribution] that is no array goes unnoticed behind a tag that has
    no string.  Otherwise the result holds the strings of each array that
    are not blank, trimmed, and [enable_multi_layer] when it is a
    boolean. *)
Theorem validateConfig_verdict (config : value) :
  _validateConfig config
  = match config with
    | VNull | VUndefined => Ok no_config
    | VObj _ =>
        let tags := Js.prop "disciplinary_tags" config in
        let attribution := Js.prop "attribution" config in
        if negb (unset_or_array tags) then
          Throw (_createValidationError "config.disciplinary_tags" tags
                   "an array of strings"
                   [strings ["immunology"; "dermatology"];
                    strings ["cardiology"; "genetics"]])
        else if has_unprintable_entry tags then Ok no_config
        else if negb (unset_or_array attribution) then
          Throw (_createValidationError "config.attribution" attribution
                   "an array of strings" [strings ["Dr. Smith"; "Research Team A"]])
        else if has_unprintable_entry attribution then Ok no_config
        else
          Ok {| sc_disciplinary_tags := kept_of tags;
                sc_attribution := kept_of attribution;
                sc_enable_multi_layer :=
                  match Js.prop "enable_multi_layer" config with
                  | VBool b => Some b
                  | _ => None
                  end |}
    | _ =>
        Throw (_createValidationError "config" config
                 "an object with configuration properties"
                 [VObj [("disciplinary_tags", strings ["immunology"; "dermatology"])]])
    end.
Proof. exact (validateConfig_verdict_eq config). Qed.

(** ** What [initialize] stores *)

Lemma valid_means_numbers (xs : list float) :
  Forall (fun x => Num.out_of_unit x = false) xs ->
  valid_means (map VNum xs) = Ok xs.
Proof.
  induction 1 as [|x xs Hx _ IH]; [reflexivity|].
  cbn [map valid_means]. unfold valid_mean. cbn [Js.Number Js.printable bind
                                                Js.ToNumber_printable].
  rewrite Hx, IH. reflexivity.
Qed.

Lemma distribution_of_means (xs : list float) :
  Forall (fun x => Num.out_of_unit x = false) xs ->
  means (distribution_of xs) = xs.
Proof.
  intros H. unfold distribution_of, _createProbabilityDistribution.
  now rewrite (valid_means_numbers xs H).
Qed.

(** X19.  A successful [initialize] leaves one vertex, the root, and the
    root carries what the validators returned: the trimmed description as
    its content, the coerced confidence entries as the means of its
    distribution (the same distribution in the node and in its metadata),
    and the tags and attribution [_validateConfig] returned, with
    [immunology] and [dermatology] as tags when it returned none.  When
    the tags or the attribution of the configuration hold an entry that
    has no string, [_validateConfig] returns an object without keys: the
    root gets the default tags and no attribution, whatever else the
    configuration says. *)
Theorem initialize_stores (t c cfg : value) (g : graph) :
  initialize_success (snd (initialize t c cfg g)) = true ->
  exists s entries conf sc root,
    t = VStr s
    /\ confidence_or_default c = VArr entries
    /\ map Js.Number entries = map Ok conf
    /\ _validateConfig (config_or_default cfg) = Ok sc
    /\ (has_unprintable_entry (Js.prop "disciplinary_tags" cfg) = true ->
        sc = no_config)
    /\ (unset_or_array (Js.prop "disciplinary_tags" cfg) = true ->
        has_unprintable_entry (Js.prop "attribution" cfg) = true ->
        sc = no_config)
    /\ vertices (fst (initialize t c cfg g)) = [("n0", root)]
    /\ Node.content root = Str.trim s
    /\ means (Node.confidence root) = conf
    /\ Meta.confidence (Node.metadata root) = Node.confidence root
    /\ Meta.disciplinary_tags (Node.metadata root)
       = option_default ["immunology"; "dermatology"] (sc_disciplinary_tags sc)
    /\ Meta.attribution (Node.metadata root)
       = option_default [] (sc_attribution sc)
    /\ Meta.impact_score (Node.metadata root) = 0.8.
Proof.
  intros Hok. apply initialize_success_criterion in Hok as (Hs & Ht & Hc & Hcfg).
  destruct (_validateTaskDescription t) as [d|e] eqn:Hd; [|discriminate Ht].
  destruct (_validateConfidenceArray _ _) as [conf|e] eqn:Hconf; [|discriminate Hc].
  destruct (_validateConfig _) as [sc|e] eqn:Hsc; [|discriminate Hcfg].
  destruct (initialize_body_ok t c cfg g d conf sc Hs Hd Hconf Hsc)
    as (g' & r & Hbody & _ & Hv & _).
  apply validateTaskDescription_ok in Hd as (s & -> & -> & _).
  apply validateConfidenceArray_ok in Hconf as (entries & Hentries & _ & Hmap & Hall).
  exists s, entries, conf, sc, (root_node (Str.trim s) conf sc).
  unfold initialize. rewrite Hbody. cbn [fst].
  split; [reflexivity|]. split; [exact Hentries|]. split; [exact Hmap|].
  split; [reflexivity|].
  split.
  { intros Hun. rewrite validateConfig_verdict_eq in Hsc.
    destruct cfg; try discriminate Hun.
    cbn [config_or_default] in Hsc.
    destruct (unset_or_array (Js.prop "disciplinary_tags" (VObj fields)));
      cbn [negb] in Hsc; [|discriminate Hsc].
    rewrite Hun in Hsc. now injection Hsc as <-. }
  split.
  { intros Harr Hun. rewrite validateConfig_verdict_eq in Hsc.
    destruct cfg; try discriminate Hun.
    cbn [config_or_default] in Hsc. rewrite Harr in Hsc. cbn [negb] in Hsc.
    destruct (has_unprintable_entry (Js.prop "disciplinary_tags" (VObj fields)));
      [now injection Hsc as <-|].
    destruct (unset_or_array (Js.prop "attribution" (VObj fields)));
      cbn [negb] in Hsc; [|discriminate Hsc].
    rewrite Hun in Hsc. now injection Hsc as <-. }
  split; [exact Hv|]. split; [reflexivity|].
  split; [now apply distribution_of_means|].
  repeat split.
Qed.

(** X19, witness: the scenario of the specification, with spaces around
    the description, and a configuration whose second tag has no string
    and whose attribution is no array: the call succeeds, and the root
    gets the default tags. *)
Lemma initialize_stores_witness :
  exists root,
    vertices (fst (initialize (VStr "  Investigate the role of skin microbiome  ")
                     (VArr [VNum 0.8; VNum 0.7; VNum 0.9; VNum 0.6])
                     (VObj [("disciplinary_tags",
                             VArr [VStr "one"; VObj [("toString", VNum 1)]]);
                            ("attribution", VNum 5)])
                     fresh_graph))
    = [("n0", root)]
    /\ Node.content root = "Investigate the role of skin microbiome"
    /\ means (Node.confidence root) = [0.8; 0.7; 0.9; 0.6]
    /\ Meta.disciplinary_tags (Node.metadata root) = ["immunology"; "dermatology"]
    /\ Meta.attribution (Node.metadata root) = [].
Proof.
  destruct (initialize_stores (VStr "  Investigate the role of skin microbiome  ")
              (VArr [VNum 0.8; VNum 0.7; VNum 0.9; VNum 0.6])
              (VObj [("disciplinary_tags",
                      VArr [VStr "one"; VObj [("toString", VNum 1)]]);
                     ("attribution", VNum 5)])
              fresh_graph eq_refl)
    as (s & entries & conf & sc & root & Ht & Hc & Hmap & _ & Hsc & _ & Hv & Hcontent
        & Hmeans & _ & Htags & Hattr & _).
  injection Ht as <-. injection Hc as <-. rewrite (Hsc eq_refl) in Htags, Hattr.
  exists root. split; [exact Hv|]. split; [exact Hcontent|].
  split; [|split; [exact Htags|exact Hattr]].
  rewrite Hmeans. destruct conf as [|a [|b [|c [|d [|]]]]]; try discriminate Hmap.
  now injection Hmap as <- <- <- <-.
Defined.

(** ** Properties of the tool handler *)

(** The constructor never throws on what the handler passes. *)
Lemma handler_new_graph (config : value) :
  exists g, new_ResearchQuestGraph (if Js.truthy config then config else VObj []) = Ok g.
Proof.
  unfold new_ResearchQuestGraph.
  destruct config as [| |b|x|s|items|fields]; cbn [Js.truthy config_or_default];
    try (eexists; reflexivity).
  - destruct b; eexists; reflexivity.
  - destruct (Num.truthy x); eexists; reflexivity.
  - destruct (negb (String.eqb s "")); eexists; reflexivity.
Qed.

Lemma tool_initialize_cases (args : value) (currentGraph : option graph) :
  (Js.truthy (Js.prop "task_description" args) = false
   /\ tool_initialize args currentGraph
      = (currentGraph,
         Rejected {| code := InvalidParams;
                     why := Missing_parameter "task_description" |}))
  \/ (Js.truthy (Js.prop "task_description" args) = true
      /\ exists g,
          new_ResearchQuestGraph
            (if Js.truthy (Js.prop "config" args) then Js.prop "config" args
             else VObj []) = Ok g
          /\ tool_initialize args currentGraph
             = (Some (fst (initialize (Js.prop "task_description" args)
                             (Js.prop "initial_confidence" args)
                             (Js.prop "config" args) g)),
                Returned
                  (let r := snd (initialize (Js.prop "task_description" args)
                                   (Js.prop "initial_confidence" args)
                                   (Js.prop "config" args) g) in
                   if initialize_success r then initialize_reply r
                   else initialize_failure r))).
Proof.
  unfold tool_initialize.
  destruct (Js.truthy (Js.prop "task_description" args)); cbn [negb]; [right|left; auto].
  split; [reflexivity|].
  destruct (handler_new_graph (Js.prop "config" args)) as (g & Hnew).
  exists g. split; [exact Hnew|]. rewrite Hnew.
  now destruct (initialize _ _ _ g).
Qed.

Section HandlerStates.

Variable currentGraph : option graph.
Hypothesis current_reachable : forall g, currentGraph = Some g -> reachable g.

Lemma tool_initialize_reachable (args : value) (next : option graph) (o : outcome) :
  tool_initialize args currentGraph = (next, o) ->
  forall g, next = Some g -> reachable g.
Proof.
  destruct (tool_initialize_cases args currentGraph)
    as [(_ & ->)|(_ & g0 & Hnew & ->)]; intros [= <- _].
  - exact current_reachable.
  - intros g [= <-].
    exact (reachable_run (Initialize _ _ _) g0 (reachable_new _ _ Hnew)).
Qed.

Lemma tool_decompose_reachable (args : value) (next : option graph) (o : outcome) :
  tool_decompose args currentGraph = (next, o) ->
  forall g, next = Some g -> reachable g.
Proof.
  unfold tool_decompose. destruct currentGraph as [g0|] eqn:Hcg.
  2:{ intros [= <- _]. discriminate. }
  set (dims := dimensions_argument _).
  pose proof (reachable_run (Decompose dims) g0 (current_reachable g0 eq_refl)) as Hr.
  cbn [run] in Hr.
  destruct (decomposeTask dims g0) as [g1 [r|e]]; cbn [fst] in Hr;
    intros [= <- _] g [= <-]; exact Hr.
Qed.

Lemma tool_hypotheses_reachable (args : value) (next : option graph) (o : outcome) :
  tool_hypotheses args currentGraph = (next, o) ->
  forall g, next = Some g -> reachable g.
Proof.
  unfold tool_hypotheses. destruct currentGraph as [g0|] eqn:Hcg.
  2:{ intros [= <- _]. discriminate. }
  destruct (negb (Js.truthy (Js.prop "dimension_node_id" args)));
    [intros [= <- _] g [= <-]; now apply current_reachable|].
  destruct (negb (Js.truthy (Js.prop "hypotheses" args)));
    [intros [= <- _] g [= <-]; now apply current_reachable|].
  pose proof (reachable_run
                (GenerateHypotheses (Js.prop "dimension_node_id" args)
                   (Js.prop "hypotheses" args) (Js.prop "config" args))
                g0 (current_reachable g0 eq_refl)) as Hr.
  cbn [run] in Hr.
  destruct (generateHypotheses _ _ _ g0) as [g1 r]; cbn [fst] in Hr.
  intros [= <- _] g [= <-]. exact Hr.
Qed.

Lemma tool_summary_state : fst (tool_summary currentGraph) = currentGraph.
Proof. unfold tool_summary. now destruct currentGraph. Qed.

Lemma tool_export_state (args : value) : fst (tool_export args currentGraph) = currentGraph.
Proof. unfold tool_export. now destruct currentGraph. Qed.

Lemma call_tool_reachable (name args : value) (next : option graph) (o : outcome) :
  call_tool name args currentGraph = (next, o) ->
  forall g, next = Some g -> reachable g.
Proof.
  unfold call_tool.
  destruct (Js.ToString name) as [text|e];
    [|intros [= <- _]; exact current_reachable].
  destruct name as [| | | |tool| |];
    try (intros [= <- _]; exact current_reachable).
  destruct (String.eqb tool ""); [intros [= <- _]; exact current_reachable|].
  assert (Hobject :
    (if String.eqb tool "initialize_asr_got_graph" then
       tool_initialize args currentGraph
     else if String.eqb tool "decompose_research_task" then
       tool_decompose args currentGraph
     else if String.eqb tool "generate_hypotheses" then
       tool_hypotheses args currentGraph
     else if String.eqb tool "get_graph_summary" then
       tool_summary currentGraph
     else if String.eqb tool "export_graph_data" then
       tool_export args currentGraph
     else
       (currentGraph,
        Rejected {| code := MethodNotFound; why := Unknown_tool tool |}))
    = (next, o) ->
    forall g, next = Some g -> reachable g).
  { destruct (String.eqb tool "initialize_asr_got_graph").
    { apply tool_initialize_reachable. }
    destruct (String.eqb tool "decompose_research_task").
    { apply tool_decompose_reachable. }
    destruct (String.eqb tool "generate_hypotheses").
    { apply tool_hypotheses_reachable. }
    destruct (String.eqb tool "get_graph_summary").
    { intros H. apply (f_equal fst) in H. rewrite tool_summary_state in H.
      cbn in H. subst next. exact current_reachable. }
    destruct (String.eqb tool "export_graph_data").
    { intros H. apply (f_equal fst) in H. rewrite tool_export_state in H.
      cbn in H. subst next. exact current_reachable. }
    intros [= <- _]. exact current_reachable. }
  destruct args as [| | | | |items|fields];
    try (intros [= <- _]; exact current_reachable); exact Hobject.
Qed.

End HandlerStates.

Lemma session_cons (name args : value) (rest : list (value * value))
    (currentGraph : option graph) :
  session ((name, args) :: rest) currentGraph
  = (fst (session rest (fst (call_tool name args currentGraph))),
     snd (call_tool name args currentGraph)
       :: snd (session rest (fst (call_tool name args currentGraph)))).
Proof.
  cbn [session]. destruct (call_tool name args currentGraph) as [cg' o].
  cbn [fst snd]. now destruct (session rest cg').
Qed.

Lemma session_reachable_from (calls : list (value * value)) :
  forall (currentGraph : option graph),
    (forall g, currentGraph = Some g -> reachable g) ->
    forall g, fst (session calls currentGraph) = Some g -> reachable g.
Proof.
  induction calls as [|[name args] rest IH]; intros cg Hinv.
  - exact Hinv.
  - rewrite session_cons. cbn [fst]. apply IH.
    destruct (call_tool name args cg) as [cg' o] eqn:Hcall. cbn [fst].
    exact (call_tool_reachable cg Hinv _ _ _ _ Hcall).
Qed.

(** X20.  Whatever calls a session makes, and whatever their arguments
    are, the graph the handler holds is a state of one instance: a fresh
    [ResearchQuestGraph] followed by operations of the class.  So
    everything shown above of the states of an instance holds of the
    graph behind the tools. *)
Theorem session_reachable (calls : list (value * value))
    (final : graph) (outcomes : list outcome) :
  session calls None = (Some final, outcomes) -> reachable final.
Proof.
  intros H.
  apply (session_reachable_from calls None); [discriminate|].
  now rewrite H.
Qed.

(** X20, witness: a session that initializes, decomposes with three
    dimensions of which the last has no string, and decomposes again with
    one name.  The second call raises an error after it stored two nodes;
    the third replaces the first of them and leaves the second. *)
Lemma session_reachable_witness :
  exists g outcomes,
    session
      [(VStr "initialize_asr_got_graph",
        VObj [("task_description",
               VStr "Investigate the role of skin microbiome in disease")]);
       (VStr "decompose_research_task",
        VObj [("dimensions",
               VArr [VNum 1.5; VBool true; VObj [("toString", VNum 1)]])]);
       (VStr "decompose_research_task",
        VObj [("dimensions", VArr [VStr "Scope"])])] None
    = (Some g, outcomes)
    /\ reachable g
    /\ currentStage g = 2%nat
    /\ map (fun kn => (fst kn, Node.label (snd kn))) (vertices g)
       = [("n0", VStr "Task Understanding"); ("2.1", VStr "Scope");
          ("2.2", VBool true)]
    /\ map no_success outcomes = [false; true; false].
Proof.
  destruct (session
              [(VStr "initialize_asr_got_graph",
                VObj [("task_description",
                       VStr "Investigate the role of skin microbiome in disease")]);
               (VStr "decompose_research_task",
                VObj [("dimensions",
                       VArr [VNum 1.5; VBool true; VObj [("toString", VNum 1)]])]);
               (VStr "decompose_research_task",
                VObj [("dimensions", VArr [VStr "Scope"])])] None)
    as [[g|] outcomes] eqn:H.
  - exists g, outcomes. split; [reflexivity|].
    split; [exact (session_reachable _ _ _ H)|].
    vm_compute in H. injection H as <- <-. repeat split.
  - exfalso. vm_compute in H. discriminate H.
Defined.

Lemma call_advertised_without_graph (tool : string) (args : value) :
  In tool tools ->
  exists o, call_tool (VStr tool) args None = (None, o) /\ no_success o = true.
Proof.
  intros Hin. unfold call_tool.
  cbn [tools In] in Hin.
  destruct Hin as [<-|[<-|[<-|[<-|[<-|[]]]]]]; cbn [String.eqb Ascii.eqb Bool.eqb andb];
    cbn [tool_decompose tool_hypotheses tool_summary tool_export];
    destruct args; eexists; split; try reflexivity; reflexivity.
Qed.

(** X21.  The tool that creates the graph cannot be called by its
    advertised name: the list of tools names it
    [initialize_research_quest_graph], the handler knows it as
    [initialize_asr_got_graph].  So a session that uses only advertised
    names never gets a graph: every call is rejected or answered with a
    fallback reply, and [currentGraph] stays [null]. *)
Theorem advertised_names_never_initialize (calls : list (string * value)) :
  Forall (fun call => In (fst call) tools) calls ->
  exists outcomes,
    session (map (fun call => (VStr (fst call), snd call)) calls) None
    = (None, outcomes)
    /\ forallb no_success outcomes = true.
Proof.
  induction 1 as [|[tool args] rest Hin _ (outcomes & Hrest & Hall)]; cbn [map session].
  - exists []. auto.
  - cbn [fst snd] in *.
    destruct (call_advertised_without_graph tool args Hin) as (o & -> & Ho).
    rewrite Hrest. exists (o :: outcomes). split; [reflexivity|].
    cbn [forallb]. now rewrite Ho, Hall.
Qed.

(** X21, witness: the advertised initialization followed by a summary. *)
Lemma advertised_names_never_initialize_witness :
  exists outcomes,
    session
      [(VStr "initialize_research_quest_graph",
        VObj [("task_description",
               VStr "Investigate the role of skin microbiome in disease")]);
       (VStr "get_graph_summary", VObj [])] None
    = (None, outcomes)
    /\ forallb no_success outcomes = true.
Proof.
  exact (advertised_names_never_initialize
           [("initialize_research_quest_graph",
             VObj [("task_description",
                    VStr "Investigate the role of skin microbiome in disease")]);
            ("get_graph_summary", VObj [])]
           ltac:(repeat constructor; cbn; tauto)).
Defined.

(** X22.  A call of [initialize_asr_got_graph] with a description never
    looks at the graph the handler holds: it builds a new instance and
    initializes that one, so the reply and the new state are the same
    whatever was there before.  The former graph is dropped even when the
    initialization fails: the handler then holds a blank graph at cursor
    0.  The call succeeds exactly when the three validators accept its
    arguments. *)
Theorem tool_initialize_replaces (fields : list (string * value))
    (currentGraph : option graph) :
  let args := VObj fields in
  Js.truthy (Js.prop "task_description" args) = true ->
  exists g r,
    call_tool (VStr "initialize_asr_got_graph") args currentGraph
    = (Some g, Returned r)
    /\ call_tool (VStr "initialize_asr_got_graph") args None
       = (Some g, Returned r)
    /\ if is_ok (_validateTaskDescription (Js.prop "task_description" args))
          && is_ok (_validateConfidenceArray
                      (confidence_or_default (Js.prop "initial_confidence" args))
                      "initial_confidence")
          && is_ok (_validateConfig (config_or_default (Js.prop "config" args)))
       then (exists result, r = initialize_reply result)
            /\ currentStage g = 1%nat
            /\ JsMap.size (vertices g) = 1%nat
       else (exists result, r = initialize_failure result)
            /\ currentStage g = 0%nat
            /\ vertices g = [] /\ edges g = [].
Proof.
  cbv zeta. intros Htask.
  cbn [call_tool Js.ToString Js.printable String.eqb Ascii.eqb Bool.eqb andb].
  destruct (tool_initialize_cases (VObj fields) currentGraph)
    as [(H & _)|(_ & g0 & Hnew & Hcall)]; [congruence|].
  destruct (tool_initialize_cases (VObj fields) None)
    as [(H & _)|(_ & g0' & Hnew' & Hcall')]; [congruence|].
  rewrite Hnew in Hnew'. injection Hnew' as <-.
  rewrite Hcall, Hcall'. eexists _, _. split; [reflexivity|]. split; [reflexivity|].
  cbv zeta.
  set (t := Js.prop "task_description" (VObj fields)) in *.
  set (c := Js.prop "initial_confidence" (VObj fields)) in *.
  set (cfg := Js.prop "config" (VObj fields)) in *.
  pose proof (initialize_success_criterion t c cfg g0) as Hiff.
  destruct (new_graph_empty _ _ Hnew) as (Hs0 & _).
  destruct (initialize_cases t c cfg g0)
    as [(Hok & _ & Hst & _ & root & Hv & _)|(Hko & Hst & Hv)].
  - rewrite Hok. apply Hiff in Hok as (_ & -> & -> & ->). cbn [andb].
    split; [eexists; reflexivity|]. split; [exact Hst|]. now rewrite Hv.
  - rewrite Hko.
    assert (Hno : is_ok (_validateTaskDescription t)
                  && is_ok (_validateConfidenceArray (confidence_or_default c)
                              "initial_confidence")
                  && is_ok (_validateConfig (config_or_default cfg)) = false).
    { destruct (is_ok (_validateTaskDescription t)); [|reflexivity].
      destruct (is_ok (_validateConfidenceArray _ _)); [|reflexivity].
      destruct (is_ok (_validateConfig _)); [|reflexivity].
      rewrite (proj2 Hiff) in Hko by auto. discriminate Hko. }
    rewrite Hno. split; [eexists; reflexivity|]. split; [exact Hst|].
    split; [exact Hv|].
    destruct (initialize_shape t c cfg g0) as [(_ & ->)|(Hok & _)].
    + intros _. now destruct (new_graph_empty _ _ Hnew) as (_ & -> & _).
    + now destruct (reset_empty g0) as (_ & -> & _).
    + congruence.
Qed.

(** X22, witness: on the decomposed scenario, a call with a description
    that is too short leaves a blank graph. *)
Lemma tool_initialize_replaces_witness :
  exists g r,
    call_tool (VStr "initialize_asr_got_graph")
      (VObj [("task_description", VStr "too short")]) (Some decomposed_graph)
    = (Some g, Returned r)
    /\ (exists result, r = initialize_failure result)
    /\ currentStage g = 0%nat
    /\ vertices g = [] /\ edges g = [].
Proof.
  destruct (tool_initialize_replaces [("task_description", VStr "too short")]
              (Some decomposed_graph) eq_refl)
    as (g & r & Hcall & _ & H).
  exists g, r. split; [exact Hcall|]. exact H.
Defined.

Lemma exportGraph_validated (f : string) (g : graph) :
  existsb (String.eqb (Str.toLowerCase f)) ["json"; "yaml"] = true ->
  is_ok (exportGraph (VStr (Str.toLowerCase f)) g) = true.
Proof.
  cbn [existsb]. intros H.
  apply orb_prop in H as [H|H].
  - apply String.eqb_eq in H. rewrite H. reflexivity.
  - rewrite orb_false_r in H. apply String.eqb_eq in H. rewrite H. reflexivity.
Qed.

(** X23.  The two reading tools never raise an error and never change
    the state: [get_graph_summary] and [export_graph_data] answer every
    call, with a fallback reply when there is no graph or the format is
    refused.  The handler hands [exportGraph] only [json] or [yaml], so
    the exception of [exportGraph] for an unsupported format is never
    what the fallback reports. *)
Theorem reading_tools_never_fail (fields : list (string * value))
    (currentGraph : option graph) :
  (exists r,
      call_tool (VStr "get_graph_summary") (VObj fields) currentGraph
      = (currentGraph, Returned r))
  /\ (exists r,
        call_tool (VStr "export_graph_data") (VObj fields) currentGraph
        = (currentGraph, Returned r)
        /\ forall e n m k, r <> export_fallback (CaughtExn e) n m k).
Proof.
  cbn [call_tool Js.ToString Js.printable String.eqb Ascii.eqb Bool.eqb andb]. split.
  - unfold tool_summary. destruct currentGraph; eexists; reflexivity.
  - unfold tool_export. destruct currentGraph as [g|].
    2:{ eexists. split; [reflexivity|]. discriminate. }
    destruct (if Js.truthy (Js.prop "format" (VObj fields))
              then Js.prop "format" (VObj fields) else VStr "json")
      as [| | | |f| |]; try (eexists; split; [reflexivity|discriminate]).
    destruct (negb (Js.truthy (VStr f)));
      [eexists; split; [reflexivity|discriminate]|].
    destruct (existsb (String.eqb (Str.toLowerCase f)) ["json"; "yaml"]) eqn:Hf;
      [|eexists; split; [reflexivity|discriminate]].
    pose proof (exportGraph_validated f g Hf) as Hok.
    destruct (exportGraph (VStr (Str.toLowerCase f)) g); [|discriminate Hok].
    eexists. split; [reflexivity|discriminate].
Qed.

(** ** The export format *)

(** X24.  [_validateExportFormat] and [exportGraph] agree: [exportGraph]
    returns for exactly the formats the validator accepts, and for an
    absent one; the validated format is [json] or [yaml], and exporting
    with it gives the same text as exporting with the format as it was
    written, in whatever case. *)
Theorem exportGraph_accepts_validated (format : value) (g : graph) :
  (is_ok (exportGraph format g) = true
   <-> format = VUndefined \/ is_ok (_validateExportFormat format) = true)
  /\ forall validated,
       _validateExportFormat format = Ok validated ->
       (validated = "json" \/ validated = "yaml")
       /\ exportGraph (VStr validated) g = exportGraph format g
       /\ is_ok (exportGraph format g) = true.
Proof.
  split.
  - destruct format as [| |b|x|f|items|fields]; cbn;
      try (split; [discriminate|intros [H|H]; discriminate H]).
    + split; auto.
    + destruct (String.eqb_spec f "") as [->|Hne]; cbn.
      { split; [discriminate|intros [H|H]; discriminate H]. }
      destruct (String.eqb (Str.toLowerCase f) "json"); cbn; [split; auto|].
      destruct (String.eqb (Str.toLowerCase f) "yaml"); cbn; [split; auto|].
      split; [discriminate|intros [H|H]; discriminate H].
  - intros validated.
    destruct format as [| |b|x|f|items|fields]; cbn; try discriminate.
    destruct (String.eqb_spec f "") as [->|Hne]; cbn; [discriminate|].
    destruct (String.eqb_spec (Str.toLowerCase f) "json") as [Hj|Hj]; cbn.
    { intros [= <-]. rewrite Hj. cbn. auto. }
    destruct (String.eqb_spec (Str.toLowerCase f) "yaml") as [Hy|Hy]; cbn;
      [|discriminate].
    intros [= <-]. rewrite Hy. cbn. auto.
Qed.

(** X24, witness: the format in capitals, on a new instance. *)
Lemma exportGraph_accepts_validated_witness :
  ("json" = "json" \/ "json" = "yaml")
  /\ exportGraph (VStr "json") fresh_graph = exportGraph (VStr "JSON") fresh_graph
  /\ is_ok (exportGraph (VStr "JSON") fresh_graph) = true.
Proof.
  exact (proj2 (exportGraph_accepts_validated (VStr "JSON") fresh_graph)
           "json" eq_refl).
Defined.

(** ** The checks of [generateHypotheses] that never fail *)

Lemma validateDimensionNodeId_ok (d : value) (nodes : JsMap.t Node.t) (id : string) :
  _validateDimensionNodeId d (Some nodes) = Ok id ->
  d = VStr id /\ is_dimension_id_format id = true /\ JsMap.has id nodes = true.
Proof.
  unfold _validateDimensionNodeId.
  destruct d as [| | | |s| |]; try discriminate.
  destruct (String.eqb s ""); [discriminate|].
  destruct (is_dimension_id_format s) eqn:Hf; cbn [negb]; [|discriminate].
  destruct (JsMap.has s nodes) eqn:Hhas; cbn [negb]; [|discriminate].
  intros [= <-]. auto.
Qed.

(** X25.  On an instance at cursor 2, the only checks of
    [generateHypotheses] that can fail before its loop are its two
    validators.  An id that [_validateDimensionNodeId] accepts is always
    the id [2.(a+1)] of a dimension node, so the tests for a node that is
    missing, for a node that is not a dimension node and for an id that
    does not split in two are never what stops the call. *)
Theorem generateHypotheses_checks_reachable (d hs : value) (g : graph)
    (id : string) (items : list value) :
  reachable g ->
  currentStage g = 2%nat ->
  _validateDimensionNodeId d (Some (vertices g)) = Ok id ->
  _validateHypothesesArray hs = Ok items ->
  exists a node,
    id = dimension_id a
    /\ JsMap.get id (vertices g) = Some node
    /\ Node.type node = "dimension"
    /\ hypotheses_checks d hs g = Ok (id, Str.of_nat (a + 1), items).
Proof.
  intros Hr Hs Hid Hitems.
  apply validateDimensionNodeId_ok in Hid as (-> & Hf & Hhas).
  apply validateHypothesesArray_ok in Hitems as (-> & Hvalid).
  pose proof Hhas as Hget. unfold JsMap.has in Hget.
  destruct (JsMap.get id (vertices g)) as [node|] eqn:Hnode; [clear Hget|discriminate].
  destruct (split_dimension_id id Hf) as (number & _ & Hnum).
  destruct (form_vertices g (reachable_form g Hr) _ _ (get_In _ _ _ Hnode))
    as (_ & _ & [(H & _)|[(a & Ha & Hty & _)|(b & i & H & _)]]).
  - subst id. discriminate H.
  - exists a, node.
    destruct (checks_ok id items node g Hs Hf Hnode Hty Hvalid)
      as (number' & Hid' & Hchecks).
    assert (number' = Str.of_nat (a + 1)).
    { rewrite Ha in Hid'. unfold dimension_id in Hid'.
      apply (append_inj_l "2.") in Hid'. now symmetry. }
    subst number'. auto.
  - subst id. discriminate H.
Qed.

(** X25, witness: the third dimension of the decomposed scenario. *)
Lemma generateHypotheses_checks_reachable_witness :
  exists a node,
    "2.3" = dimension_id a
    /\ JsMap.get "2.3" (vertices decomposed_graph) = Some node
    /\ Node.type node = "dimension"
    /\ hypotheses_checks (VStr "2.3") (VArr [VStr "one"; VStr "two"; VStr "three"])
         decomposed_graph
       = Ok ("2.3", Str.of_nat (a + 1), [VStr "one"; VStr "two"; VStr "three"]).
Proof.
  exact (generateHypotheses_checks_reachable (VStr "2.3")
           (VArr [VStr "one"; VStr "two"; VStr "three"]) decomposed_graph "2.3"
           [VStr "one"; VStr "two"; VStr "three"]
           decomposed_graph_reachable eq_refl eq_refl eq_refl).
Defined.

(** ** Impact scores *)

Lemma validateImpactScore_in_unit (score : float) :
  Num.out_of_unit (_validateImpactScore score) = false.
Proof.
  unfold _validateImpactScore.
  destruct (Num.out_of_unit score) eqn:H; [reflexivity|exact H].
Qed.

Lemma accepted_items_valid (hypotheses : list value) :
  forall index entry,
    In entry (accepted_items index hypotheses) ->
    exists h, _validateHypothesis h (fst entry) = Ok (snd entry).
Proof.
  induction hypotheses as [|h rest IH]; intros index entry; cbn; [tauto|].
  destruct (_validateHypothesis h index) as [vh|e] eqn:Hv.
  - intros [<-|H]; [now exists h|eauto].
  - eauto.
Qed.

Lemma confidence_choice (confidence : value) (paramName : string) (c : list float) :
  let validated_or_none (x : value) :=
    match _validateConfidenceArray x paramName with
    | Ok validated => Some validated
    | Throw _ => None
    end in
  match confidence with
  | VUndefined => None
  | VNull => validated_or_none VNull
  | VBool b => validated_or_none (VBool b)
  | VNum x => validated_or_none (VNum x)
  | VStr s => validated_or_none (VStr s)
  | VArr items => validated_or_none (VArr items)
  | VObj fields => validated_or_none (VObj fields)
  end = Some c ->
  _validateConfidenceArray confidence paramName = Ok c.
Proof.
  cbv zeta.
  destruct confidence; try discriminate; intros H;
    match type of H with
    | match ?r with _ => _ end = _ =>
        destruct r as [validated|]; [now injection H as <-|discriminate H]
    end.
Qed.

(** What [_validateHypothesis] lets through: a score and a confidence
    vector that are in range. *)
Lemma validateHypothesis_ranges (h : value) (index : nat) (vh : validated_hypothesis) :
  _validateHypothesis h index = Ok vh ->
  (forall s, vh_impact_score vh = Some s -> Num.out_of_unit s = false)
  /\ (forall c, vh_confidence vh = Some c ->
        List.length c = 4%nat /\ Forall (fun x => Num.out_of_unit x = false) c).
Proof.
  unfold _validateHypothesis.
  assert (Hobj : forall vh',
             validate_hypothesis_object h index = Ok vh' ->
             (forall s, vh_impact_score vh' = Some s -> Num.out_of_unit s = false)
             /\ (forall c, vh_confidence vh' = Some c ->
                   List.length c = 4%nat
                   /\ Forall (fun x => Num.out_of_unit x = false) c)).
  { intros vh'. unfold validate_hypothesis_object.
    destruct (nonblank (Js.prop "content" h)) as [content|]; [|discriminate].
    intros H. bind_ok H. injection H as <-.
    cbn [vh_impact_score vh_confidence]. split.
    - intros s ->.
      destruct (Js.prop "impact_score" h); try discriminate;
        match goal with
        | E : bind ?r _ = Ok (Some s) |- _ =>
            destruct r as [score|]; cbn [bind] in E; [|discriminate E];
            destruct (Num.out_of_unit score) eqn:Hs; [discriminate E|];
            now injection E as <-
        end.
    - intros c Hc.
      pose proof (confidence_choice (Js.prop "confidence" h)
                    (hypothesis_field index ".confidence") c Hc) as Hc'.
      apply validateConfidenceArray_ok in Hc' as (entries & _ & Hlen & Hmap & Hall).
      split; [|exact Hall].
      apply (f_equal (@List.length _)) in Hmap.
      rewrite !length_map in Hmap. congruence. }
  destruct h as [| |b|x|s|items|fields]; cbn;
    try discriminate; try (intros H; apply Hobj;
                           destruct (validate_hypothesis_object _ index) as [v|e];
                           [exact H|destruct (is_McpError e); discriminate H]).
  destruct (String.length (Str.trim s) =? 0)%nat; cbn; [discriminate|].
  intros [= <-]. cbn. split; discriminate.
Qed.

(** X26.  The impact score of every vertex of an instance is a number in
    [0, 1]: 0.8 for the root, 0.6 for a dimension node.  For a hypothesis
    node it is the score of the item when the item gives one other than
    0, and 0.6 otherwise: a score of 0 is read as no score. *)
Theorem impact_scores (g : graph) (k : string) (n : Node.t) :
  reachable g ->
  In (k, n) (vertices g) ->
  let impact := Meta.impact_score (Node.metadata n) in
  Num.out_of_unit impact = false
  /\ (Node.type n = "root" -> impact = 0.8)
  /\ (Node.type n = "dimension" -> impact = 0.6)
  /\ (Node.type n = "hypothesis" ->
      exists h index vh,
        _validateHypothesis h index = Ok vh
        /\ Node.content n = vh_content vh
        /\ impact = match vh_impact_score vh with
                    | Some s => if Num.truthy s then s else 0.6
                    | None => 0.6
                    end).
Proof.
  intros Hr Hin. cbv zeta.
  assert (Hroot : forall content conf sc,
             ("n0", root_node content conf sc) = (k, n) ->
             Num.out_of_unit (Meta.impact_score (Node.metadata n)) = false
             /\ (Node.type n = "root" -> Meta.impact_score (Node.metadata n) = 0.8)
             /\ (Node.type n = "dimension" -> Meta.impact_score (Node.metadata n) = 0.6)
             /\ (Node.type n = "hypothesis" ->
                 exists h index vh,
                   _validateHypothesis h index = Ok vh
                   /\ Node.content n = vh_content vh
                   /\ Meta.impact_score (Node.metadata n)
                      = match vh_impact_score vh with
                        | Some s => if Num.truthy s then s else 0.6
                        | None => 0.6
                        end)).
  { intros content conf sc [= <- <-]. cbn [root_node Node.metadata Node.type].
    split; [apply validateImpactScore_in_unit|].
    split; [reflexivity|]. split; discriminate. }
  assert (Hdim : forall names,
             In (k, n) (map dimension_vertex (indexed 0 names)) ->
             Num.out_of_unit (Meta.impact_score (Node.metadata n)) = false
             /\ (Node.type n = "root" -> Meta.impact_score (Node.metadata n) = 0.8)
             /\ (Node.type n = "dimension" -> Meta.impact_score (Node.metadata n) = 0.6)
             /\ (Node.type n = "hypothesis" ->
                 exists h index vh,
                   _validateHypothesis h index = Ok vh
                   /\ Node.content n = vh_content vh
                   /\ Meta.impact_score (Node.metadata n)
                      = match vh_impact_score vh with
                        | Some s => if Num.truthy s then s else 0.6
                        | None => 0.6
                        end)).
  { intros names H. apply in_map_iff in H as ([i name] & [= <- <-] & _).
    cbn [stored_dimension_node dimension_node Node.metadata Node.type fst snd].
    split; [apply validateImpactScore_in_unit|].
    split; [discriminate|]. split; [reflexivity|discriminate]. }
  destruct (reachable_form g Hr) as [? Hv ?|? ? ? ? ? ? Hv ?|? ? ? ? ? ? Hv ?
                                    |? ? ? ? a items ? ? ? ? ? Hv ?];
    rewrite Hv in Hin.
  - destruct Hin.
  - destruct Hin as [Hin|Hin]; [eapply Hroot, Hin|eapply Hdim, Hin].
  - destruct Hin as [Hin|Hin]; [eapply Hroot, Hin|eapply Hdim, Hin].
  - destruct Hin as [Hin|Hin]; [eapply Hroot, Hin|].
    apply in_app_or in Hin as [Hin|Hin]; [eapply Hdim, Hin|].
    apply in_map_iff in Hin as ([i vh] & [= <- <-] & Hacc).
    destruct (accepted_items_valid _ _ _ Hacc) as (h & Hvalid). cbn [fst snd] in *.
    cbn [hypothesis_node Node.metadata Node.type Node.content _createNodeMetadata
         Meta.impact_score Meta.b_impact_score].
    split; [apply validateImpactScore_in_unit|].
    split; [discriminate|]. split; [discriminate|]. intros _.
    exists h, i, vh. split; [exact Hvalid|]. split; [reflexivity|].
    unfold _validateImpactScore.
    destruct (vh_impact_score vh) as [s|] eqn:Hs; [|reflexivity].
    destruct (Num.truthy s); [|reflexivity].
    now rewrite (proj1 (validateHypothesis_ranges h i vh Hvalid) s Hs).
Qed.

(** X26, witness: the first dimension node of the decomposed scenario. *)
Lemma impact_scores_witness :
  Num.out_of_unit
    (Meta.impact_score (Node.metadata (stored_dimension_node "2.1" (VStr "Scope"))))
  = false
  /\ Meta.impact_score (Node.metadata (stored_dimension_node "2.1" (VStr "Scope")))
     = 0.6.
Proof.
  destruct (impact_scores decomposed_graph "2.1"
              (stored_dimension_node "2.1" (VStr "Scope"))
              decomposed_graph_reachable
              ltac:(vm_compute; right; left; reflexivity))
    as (H1 & _ & H2 & _).
  split; [exact H1|exact (H2 eq_refl)].
Defined.

(** ** The two stage tools on a graph *)

(** X27.  With a graph, [decompose_research_task] has three outcomes.
    At a cursor other than 1 it raises an internal error that carries the
    message of the stage check, and the graph is unchanged.  At cursor 1
    the dimensions are the entries of [args.dimensions] when that is an
    array and the seven default names otherwise.  When every one of them
    has a string the tool returns the result of [decomposeTask], with the
    ids [2.1] to [2.n], and the cursor moves to 2.  When one of them has
    none, it raises an internal error that carries the message of the
    [TypeError]; the cursor stays at 1, but the graph has changed: the
    nodes of the entries before that one are stored.  The reply for a
    result that is not a success is never given. *)
Theorem tool_decompose_outcomes (fields : list (string * value)) (g : graph) :
  reachable g ->
  let call := call_tool (VStr "decompose_research_task") (VObj fields) (Some g) in
  let dimensions :=
    match Js.prop "dimensions" (VObj fields) with
    | VArr items => items
    | _ => defaultDimensions
    end in
  if negb (currentStage g =? 1)%nat then
    call
    = (Some g,
       Rejected
         {| code := InternalError;
            why := Failed "Task decomposition failed: "
                     (message_of (wrong_stage "Cannot decompose."
                                    (currentStage g) "1")) |})
  else
    exists (g' : graph) (root : Node.t) (old : list value),
      vertices g = ("n0", root) :: map dimension_vertex (indexed 0 old)
      /\ vertices g'
         = ("n0", root)
             :: map dimension_vertex
                  (indexed 0 (overwritten (stored_entries dimensions) old))
      /\ if forallb Js.printable dimensions then
           currentStage g' = 2%nat
           /\ exists r,
               call = (Some g', Returned (decompose_reply r))
               /\ dr_dimension_nodes r
                  = map dimension_id (seq 0 (List.length dimensions))
               /\ dr_dimensions r = dimensions
         else
           currentStage g' = 1%nat
           /\ call
              = (Some g',
                 Rejected
                   {| code := InternalError;
                      why := Failed "Task decomposition failed: "
                               [Text "Cannot convert object to primitive value"] |}).
Proof.
  intros Hr. cbv zeta.
  cbn [call_tool Js.ToString Js.printable String.eqb Ascii.eqb Bool.eqb andb].
  unfold tool_decompose.
  destruct (Nat.eqb_spec (currentStage g) 1) as [Hs|Hs]; cbn [negb].
  2:{ now rewrite (decomposeTask_wrong_stage _ _ Hs). }
  destruct (reachable_form g Hr)
    as [Hs0|content conf sc old _ Hp Hv He|? ? ? ? Hs2|? ? ? ? ? ? Hs3];
    try congruence.
  assert (Hb : JsMap.has "base" (layers g) = true)
    by (apply reachable_base; [assumption|congruence]).
  pose proof (decomposeTask_form
                (dimensions_argument (Js.prop "dimensions" (VObj fields)))
                g _ old Hs Hb Hv He) as H.
  assert (Hdims :
    taskDimensions_of (dimensions_argument (Js.prop "dimensions" (VObj fields)))
    = Ok match Js.prop "dimensions" (VObj fields) with
         | VArr items => items
         | _ => defaultDimensions
         end).
  { destruct (Js.prop "dimensions" (VObj fields)); reflexivity. }
  rewrite Hdims in H. cbv zeta in H. destruct H as (g' & Hv' & _ & H).
  exists g', (root_node content conf sc), old.
  split; [exact Hv|]. split; [exact Hv'|].
  set (dimensions := match Js.prop "dimensions" (VObj fields) with
                     | VArr items => items
                     | _ => defaultDimensions
                     end) in *.
  destruct (forallb Js.printable dimensions).
  - destruct H as (Hst & r & -> & Hok & Hids & Hd & _).
    split; [exact Hst|]. exists r. rewrite Hok. auto.
  - destruct H as (Hst & ->). auto.
Qed.

(** X27, witness: the tool on the initialized scenario with three
    dimensions of which the second has no string.  The call raises an
    internal error and leaves the node of the first dimension behind, at
    cursor 1. *)
Lemma tool_decompose_outcomes_witness :
  exists g',
    call_tool (VStr "decompose_research_task")
      (VObj [("dimensions",
              VArr [VNum 1.5; VObj [("toString", VNum 1)]; VStr "Ethics"])])
      (Some initialized_graph)
    = (Some g',
       Rejected
         {| code := InternalError;
            why := Failed "Task decomposition failed: "
                     [Text "Cannot convert object to primitive value"] |})
    /\ currentStage g' = 1%nat
    /\ map (fun kn => (fst kn, Node.label (snd kn), Node.content (snd kn)))
         (vertices g')
       = [("n0", VStr "Task Understanding",
           "Investigate the role of skin microbiome in disease");
          ("2.1", VNum 1.5, "Analysis of 1.5 aspects of the research task")].
Proof.
  pose proof (tool_decompose_outcomes
                [("dimensions",
                  VArr [VNum 1.5; VObj [("toString", VNum 1)]; VStr "Ethics"])]
                initialized_graph initialized_graph_reachable) as H.
  cbv zeta in H.
  replace (negb (currentStage initialized_graph =? 1)%nat) with false in H
    by reflexivity.
  destruct H as (g' & root & old & Hv & Hv' & H).
  match type of H with
  | (if ?c then _ else _) => replace c with false in H by reflexivity
  end.
  destruct H as (Hst & Hcall).
  exists g'. split; [exact Hcall|]. split; [exact Hst|].
  rewrite Hv'.
  assert (Hold : old = [] /\ root = root_node
                   "Investigate the role of skin microbiome in disease"
                   [0.8; 0.7; 0.9; 0.6] no_config).
  { destruct old; [|discriminate Hv]. split; [reflexivity|].
    vm_compute in Hv. injection Hv as <-. reflexivity. }
  destruct Hold as [-> ->]. vm_compute. reflexivity.
Defined.

(** X28.  With a graph and both required parameters, [generate_hypotheses]
    never raises an error: it returns the result of [generateHypotheses],
    as it is on success and marked as a failure otherwise, and a failure
    leaves the graph as it was.  A wrong cursor is answered with a
    failure reply, where [decompose_research_task] raises an error. *)
Theorem tool_hypotheses_outcomes (fields : list (string * value)) (g : graph) :
  reachable g ->
  Js.truthy (Js.prop "dimension_node_id" (VObj fields)) = true ->
  Js.truthy (Js.prop "hypotheses" (VObj fields)) = true ->
  exists g' r,
    call_tool (VStr "generate_hypotheses") (VObj fields) (Some g)
    = (Some g',
            Returned (if hypotheses_success r then hypotheses_reply r
                      else hypotheses_failure r))
    /\ (g', r)
       = generateHypotheses (Js.prop "dimension_node_id" (VObj fields))
           (Js.prop "hypotheses" (VObj fields)) (Js.prop "config" (VObj fields)) g
    /\ (hypotheses_success r = false -> g' = g)
    /\ (hypotheses_success r = true -> currentStage g = 2%nat /\ currentStage g' = 3%nat).
Proof.
  intros Hr Hid Hhs.
  cbn [call_tool Js.ToString Js.printable String.eqb Ascii.eqb Bool.eqb andb]. unfold tool_hypotheses.
  rewrite Hid, Hhs. cbn [negb].
  set (d := Js.prop "dimension_node_id" (VObj fields)).
  set (hs := Js.prop "hypotheses" (VObj fields)).
  set (cfg := Js.prop "config" (VObj fields)).
  pose proof (generateHypotheses_outcome d hs cfg g) as Hout.
  assert (Hfail : hypotheses_success (snd (generateHypotheses d hs cfg g)) = false ->
                  fst (generateHypotheses d hs cfg g) = g).
  { destruct (Nat.eq_dec (currentStage g) 2) as [Hs|Hs].
    - apply generateHypotheses_failed, reachable_base; [assumption|congruence].
    - intros _. now rewrite (generateHypotheses_wrong_stage _ _ _ _ Hs). }
  destruct (generateHypotheses d hs cfg g) as [g' r]. cbn [fst snd] in *.
  exists g', r. split; [reflexivity|]. split; [reflexivity|]. split; [exact Hfail|].
  intros Hok. destruct Hout as [(_ & H)|(H & _)]; [exact H|congruence].
Qed.

(** X28, witness: the tool on the decomposed scenario. *)
Lemma tool_hypotheses_outcomes_witness :
  exists g' r,
    call_tool (VStr "generate_hypotheses")
      (VObj [("dimension_node_id", VStr "2.1");
             ("hypotheses", VArr [VStr "first"; VStr "second"; VStr "third"])])
      (Some decomposed_graph)
    = (Some g', Returned (hypotheses_reply r))
    /\ currentStage g' = 3%nat.
Proof.
  destruct (tool_hypotheses_outcomes
              [("dimension_node_id", VStr "2.1");
               ("hypotheses", VArr [VStr "first"; VStr "second"; VStr "third"])]
              decomposed_graph decomposed_graph_reachable eq_refl eq_refl)
    as (g' & r & Hcall & Hrun & _ & Hok).
  exists g', r.
  assert (Hr : hypotheses_success r = true).
  { apply (f_equal snd) in Hrun. cbn [snd] in Hrun. rewrite Hrun.
    vm_compute. reflexivity. }
  rewrite Hr in Hcall. split; [exact Hcall|]. exact (proj2 (Hok Hr)).
Defined.

(** ** What every hypothesis node carries *)

Lemma nonblank_length (v : value) (s : string) :
  nonblank v = Some s -> String.length s <> 0%nat.
Proof.
  unfold nonblank. destruct v; try discriminate.
  destruct (Nat.eqb_spec (String.length (Str.trim s0)) 0); [discriminate|].
  now intros [= <-].
Qed.

(** What [_validateHypothesis] lets through: a content that is not empty,
    a plan with a type, criteria that are not empty. *)
Lemma validateHypothesis_fields (h : value) (index : nat) (vh : validated_hypothesis) :
  _validateHypothesis h index = Ok vh ->
  String.length (vh_content vh) <> 0%nat
  /\ (forall p, vh_plan vh = Some p ->
        Js.truthy (Js.prop "type" p) = true /\ Js.is_string (Js.prop "type" p) = true)
  /\ (forall c, vh_falsification_criteria vh = Some c -> String.length c <> 0%nat).
Proof.
  unfold _validateHypothesis.
  assert (Hobj : forall vh',
             validate_hypothesis_object h index = Ok vh' ->
             String.length (vh_content vh') <> 0%nat
             /\ (forall p, vh_plan vh' = Some p ->
                   Js.truthy (Js.prop "type" p) = true
                   /\ Js.is_string (Js.prop "type" p) = true)
             /\ (forall c, vh_falsification_criteria vh' = Some c ->
                   String.length c <> 0%nat)).
  { intros vh'. unfold validate_hypothesis_object.
    destruct (nonblank (Js.prop "content" h)) as [content|] eqn:Hcontent;
      [|discriminate].
    intros H. bind_ok H. injection H as <-.
    cbn [vh_content vh_plan vh_falsification_criteria].
    split; [exact (nonblank_length _ _ Hcontent)|]. split.
    - intros p ->.
      destruct (Js.prop "plan" h) eqn:Hp; try discriminate;
        match goal with
        | E : (if ?b then _ else _) = Ok (Some p) |- _ =>
            destruct b eqn:Hb; [discriminate E|];
            injection E as <-;
            apply orb_false_elim in Hb as [H1 H2];
            apply negb_false_iff in H1, H2; auto
        end.
    - intros c ->.
      destruct (Js.prop "falsification_criteria" h) eqn:Hf; try discriminate;
        match goal with
        | E : match nonblank ?v with _ => _ end = Ok (Some c) |- _ =>
            destruct (nonblank v) as [c'|] eqn:Hn; [|discriminate E];
            injection E as <-; exact (nonblank_length _ _ Hn)
        end. }
  destruct h as [| |b|x|s|items|fields]; cbn;
    try discriminate; try (intros H; apply Hobj;
                           destruct (validate_hypothesis_object _ index) as [v|e];
                           [exact H|destruct (is_McpError e); discriminate H]).
  destruct (Nat.eqb_spec (String.length (Str.trim s)) 0); cbn; [discriminate|].
  intros [= <-]. cbn. split; [assumption|]. split; discriminate.
Qed.

Lemma bias_flags_known (vh : validated_hypothesis) :
  incl (_assessInitialBiasRisk vh)
    ["absolute_thinking"; "confirmation_bias_risk"; "overconfidence_bias"].
Proof.
  unfold _assessInitialBiasRisk.
  destruct (_ || _); destruct (_ || _); destruct (_ || _); cbn;
    intros x Hx; cbn in *; tauto.
Qed.

(** X29.  Every hypothesis node of an instance is complete: its content
    is not empty, it has a plan with a type that is a non-empty string
    (the plan of the item, or the default literature search when the item
    gives none), its falsification criteria are absent or not empty, and
    its bias flags are among the three the code knows. *)
Theorem hypothesis_nodes_complete (g : graph) (k : string) (n : Node.t) :
  reachable g ->
  In (k, n) (vertices g) ->
  Node.type n = "hypothesis" ->
  String.length (Node.content n) <> 0%nat
  /\ (exists p, Meta.plan (Node.metadata n) = Some p
                /\ Js.truthy (Js.prop "type" p) = true
                /\ Js.is_string (Js.prop "type" p) = true)
  /\ match Meta.falsification_criteria (Node.metadata n) with
     | Some c => String.length c <> 0%nat
     | None => True
     end
  /\ incl (Meta.bias_flags (Node.metadata n))
       ["absolute_thinking"; "confirmation_bias_risk"; "overconfidence_bias"]
  /\ Meta.epistemic_status (Node.metadata n) = "hypothetical".
Proof.
  intros Hr Hin Hty.
  assert (Hroot : forall content conf sc,
             ("n0", root_node content conf sc) = (k, n) -> False).
  { intros content conf sc [= <- <-]. discriminate Hty. }
  assert (Hdim : forall names,
             In (k, n) (map dimension_vertex (indexed 0 names)) -> False).
  { intros names H. apply in_map_iff in H as ([i name] & [= <- <-] & _).
    discriminate Hty. }
  destruct (reachable_form g Hr) as [? Hv ?|? ? ? ? ? ? Hv ?|? ? ? ? ? ? Hv ?
                                    |? ? ? ? a items ? ? ? ? ? Hv ?];
    rewrite Hv in Hin.
  - destruct Hin.
  - destruct Hin as [Hin|Hin]; [destruct (Hroot _ _ _ Hin)|destruct (Hdim _ Hin)].
  - destruct Hin as [Hin|Hin]; [destruct (Hroot _ _ _ Hin)|destruct (Hdim _ Hin)].
  - destruct Hin as [Hin|Hin]; [destruct (Hroot _ _ _ Hin)|].
    apply in_app_or in Hin as [Hin|Hin]; [destruct (Hdim _ Hin)|].
    apply in_map_iff in Hin as ([i vh] & [= <- <-] & Hacc).
    destruct (accepted_items_valid _ _ _ Hacc) as (h & Hvalid). cbn [fst snd] in *.
    destruct (validateHypothesis_fields h i vh Hvalid) as (Hc & Hp & Hf).
    cbn [hypothesis_node Node.metadata Node.content _createNodeMetadata
         Meta.plan Meta.b_plan Meta.falsification_criteria
         Meta.b_falsification_criteria Meta.bias_flags Meta.b_bias_flags
         Meta.epistemic_status Meta.b_epistemic_status option_default].
    split; [exact Hc|]. split.
    { destruct (vh_plan vh) as [p|] eqn:Hplan; cbn [option_default].
      - exists p. split; [reflexivity|]. now apply Hp.
      - eexists. split; [reflexivity|]. split; reflexivity. }
    split.
    { destruct (vh_falsification_criteria vh) as [c|] eqn:Hfc; [|exact I].
      now apply Hf. }
    split; [apply bias_flags_known|reflexivity].
Qed.

(** X29, witness: the first hypothesis of the scenario, given as a plain
    string, gets the default plan. *)
Lemma hypothesis_nodes_complete_witness :
  let g :=
    run (GenerateHypotheses (VStr "2.1")
           (VArr [VStr "Skin bacteria modulate inflammation";
                  VStr "Dysbiosis precedes flares";
                  VStr "Probiotics restore the barrier"]) VUndefined)
      decomposed_graph in
  exists n,
    JsMap.get "3.1.1" (vertices g) = Some n
    /\ String.length (Node.content n) <> 0%nat
    /\ exists p, Meta.plan (Node.metadata n) = Some p
                 /\ Js.truthy (Js.prop "type" p) = true
                 /\ Js.is_string (Js.prop "type" p) = true.
Proof.
  cbv zeta.
  set (g := run _ decomposed_graph).
  destruct (JsMap.get "3.1.1" (vertices g)) as [n|] eqn:H;
    [|vm_compute in H; discriminate H].
  exists n. split; [reflexivity|].
  assert (Hty : Node.type n = "hypothesis").
  { vm_compute in H. injection H as <-. reflexivity. }
  destruct (hypothesis_nodes_complete g "3.1.1" n
              (reachable_run _ _ decomposed_graph_reachable)
              (get_In _ _ _ H) Hty)
    as (Hc & Hp & _).
  split; [exact Hc|exact Hp].
Defined.
